(** * Speech-to-text entry points: [scripts/transcribe.py] and
      [scripts/whisper_server.py]

    A shallow embedding of the two Python programs and the properties of
    their request handling.  Python [str] values are sequences of Unicode
    code points, [bytes] values are lists of bytes, the file system is a
    finite map from paths to file contents, and everything the programs
    do to the outside world (printing, sockets, temporary files, calls
    into the inference library) is recorded in an event trace. *)

From Stdlib Require Import ZArith NArith List Bool Lia.
From Stdlib Require Import Strings.String Strings.Ascii Strings.Byte.
From stdpp Require Import base option list gmap pretty.

Local Open Scope Z_scope.
Local Open Scope list_scope.

(* ===================================================================== *)
(** ** Python strings and bytes *)
(* ===================================================================== *)

(** A Python [str]: the sequence of its code points.  The strings of
    these programs are taken to be free of lone surrogates, so that
    every one of them has a UTF-8 encoding. *)
Definition pystr := list N.

(** A Python [bytes] object. *)
Definition pybytes := list byte.

Definition byte_of_N (n : N) : byte :=
  match Byte.of_N n with
  | Some b => b
  | None => x00
  end.

(** [s.encode('utf-8')], one code point at a time. *)
Definition utf8_encode_cp (c : N) : list byte :=
  if (c <? 128)%N then [byte_of_N c]
  else if (c <? 2048)%N then
    [byte_of_N (192 + c / 64); byte_of_N (128 + c mod 64)]
  else if (c <? 65536)%N then
    [byte_of_N (224 + c / 4096); byte_of_N (128 + (c / 64) mod 64);
     byte_of_N (128 + c mod 64)]
  else
    [byte_of_N (240 + c / 262144); byte_of_N (128 + (c / 4096) mod 64);
     byte_of_N (128 + (c / 64) mod 64); byte_of_N (128 + c mod 64)].

Definition utf8_encode (s : pystr) : pybytes :=
  flat_map utf8_encode_cp s.

(** Decoding of the UTF-8 text of this file's string literals, so that
    the literals of the Python sources can be written as they are. *)
Fixpoint utf8_decode (bs : list N) : pystr :=
  match bs with
  | [] => []
  | b0 :: r0 =>
    if (b0 <? 128)%N then b0 :: utf8_decode r0
    else match r0 with
    | [] => [b0]
    | b1 :: r1 =>
      if (b0 <? 224)%N then
        ((b0 - 192) * 64 + (b1 - 128))%N :: utf8_decode r1
      else match r1 with
      | [] => [b0; b1]
      | b2 :: r2 =>
        if (b0 <? 240)%N then
          ((b0 - 224) * 4096 + (b1 - 128) * 64 + (b2 - 128))%N
            :: utf8_decode r2
        else match r2 with
        | [] => [b0; b1; b2]
        | b3 :: r3 =>
          ((b0 - 240) * 262144 + (b1 - 128) * 4096
             + (b2 - 128) * 64 + (b3 - 128))%N :: utf8_decode r3
        end
      end
    end
  end.

(** A string literal of the Python source. *)
Definition py (s : string) : pystr :=
  utf8_decode (map Byte.to_N (list_byte_of_string s)).

(** The line feed that [sys.stderr.write] is given explicitly. *)
Definition LF : pystr := [10%N].

(** [str(n)] for an integer. *)
Definition str_of_int (n : Z) : pystr := py (pretty n).

(** [c.isspace()]: the code points [str.strip()] removes. *)
Definition isspace (c : N) : bool :=
  ((9 <=? c) && (c <=? 13) || (28 <=? c) && (c <=? 32)
   || (c =? 133) || (c =? 160) || (c =? 5760)
   || (8192 <=? c) && (c <=? 8202)
   || (c =? 8232) || (c =? 8233) || (c =? 8239) || (c =? 8287)
   || (c =? 12288))%N.

Fixpoint lstrip (s : pystr) : pystr :=
  match s with
  | [] => []
  | c :: s' => if isspace c then lstrip s' else s
  end.

Definition rstrip (s : pystr) : pystr := rev (lstrip (rev s)).

(** [s.strip()] *)
Definition strip (s : pystr) : pystr := rstrip (lstrip s).

(** [s.startswith(p)] *)
Fixpoint startswith (p s : pystr) : bool :=
  match p, s with
  | [], _ => true
  | _ :: _, [] => false
  | a :: p', b :: s' => (a =? b)%N && startswith p' s'
  end.

(** [h in text] for two strings: [h] occurs somewhere in [text]. *)
Fixpoint contains (h text : pystr) : bool :=
  startswith h text ||
  match text with
  | [] => false
  | _ :: text' => contains h text'
  end.

(** [h] occurs in [text] as a substring. *)
Definition occurs_in (h text : pystr) : Prop :=
  exists pre post, text = pre ++ h ++ post.

(** [''.join(parts)], the join on the empty string *)
Definition join (parts : list pystr) : pystr := concat parts.

(* ===================================================================== *)
(** ** JSON results *)
(* ===================================================================== *)

(** A Python [float].  Neither program computes with floats: they come
    from the inference library (or from a literal of the source) and
    are handed on, so a float is carried by the text [repr] gives for
    it. *)
Record pyfloat := Float { float_repr : pystr }.

(** The values the result dictionaries hold. *)
Inductive Json :=
| JBool (b : bool)
| JStr (s : pystr)
| JFloat (f : pyfloat).

(** A Python [dict] with string keys, in insertion order (the order
    [json.dumps] writes the keys in). *)
Definition dict := list (pystr * Json).

(** [d[k]] / [d.get(k)] *)
Fixpoint dict_get (k : pystr) (d : dict) : option Json :=
  match d with
  | [] => None
  | (k', v) :: d' => if bool_decide (k = k') then Some v else dict_get k d'
  end.

Definition hex_digit (n : N) : N :=
  (if n <? 10 then 48 + n else 87 + n)%N.

(** [json.dumps(..., ensure_ascii=False)] on one character of a string:
    the quote, the backslash and the control characters are escaped,
    everything else is written as it is. *)
Definition json_escape_cp (c : N) : pystr :=
  (if c =? 34 then [92; 34]
   else if c =? 92 then [92; 92]
   else if c =? 10 then [92; 110]
   else if c =? 13 then [92; 114]
   else if c =? 9 then [92; 116]
   else if c =? 8 then [92; 98]
   else if c =? 12 then [92; 102]
   else if c <? 32 then [92; 117; 48; 48; hex_digit (c / 16); hex_digit (c mod 16)]
   else [c])%N.

Definition json_str (s : pystr) : pystr :=
  [34%N] ++ flat_map json_escape_cp s ++ [34%N].

Definition json_float (f : pyfloat) : pystr :=
  let r := float_repr f in
  if bool_decide (r = py "nan") then py "NaN"
  else if bool_decide (r = py "inf") then py "Infinity"
  else if bool_decide (r = py "-inf") then py "-Infinity"
  else r.

Definition json_value (v : Json) : pystr :=
  match v with
  | JBool true => py "true"
  | JBool false => py "false"
  | JStr s => json_str s
  | JFloat f => json_float f
  end.

Fixpoint json_items (d : dict) : pystr :=
  match d with
  | [] => []
  | [(k, v)] => json_str k ++ py ": " ++ json_value v
  | (k, v) :: d' => json_str k ++ py ": " ++ json_value v ++ py ", " ++ json_items d'
  end.

(** [json.dumps(d, ensure_ascii=False)] *)
Definition json_dumps (d : dict) : pystr :=
  py "{" ++ json_items d ++ py "}".

(* ===================================================================== *)
(** ** Exceptions, the engine's values, and the outside world *)
(* ===================================================================== *)

(** An exception object derived from [Exception]: its class and the
    text [str(e)] gives. *)
Record PyExc := mkExc { exc_class : string; exc_str : pystr }.

(** What a call into a library does: it returns, or raises an
    exception derived from [Exception]. *)
Inductive Outcome (A : Type) :=
| Returned (a : A)
| Raises (e : PyExc).
Arguments Returned {A} a.
Arguments Raises {A} e.

(** What unwinds the Python stack: an [Exception], caught by
    [except Exception], or the [SystemExit] of [sys.exit], which is not. *)
Inductive Raised :=
| Exception (e : PyExc)
| SystemExit (code : Z).

(** The handle [WhisperModel(size, device=..., compute_type=...)]
    returns, known by what it was built with. *)
Record Model := mkModel {
  model_size : pystr;
  model_device : pystr;
  model_compute_type : pystr
}.

(** [vad_parameters=dict(...)]; [None] for a key that is not given. *)
Record VadParameters := mkVad {
  min_silence_duration_ms : option Z;
  speech_pad_ms : option Z
}.

(** The keyword arguments of one [model.transcribe(path, ...)] call;
    [None] for a keyword the call does not pass. *)
Record TranscribeArgs := mkArgs {
  language : option pystr;
  beam_size : option Z;
  best_of : option Z;
  vad_filter : option bool;
  vad_parameters : option VadParameters;
  word_timestamps : option bool;
  condition_on_previous_text : option bool;
  initial_prompt : option pystr;
  no_speech_threshold : option pyfloat
}.

(** [info] of [segments, info = model.transcribe(...)]. *)
Record Info := mkInfo {
  info_language : pystr;
  info_language_probability : pyfloat;
  info_duration : pyfloat
}.

(** One element of [segments]; only [seg.text] is read. *)
Record Segment := mkSegment { seg_text : pystr }.

(** What [model.transcribe] returns: [segments] is a generator, it
    yields [seg_list] and then either stops or, when [seg_error] is set,
    raises while it is being iterated. *)
Record Transcription := mkTranscription {
  seg_list : list Segment;
  seg_error : option PyExc;
  info : Info
}.

(** What [import torch; torch.cuda.is_available()] finds. *)
Inductive TorchProbe :=
| TorchNotInstalled
| TorchCuda (available : bool) (device_name : pystr).

(** The parts of the run that the programs do not decide: the library
    functions they call and what the machine answers. *)
Record Env := mkEnv {
  (** [int(s)] on a string *)
  py_int : pystr -> Outcome Z;
  (** the outcome of [import torch] and [torch.cuda.is_available()] *)
  torch : TorchProbe;
  (** [WhisperModel(size, device, compute_type)]: [Some e] when it raises *)
  whisper_model_error : pystr -> pystr -> pystr -> option PyExc;
  (** [wave.open(io.BytesIO(b), 'rb').getframerate()] *)
  wave_getframerate : pybytes -> Outcome Z;
  (** the file names [tempfile] tries in turn (at most [TMP_MAX]) *)
  tmp_names : list pystr;
  (** [tmp.write(data)] and the closing of the file: [Some e] when the
      data cannot be written *)
  tmp_write_error : pybytes -> option PyExc;
  (** what a write that fails has put into the file by then *)
  tmp_written : pybytes -> pybytes;
  (** the memory for one read from the connection, in bytes over the
      64 KiB that a process which got as far as a handler is taken to
      have *)
  read_limit : N;
  (** [print(text)] on the standard output of the script: [Some e]
      when its encoding cannot hold the text *)
  stdout_error : pystr -> option PyExc;
  (** [model.transcribe(path, ...)] on a file with the given contents
      ([None]: no such file) *)
  whisper_transcribe :
    Model -> option pybytes -> TranscribeArgs -> Outcome Transcription
}.

(** Everything the programs do that can be seen from outside. *)
Inductive Event :=
| Stdout (line : pystr)                  (* print(line) *)
| Stderr (text : pystr)                  (* sys.stderr.write(text) *)
| PrintExc (e : PyExc)                   (* traceback.print_exc(), on stderr *)
| LoadModel (size device compute_type : pystr)   (* WhisperModel(...) *)
| RfileRead (n : Z)                      (* self.rfile.read(n) *)
| TmpCreate (path : pystr)               (* NamedTemporaryFile(...) *)
| TmpWrite (path : pystr) (data : pybytes)   (* tmp.write(data) *)
| Transcribe (m : Model) (path : pystr) (kw : TranscribeArgs)
             (out : Outcome Transcription)
| Unlink (path : pystr)                  (* os.unlink(path) *)
| SendResponse (code : Z)                (* self.send_response(code) *)
| SendHeader (keyword value : pystr)     (* self.send_header(keyword, value) *)
| EndHeaders                             (* self.end_headers() *)
| WfileWrite (data : pybytes)            (* self.wfile.write(data) *)
| SendError (code : Z).                  (* self.send_error(code) *)

(** The mutable state: the files on disk and the module global
    [model] ([None] until a model has been loaded). *)
Record State := mkState {
  fs : gmap pystr pybytes;
  model : option Model
}.

Definition set_fs (f : gmap pystr pybytes) (st : State) : State :=
  {| fs := f; model := model st |}.

Definition set_model (m : Model) (st : State) : State :=
  {| fs := fs st; model := Some m |}.

(* ===================================================================== *)
(** ** The monad of Python code: state, trace and exceptions *)
(* ===================================================================== *)

Inductive Res (A : Type) :=
| Ret (a : A)
| Raise (r : Raised).
Arguments Ret {A} a.
Arguments Raise {A} r.

Definition M (A : Type) : Type := State -> Res A * State * list Event.

Definition ret {A} (a : A) : M A := fun st => (Ret a, st, []).

Definition bind {A B} (c : M A) (k : A -> M B) : M B := fun st =>
  match c st with
  | (Ret a, st1, ev1) =>
      match k a st1 with
      | (r, st2, ev2) => (r, st2, ev1 ++ ev2)
      end
  | (Raise x, st1, ev1) => (Raise x, st1, ev1)
  end.

Notation "x <- c ;; k" := (bind c (fun x => k))
  (at level 100, c at next level, right associativity).
Notation "c ;;; k" := (bind c (fun _ => k))
  (at level 100, right associativity).

(** [raise e] *)
Definition raise {A} (e : PyExc) : M A := fun st => (Raise (Exception e), st, []).

(** [sys.exit(code)] *)
Definition sys_exit {A} (code : Z) : M A := fun st => (Raise (SystemExit code), st, []).

Definition emit (e : Event) : M unit := fun st => (Ret tt, st, [e]).

Definition get : M State := fun st => (Ret st, st, []).

Definition put (st' : State) : M unit := fun _ => (Ret tt, st', []).

(** The result of a library call, in the program. *)
Definition lift {A} (o : Outcome A) : M A :=
  match o with
  | Returned a => ret a
  | Raises e => raise e
  end.

(** [try: body  finally: fin] *)
Definition try_finally {A} (body : M A) (fin : M unit) : M A := fun st =>
  match body st with
  | (r, st1, ev1) =>
      match fin st1 with
      | (Ret _, st2, ev2) => (r, st2, ev1 ++ ev2)
      | (Raise x, st2, ev2) => (Raise x, st2, ev1 ++ ev2)
      end
  end.

(** [try: body  except Exception as e: handler] *)
Definition try_except {A} (body : M A) (handler : PyExc -> M A) : M A := fun st =>
  match body st with
  | (Raise (Exception e), st1, ev1) =>
      match handler e st1 with
      | (r, st2, ev2) => (r, st2, ev1 ++ ev2)
      end
  | other => other
  end.

(* ===================================================================== *)
(** ** Library calls both programs make *)
(* ===================================================================== *)

(** [print(line)] *)
Definition print (line : pystr) : M unit := emit (Stdout line).

(** [print(text)] of a text that is not plain ASCII by construction
    (the script's result, dumped with [ensure_ascii=False]): it raises
    [UnicodeEncodeError], and writes nothing, on a standard output that
    cannot encode it. *)
Definition print_text (env : Env) (text : pystr) : M unit :=
  match stdout_error env text with
  | Some e => raise e
  | None => print text
  end.

(** [sys.stderr.write(text)] *)
Definition stderr_write (text : pystr) : M unit := emit (Stderr text).

(** [WhisperModel(size, device=device, compute_type=compute_type)] *)
Definition WhisperModel (env : Env) (size device compute_type : pystr) : M Model :=
  emit (LoadModel size device compute_type);;;
  match whisper_model_error env size device compute_type with
  | Some e => raise e
  | None => ret (mkModel size device compute_type)
  end.

(** The name [tempfile] settles on: the first candidate that no file
    has yet. *)
Definition tmp_choice (env : Env) (st : State) : option pystr :=
  List.find (fun p => bool_decide (fs st !! p = None)) (tmp_names env).

Definition no_tmp_error : PyExc :=
  mkExc "FileExistsError" (py "[Errno 17] No usable temporary file name found").

(** [tempfile.NamedTemporaryFile(suffix='.wav', delete=False)]: the file
    is created, empty, under the first of the candidate names that is
    not taken; [FileExistsError] when none is left. *)
Definition NamedTemporaryFile (env : Env) : M pystr := fun st =>
  match tmp_choice env st with
  | Some p => (Ret p, set_fs (<[p := []]> (fs st)) st, [TmpCreate p])
  | None => (Raise (Exception no_tmp_error), st, [])
  end.

(** [tmp.write(data)], flushed when the [with] block closes the file;
    a write that fails leaves in the file what it had put there. *)
Definition tmp_write (env : Env) (path : pystr) (data : pybytes) : M unit := fun st =>
  match tmp_write_error env data with
  | Some e =>
      (Raise (Exception e), set_fs (<[path := tmp_written env data]> (fs st)) st, [])
  | None => (Ret tt, set_fs (<[path := data]> (fs st)) st, [TmpWrite path data])
  end.

(** [with tempfile.NamedTemporaryFile(suffix='.wav', delete=False) as tmp:
       tmp.write(data); tmp_path = tmp.name] *)
Definition write_temp_wav (env : Env) (data : pybytes) : M pystr :=
  tmp <- NamedTemporaryFile env;;
  tmp_write env tmp data;;;
  ret tmp.

(** [os.unlink(path)] *)
Definition os_unlink (path : pystr) : M unit := fun st =>
  match fs st !! path with
  | Some _ => (Ret tt, set_fs (delete path (fs st)) st, [Unlink path])
  | None =>
      (Raise (Exception (mkExc "FileNotFoundError"
                (py "[Errno 2] No such file or directory: '" ++ path ++ py "'"))),
       st, [])
  end.

(** [m.transcribe(path, **kw)]: the engine reads the file at [path]. *)
Definition model_transcribe (env : Env) (m : Model) (path : pystr)
    (kw : TranscribeArgs) : M Transcription := fun st =>
  let out := whisper_transcribe env m (fs st !! path) kw in
  match out with
  | Returned t => (Ret t, st, [Transcribe m path kw out])
  | Raises e => (Raise (Exception e), st, [Transcribe m path kw out])
  end.

(** [for seg in segments]: the generator is run to its end, where it
    may raise. *)
Definition iterate (t : Transcription) : M (list Segment) :=
  match seg_error t with
  | None => ret (seg_list t)
  | Some e => raise e
  end.

(** How the interpreter ends a program: status 0 at the end of the
    script, the status given to [sys.exit], and for an exception nobody
    caught the traceback on stderr and status 1. *)
Definition run_process (prog : M unit) (st : State) : Z * State * list Event :=
  match prog st with
  | (Ret _, st', ev) => (0, st', ev)
  | (Raise (SystemExit code), st', ev) => (code, st', ev)
  | (Raise (Exception e), st', ev) => (1, st', ev ++ [PrintExc e])
  end.

(** What a trace wrote on stdout and on stderr. *)
Definition stdout_of (ev : list Event) : list pystr :=
  omap (fun e => match e with Stdout l => Some l | _ => None end) ev.

Definition on_stderr (e : Event) : bool :=
  match e with
  | Stderr _ | PrintExc _ => true
  | _ => false
  end.

Definition stderr_of (ev : list Event) : list Event := List.filter on_stderr ev.

(** The status codes of the responses a trace sent. *)
Definition statuses (ev : list Event) : list Z :=
  omap (fun e => match e with
                 | SendResponse c | SendError c => Some c
                 | _ => None
                 end) ev.

(** The bodies the handler writes with [self.wfile.write] (the HTML page
    of an error reply is part of [SendError]). *)
Definition bodies (ev : list Event) : list pybytes :=
  omap (fun e => match e with WfileWrite b => Some b | _ => None end) ev.

(** Events that are neither a status line nor a body. *)
Definition silent (e : Event) : bool :=
  match e with
  | SendResponse _ | SendError _ | WfileWrite _ => false
  | _ => true
  end.

(** Events that touch the audio of a request: reading the body,
    making or writing a temporary file, calling the engine. *)
Definition handles_audio (e : Event) : bool :=
  match e with
  | RfileRead _ | TmpCreate _ | TmpWrite _ _ | Transcribe _ _ _ _
  | Unlink _ | LoadModel _ _ _ => true
  | _ => false
  end.

(** The bytes of a text, written here with single quotes where the
    text has double quotes. *)
Definition quoted (s : string) : pybytes :=
  map (fun b => if Byte.eqb b x27 then x22 else b) (list_byte_of_string s).

(** The same, as a string. *)
Definition quoted_text (s : string) : pystr :=
  utf8_decode (map Byte.to_N (quoted s)).

(** The events of a server that is starting up: lines on stdout and
    the loading of the model. *)
Definition startup_event (e : Event) : bool :=
  match e with
  | Stdout _ | LoadModel _ _ _ => true
  | _ => false
  end.

(** The inference calls of a trace. *)
Definition is_transcribe (e : Event) : bool :=
  match e with
  | Transcribe _ _ _ _ => true
  | _ => false
  end.

Definition inference_calls (ev : list Event) : list Event :=
  List.filter is_transcribe ev.

(** The loadings of a model in a trace. *)
Definition is_load (e : Event) : bool :=
  match e with
  | LoadModel _ _ _ => true
  | _ => false
  end.

Definition model_loads (ev : list Event) : list Event :=
  List.filter is_load ev.

(* ===================================================================== *)
(** ** [scripts/whisper_server.py] *)
(* ===================================================================== *)

Module whisper_server.

(** The settings read from the process environment. *)
Record Config := mkConfig {
  MODEL_SIZE : pystr;
  DEVICE : pystr;
  COMPUTE_TYPE : pystr;
  PORT : Z
}.

(** [os.environ.get(key, default)] *)
Definition environ_get (environ : gmap pystr pystr) (key dflt : pystr) : pystr :=
  default dflt (environ !! key).

Definition read_config (env : Env) (environ : gmap pystr pystr) : M Config :=
  let model_size := environ_get environ (py "WHISPER_MODEL") (py "small") in
  let device := environ_get environ (py "WHISPER_DEVICE") (py "cuda") in
  let compute_type := environ_get environ (py "WHISPER_COMPUTE_TYPE") (py "float16") in
  port <- lift (py_int env (environ_get environ (py "WHISPER_PORT") (py "5001")));;
  ret (mkConfig model_size device compute_type port).

Definition get_device (env : Env) (cfg : Config) : M pystr :=
  if bool_decide (DEVICE cfg = py "cuda") then
    match torch env with
    | TorchCuda true name =>
        print (py "[whisper-server] CUDA available: " ++ name);;;
        ret (py "cuda")
    | TorchCuda false _ =>
        print (py "[whisper-server] CUDA not available, falling back to CPU");;;
        ret (py "cpu")
    | TorchNotInstalled =>
        print (py "[whisper-server] torch not installed, falling back to CPU");;;
        ret (py "cpu")
    end
  else ret (DEVICE cfg).

Definition get_compute_type (cfg : Config) (device : pystr) : pystr :=
  if bool_decide (device = py "cpu") then py "int8"
  else COMPUTE_TYPE cfg.

(** The module globals the handlers read (the global [model] is in the
    state). *)
Record Globals := mkGlobals {
  config : Config;
  actual_device : pystr;
  actual_compute_type : pystr
}.

(** The module body: configuration, device, and the loading of the
    model, which ends the process when it fails. *)
Definition module_body (env : Env) (environ : gmap pystr pystr) : M Globals :=
  cfg <- read_config env environ;;
  print (py "[whisper-server] Loading model: " ++ MODEL_SIZE cfg);;;
  device <- get_device env cfg;;
  let compute_type := get_compute_type cfg device in
  print (py "[whisper-server] Device: " ++ device
           ++ py ", Compute type: " ++ compute_type);;;
  try_except
    ((* the import of faster_whisper is part of this call *)
     m <- WhisperModel env (MODEL_SIZE cfg) device compute_type;;
     st <- get;;
     put (set_model m st);;;
     print (py "[whisper-server] Model loaded successfully"))
    (fun e =>
       print (py "[whisper-server] Failed to load model: " ++ exc_str e);;;
       sys_exit 1);;;
  ret (mkGlobals cfg device compute_type).

(** The device [get_device()] returns and the lines it prints. *)
Definition resolved_device (env : Env) (cfg : Config) : pystr :=
  if bool_decide (DEVICE cfg = py "cuda") then
    match torch env with
    | TorchCuda true _ => py "cuda"
    | _ => py "cpu"
    end
  else DEVICE cfg.

Definition device_lines (env : Env) (cfg : Config) : list Event :=
  if bool_decide (DEVICE cfg = py "cuda") then
    match torch env with
    | TorchCuda true name =>
        [Stdout (py "[whisper-server] CUDA available: " ++ name)]
    | TorchCuda false _ =>
        [Stdout (py "[whisper-server] CUDA not available, falling back to CPU")]
    | TorchNotInstalled =>
        [Stdout (py "[whisper-server] torch not installed, falling back to CPU")]
    end
  else [].

(** The settings for a process environment, once the port is read. *)
Definition environ_config (environ : gmap pystr pystr) (port : Z) : Config :=
  mkConfig (environ_get environ (py "WHISPER_MODEL") (py "small"))
           (environ_get environ (py "WHISPER_DEVICE") (py "cuda"))
           (environ_get environ (py "WHISPER_COMPUTE_TYPE") (py "float16"))
           port.

(** What the module body prints and does up to the loading of the
    model. *)
Definition loading_events (env : Env) (cfg : Config) : list Event :=
  [Stdout (py "[whisper-server] Loading model: " ++ MODEL_SIZE cfg)]
  ++ device_lines env cfg
  ++ [Stdout (py "[whisper-server] Device: " ++ resolved_device env cfg
                ++ py ", Compute type: "
                ++ get_compute_type cfg (resolved_device env cfg));
      LoadModel (MODEL_SIZE cfg) (resolved_device env cfg)
        (get_compute_type cfg (resolved_device env cfg))].

(** The paths through the module body. *)
Inductive BOOT_run (env : Env) (environ : gmap pystr pystr) (st : State)
  : Res Globals -> State -> list Event -> Prop :=
| BOOT_bad_port e :
    py_int env (environ_get environ (py "WHISPER_PORT") (py "5001")) = Raises e ->
    BOOT_run env environ st (Raise (Exception e)) st []
| BOOT_load_failed port e :
    py_int env (environ_get environ (py "WHISPER_PORT") (py "5001")) = Returned port ->
    (let cfg := environ_config environ port in
     whisper_model_error env (MODEL_SIZE cfg) (resolved_device env cfg)
       (get_compute_type cfg (resolved_device env cfg)) = Some e) ->
    BOOT_run env environ st (Raise (SystemExit 1)) st
      (loading_events env (environ_config environ port)
         ++ [Stdout (py "[whisper-server] Failed to load model: " ++ exc_str e)])
| BOOT_loaded port :
    py_int env (environ_get environ (py "WHISPER_PORT") (py "5001")) = Returned port ->
    (let cfg := environ_config environ port in
     whisper_model_error env (MODEL_SIZE cfg) (resolved_device env cfg)
       (get_compute_type cfg (resolved_device env cfg)) = None) ->
    BOOT_run env environ st
      (Ret (let cfg := environ_config environ port in
            mkGlobals cfg (resolved_device env cfg)
              (get_compute_type cfg (resolved_device env cfg))))
      (let cfg := environ_config environ port in
       set_model (mkModel (MODEL_SIZE cfg) (resolved_device env cfg)
                    (get_compute_type cfg (resolved_device env cfg))) st)
      (loading_events env (environ_config environ port)
         ++ [Stdout (py "[whisper-server] Model loaded successfully")]).

(** A request as the handler object holds it, parsed by the base class:
    [self.command], [self.path], [self.requestline], [self.headers] and
    the bytes the client sends after the headers, up to the end of the
    stream ([self.rfile]). *)
Record Request := mkRequest {
  command : pystr;
  path : pystr;
  requestline : pystr;
  headers : list (pystr * pystr);
  rfile : pybytes
}.

Definition ascii_lower (c : N) : N :=
  (if (65 <=? c) && (c <=? 90) then c + 32 else c)%N.

(** [self.headers.get(name)]: header names compare without case, the
    first match wins. *)
Fixpoint headers_get (name : pystr) (hs : list (pystr * pystr)) : option pystr :=
  match hs with
  | [] => None
  | (k, v) :: hs' =>
      if bool_decide (map ascii_lower k = map ascii_lower name) then Some v
      else headers_get name hs'
  end.

(** The largest index of the machine, [sys.maxsize] (64 bits). *)
Definition PY_SSIZE_T_MAX : Z := 2 ^ 63 - 1.

Definition overflow_error : PyExc :=
  mkExc "OverflowError" (py "cannot fit 'int' into an index-sized integer").

Definition memory_error : PyExc := mkExc "MemoryError" [].

(** The lengths [self.rfile.read(n)] refuses: the reader takes [n] as
    an index and allocates the [n] bytes before it reads, so a length
    beyond [sys.maxsize] is an [OverflowError] and one beyond the memory
    of the machine a [MemoryError]. *)
Definition read_refused (env : Env) (n : Z) : option PyExc :=
  if PY_SSIZE_T_MAX <? n then Some overflow_error
  else if 65536 + Z.of_N (read_limit env) <? n then Some memory_error
  else None.

(** [self.rfile.read(n)] on the buffered reader of the connection: [n]
    bytes (fewer when the stream ends first), everything for [-1],
    [ValueError] below that, and the refusal of a length that is too
    large. *)
Definition rfile_read (env : Env) (req : Request) (n : Z) : M pybytes :=
  emit (RfileRead n);;;
  if n <? -1 then
    raise (mkExc "ValueError" (py "read length must be non-negative or -1"))
  else
    match read_refused env n with
    | Some e => raise e
    | None =>
        if n =? -1 then ret (rfile req)
        else ret (take (Z.to_nat n) (rfile req))
    end.

Definition log_message (arg0 : pystr) : M unit :=
  print (py "[whisper-server] " ++ arg0).

(** [self.send_response(code)] of the base class: it logs the request
    through [log_message] and queues the status line. *)
Definition send_response (req : Request) (code : Z) : M unit :=
  log_message (requestline req);;;
  emit (SendResponse code).

(** [self.send_error(code)] of the base class: it logs the error and
    the request, and sends the whole error reply with that status. *)
Definition send_error (req : Request) (code : Z) : M unit :=
  log_message (str_of_int code);;;
  log_message (requestline req);;;
  emit (SendError code).

Definition send_header (keyword value : pystr) : M unit :=
  emit (SendHeader keyword value).

Definition end_headers : M unit := emit EndHeaders.

Definition wfile_write (data : pybytes) : M unit := emit (WfileWrite data).

Definition send_json_response (req : Request) (data : dict) : M unit :=
  let response := utf8_encode (json_dumps data) in
  send_response req 200;;;
  send_header (py "Content-Type") (py "application/json; charset=utf-8");;;
  send_header (py "Content-Length") (str_of_int (Z.of_nat (length response)));;;
  end_headers;;;
  wfile_write response.

Definition error_result (error_message : pystr) : dict :=
  [(py "success", JBool false); (py "error", JStr error_message)].

Definition send_error_response (req : Request) (error_message : pystr) : M unit :=
  let result := error_result error_message in
  let response := utf8_encode (json_dumps result) in
  send_response req 200;;;
  send_header (py "Content-Type") (py "application/json; charset=utf-8");;;
  send_header (py "Content-Length") (str_of_int (Z.of_nat (length response)));;;
  end_headers;;;
  wfile_write response.

(** The keyword arguments of the handler's [model.transcribe] call. *)
Definition transcribe_args : TranscribeArgs :=
  {| language := Some (py "ja");
     beam_size := Some 5;
     best_of := Some 5;
     vad_filter := Some true;
     vad_parameters :=
       Some {| min_silence_duration_ms := Some 1000; speech_pad_ms := Some 400 |};
     word_timestamps := Some false;
     condition_on_previous_text := Some false;
     initial_prompt :=
       Some (py "以下は、マイクからの入力音声に対する、ノイズを除去した日本語の文字起こしです。");
     no_speech_threshold := Some (Float (py "0.6")) |}.

Definition hallucinations : list pystr :=
  [ py "ご視聴ありがとうございました";
    py "チャンネル登録";
    py "高評価";
    py "Subtitles by";
    py "Amara.org" ].

(** [for h in hallucinations: if h in text: text = ''; break] *)
Fixpoint filter_hallucinations (hs : list pystr) (text : pystr) : pystr :=
  match hs with
  | [] => text
  | h :: hs' => if contains h text then [] else filter_hallucinations hs' text
  end.

(** The global [model], as the handler finds it. *)
Definition global_model : M Model :=
  st <- get;;
  match model st with
  | Some m => ret m
  | None => raise (mkExc "NameError" (py "name 'model' is not defined"))
  end.

Definition success_result (text : pystr) (i : Info) : dict :=
  [ (py "success", JBool true);
    (py "text", JStr text);
    (py "language", JStr (info_language i));
    (py "language_probability", JFloat (info_language_probability i));
    (py "duration", JFloat (info_duration i)) ].

(** [int(self.headers.get('Content-Length', 0))] *)
Definition header_content_length (env : Env) (req : Request) : Outcome Z :=
  match headers_get (py "Content-Length") (headers req) with
  | Some v => py_int env v
  | None => Returned 0
  end.

Definition do_POST (env : Env) (req : Request) : M unit :=
  try_except
    (content_length <- lift (header_content_length env req);;
     if content_length =? 0 then
       send_error_response req (py "No audio data received")
     else
       wav_data <- rfile_read env req content_length;;
       if Z.of_nat (length wav_data) <? 44 then
         send_error_response req (py "Invalid WAV data (too short)")
       else
         tmp_path <- write_temp_wav env wav_data;;
         result <-
           try_finally
             (m <- global_model;;
              t <- model_transcribe env m tmp_path transcribe_args;;
              segments <- iterate t;;
              let text_parts := map seg_text segments in
              let text := strip (join text_parts) in
              let text := filter_hallucinations hallucinations text in
              ret (success_result text (info t)))
             (os_unlink tmp_path);;
         send_json_response req result)
    (fun e =>
       emit (PrintExc e);;;
       send_error_response req (exc_str e)).

Definition do_GET (g : Globals) (req : Request) : M unit :=
  if bool_decide (path req = py "/health") then
    send_json_response req
      [ (py "status", JStr (py "ok"));
        (py "model", JStr (MODEL_SIZE (config g)));
        (py "device", JStr (actual_device g));
        (py "compute_type", JStr (actual_compute_type g)) ]
  else send_error req 404.

(** What [send_json_response(d)] does, and [send_error_response(msg)]
    for [d = error_result msg]. *)
Definition response_events (req : Request) (d : dict) : list Event :=
  [ Stdout (py "[whisper-server] " ++ requestline req);
    SendResponse 200;
    SendHeader (py "Content-Type") (py "application/json; charset=utf-8");
    SendHeader (py "Content-Length")
      (str_of_int (Z.of_nat (length (utf8_encode (json_dumps d)))));
    EndHeaders;
    WfileWrite (utf8_encode (json_dumps d)) ].

(** The bytes [self.rfile.read(n)] returns when it does not raise. *)
Definition read_data (req : Request) (n : Z) : pybytes :=
  if n =? -1 then rfile req else take (Z.to_nat n) (rfile req).

Definition read_error : PyExc :=
  mkExc "ValueError" (py "read length must be non-negative or -1").

Definition name_error : PyExc :=
  mkExc "NameError" (py "name 'model' is not defined").

(** The text the handler returns for what the engine heard. *)
Definition transcript_text (t : Transcription) : pystr :=
  filter_hallucinations hallucinations (strip (join (map seg_text (seg_list t)))).

(** The paths through [do_POST]: which state and which trace a request
    ends with, by what happened on the way. *)
Inductive POST_run (env : Env) (req : Request) (st : State)
  : State -> list Event -> Prop :=
| POST_bad_length e :
    header_content_length env req = Raises e ->
    POST_run env req st st
      (PrintExc e :: response_events req (error_result (exc_str e)))
| POST_no_data :
    header_content_length env req = Returned 0 ->
    POST_run env req st st
      (response_events req (error_result (py "No audio data received")))
| POST_bad_read n :
    header_content_length env req = Returned n ->
    n < -1 ->
    POST_run env req st st
      (RfileRead n :: PrintExc read_error
         :: response_events req (error_result (exc_str read_error)))
| POST_too_short n :
    header_content_length env req = Returned n ->
    n <> 0 -> -1 <= n ->
    read_refused env n = None ->
    (length (read_data req n) < 44)%nat ->
    POST_run env req st st
      (RfileRead n
         :: response_events req (error_result (py "Invalid WAV data (too short)")))
| POST_no_tmp n :
    header_content_length env req = Returned n ->
    n <> 0 -> -1 <= n ->
    read_refused env n = None ->
    (44 <= length (read_data req n))%nat ->
    tmp_choice env st = None ->
    POST_run env req st st
      (RfileRead n :: PrintExc no_tmp_error
         :: response_events req (error_result (exc_str no_tmp_error)))
| POST_write_failed n p e :
    header_content_length env req = Returned n ->
    n <> 0 -> -1 <= n ->
    read_refused env n = None ->
    (44 <= length (read_data req n))%nat ->
    tmp_choice env st = Some p ->
    tmp_write_error env (read_data req n) = Some e ->
    POST_run env req st
      (set_fs (<[p := tmp_written env (read_data req n)]> (fs st)) st)
      (RfileRead n :: TmpCreate p :: PrintExc e
         :: response_events req (error_result (exc_str e)))
| POST_no_model n p :
    header_content_length env req = Returned n ->
    n <> 0 -> -1 <= n ->
    read_refused env n = None ->
    (44 <= length (read_data req n))%nat ->
    tmp_choice env st = Some p ->
    tmp_write_error env (read_data req n) = None ->
    model st = None ->
    POST_run env req st st
      (RfileRead n :: TmpCreate p :: TmpWrite p (read_data req n)
         :: Unlink p :: PrintExc name_error
         :: response_events req (error_result (exc_str name_error)))
| POST_engine_raised n p m e :
    header_content_length env req = Returned n ->
    n <> 0 -> -1 <= n ->
    read_refused env n = None ->
    (44 <= length (read_data req n))%nat ->
    tmp_choice env st = Some p ->
    tmp_write_error env (read_data req n) = None ->
    model st = Some m ->
    whisper_transcribe env m (Some (read_data req n)) transcribe_args = Raises e ->
    POST_run env req st st
      (RfileRead n :: TmpCreate p :: TmpWrite p (read_data req n)
         :: Transcribe m p transcribe_args (Raises e)
         :: Unlink p :: PrintExc e
         :: response_events req (error_result (exc_str e)))
| POST_segments_raised n p m t e :
    header_content_length env req = Returned n ->
    n <> 0 -> -1 <= n ->
    read_refused env n = None ->
    (44 <= length (read_data req n))%nat ->
    tmp_choice env st = Some p ->
    tmp_write_error env (read_data req n) = None ->
    model st = Some m ->
    whisper_transcribe env m (Some (read_data req n)) transcribe_args = Returned t ->
    seg_error t = Some e ->
    POST_run env req st st
      (RfileRead n :: TmpCreate p :: TmpWrite p (read_data req n)
         :: Transcribe m p transcribe_args (Returned t)
         :: Unlink p :: PrintExc e
         :: response_events req (error_result (exc_str e)))
| POST_transcribed n p m t :
    header_content_length env req = Returned n ->
    n <> 0 -> -1 <= n ->
    read_refused env n = None ->
    (44 <= length (read_data req n))%nat ->
    tmp_choice env st = Some p ->
    tmp_write_error env (read_data req n) = None ->
    model st = Some m ->
    whisper_transcribe env m (Some (read_data req n)) transcribe_args = Returned t ->
    seg_error t = None ->
    POST_run env req st st
      (RfileRead n :: TmpCreate p :: TmpWrite p (read_data req n)
         :: Transcribe m p transcribe_args (Returned t)
         :: Unlink p
         :: response_events req (success_result (transcript_text t) (info t)))
| POST_read_refused n e :
    header_content_length env req = Returned n ->
    n <> 0 -> -1 <= n ->
    read_refused env n = Some e ->
    POST_run env req st st
      (RfileRead n :: PrintExc e
         :: response_events req (error_result (exc_str e))).

(** What the base class [BaseHTTPRequestHandler] makes of the bytes a
    client sends: a request it has parsed, or one that [parse_request]
    refuses and answers itself with [send_error] (400 for a malformed
    request line, 505 for an HTTP version of 2.0 or more, 414 and 431
    for a line and for headers that are too long); [req] then holds the
    request line as far as it was read. *)
Inductive Incoming :=
| Parsed (req : Request)
| Refused (code : Z) (req : Request).

(** [handle_one_request] of the base class: what the parser refuses is
    answered there; a parsed request goes to the method [do_<command>]
    of the handler; the class defines [do_POST] and [do_GET], and for
    any other command the base class answers 501 itself. *)
Definition handle_one_request (env : Env) (g : Globals) (inc : Incoming) : M unit :=
  match inc with
  | Refused code req => send_error req code
  | Parsed req =>
      if bool_decide (command req = py "POST") then do_POST env req
      else if bool_decide (command req = py "GET") then do_GET g req
      else send_error req 501
  end.

(** The status a parsed request is answered with, by its method and
    path. *)
Definition status_of_request (req : Request) : Z :=
  if bool_decide (command req = py "POST") then 200
  else if bool_decide (command req = py "GET") then
    if bool_decide (path req = py "/health") then 200 else 404
  else 501.

(** The status of the answer to what a client sent. *)
Definition status_of (inc : Incoming) : Z :=
  match inc with
  | Parsed req => status_of_request req
  | Refused code _ => code
  end.

(** The lines a request leaves in the access log, through
    [log_message]: the request line, after the status code when the
    base class answers with [send_error]. *)
Definition log_lines (req : Request) : list pystr :=
  let code := status_of_request req in
  (if code =? 200 then [] else [py "[whisper-server] " ++ str_of_int code])
    ++ [py "[whisper-server] " ++ requestline req].

Definition log_of (inc : Incoming) : list pystr :=
  match inc with
  | Parsed req => log_lines req
  | Refused code req =>
      [py "[whisper-server] " ++ str_of_int code;
       py "[whisper-server] " ++ requestline req]
  end.

(** A line of the server on stdout carries its tag. *)
Definition tagged (line : pystr) : bool :=
  startswith (py "[whisper-server] ") line.

(** [httpd.serve_forever()]: one request after the other. *)
Fixpoint serve_forever (env : Env) (g : Globals) (reqs : list Incoming) : M unit :=
  match reqs with
  | [] => ret tt
  | inc :: reqs' => handle_one_request env g inc;;; serve_forever env g reqs'
  end.

(** The [--port] and [--host] options, as [parse_args()] returns them. *)
Record Argv := mkArgv { argv_port : option Z; argv_host : option pystr }.

(** What [parser.parse_args()] makes of the command line: the options,
    or the end of the process: for [--help] argparse writes its help
    text on stdout and exits with status 0; for an argument it refuses
    (an unknown option, a [--port] that is no integer) it writes the
    usage and the error on stderr and exits with status 2. *)
Inductive CommandLine :=
| Options (args : Argv)
| Help (text : pystr)
| Refusal (usage error : pystr).

Definition parse_args (cl : CommandLine) : M Argv :=
  match cl with
  | Options args => ret args
  | Help text => emit (Stdout text);;; sys_exit 0
  | Refusal usage error => stderr_write usage;;; stderr_write error;;; sys_exit 2
  end.

(** [main()]: the server runs until it is interrupted from the keyboard,
    after the requests [reqs]. *)
Definition main (env : Env) (g : Globals) (cl : CommandLine) (reqs : list Incoming)
    : M unit :=
  argv <- parse_args cl;;
  let port := default (PORT (config g)) (argv_port argv) in
  let host := default (py "127.0.0.1") (argv_host argv) in
  let url := py "http://" ++ host ++ py ":" ++ str_of_int port in
  print (py "[whisper-server] Listening on " ++ url);;;
  print (py "[whisper-server] Health check: " ++ url ++ py "/health");;;
  print (py "[whisper-server] POST audio/wav to transcribe");;;
  serve_forever env g reqs;;;
  print (LF ++ py "[whisper-server] Shutting down...").

(** The script: the module body, then [main()]. *)
Definition script (env : Env) (environ : gmap pystr pystr) (cl : CommandLine)
    (reqs : list Incoming) : M unit :=
  g <- module_body env environ;;
  main env g cl reqs.

End whisper_server.

(* ===================================================================== *)
(** ** [scripts/transcribe.py] *)
(* ===================================================================== *)

Module transcribe.

Definition MODEL_SIZE : pystr := py "small".
Definition DEVICE : pystr := py "cuda".
Definition COMPUTE_TYPE : pystr := py "float16".

Definition load_model (env : Env) : M Model :=
  st <- get;;
  match model st with
  | None =>
      stderr_write (py "[faster-whisper] Loading model: " ++ MODEL_SIZE ++ LF);;;
      m <- WhisperModel env MODEL_SIZE DEVICE COMPUTE_TYPE;;
      st' <- get;;
      put (set_model m st');;;
      stderr_write (py "[faster-whisper] Model loaded" ++ LF);;;
      ret m
  | Some m => ret m
  end.

(** The keyword arguments of [transcribe_wav]'s [model.transcribe] call. *)
Definition transcribe_args : TranscribeArgs :=
  {| language := Some (py "ja");
     beam_size := Some 5;
     best_of := None;
     vad_filter := Some true;
     vad_parameters :=
       Some {| min_silence_duration_ms := Some 500; speech_pad_ms := None |};
     word_timestamps := None;
     condition_on_previous_text := None;
     initial_prompt := None;
     no_speech_threshold := None |}.

Definition success_result (text : pystr) (i : Info) : dict :=
  [ (py "success", JBool true);
    (py "text", JStr (strip text));
    (py "language", JStr (info_language i));
    (py "duration", JFloat (info_duration i)) ].

Definition transcribe_wav (env : Env) (wav_bytes : pybytes) : M dict :=
  m <- load_model env;;
  sample_rate <- lift (wave_getframerate env wav_bytes);;
  (if negb (sample_rate =? 16000) then
     stderr_write (py "[faster-whisper] Warning: sample rate "
                     ++ str_of_int sample_rate ++ py " != 16000" ++ LF)
   else ret tt);;;
  tmp_path <- write_temp_wav env wav_bytes;;
  try_finally
    (t <- model_transcribe env m tmp_path transcribe_args;;
     segments <- iterate t;;
     let text := join (map seg_text segments) in
     ret (success_result text (info t)))
    (os_unlink tmp_path).

(** What [load_model()] writes when it has to load the model. *)
Definition loading_line : pystr :=
  py "[faster-whisper] Loading model: " ++ MODEL_SIZE ++ LF.

Definition loaded_line : pystr := py "[faster-whisper] Model loaded" ++ LF.

(** The warning for a sample rate other than 16 kHz. *)
Definition rate_warning (sample_rate : Z) : list Event :=
  if negb (sample_rate =? 16000) then
    [Stderr (py "[faster-whisper] Warning: sample rate "
               ++ str_of_int sample_rate ++ py " != 16000" ++ LF)]
  else [].

(** The paths through [transcribe_wav], after [load_model()] has run
    from [st] to [st1] with the trace [ev0]. *)
Inductive WAV_run (env : Env) (wav : pybytes) (st : State)
  : Res dict -> State -> list Event -> Prop :=
| WAV_load_failed x st1 ev0 :
    load_model env st = (Raise x, st1, ev0) ->
    WAV_run env wav st (Raise x) st1 ev0
| WAV_bad_wave m st1 ev0 e :
    load_model env st = (Ret m, st1, ev0) ->
    wave_getframerate env wav = Raises e ->
    WAV_run env wav st (Raise (Exception e)) st1 ev0
| WAV_no_tmp m st1 ev0 rate :
    load_model env st = (Ret m, st1, ev0) ->
    wave_getframerate env wav = Returned rate ->
    tmp_choice env st1 = None ->
    WAV_run env wav st (Raise (Exception no_tmp_error)) st1
      (ev0 ++ rate_warning rate)
| WAV_write_failed m st1 ev0 rate p e :
    load_model env st = (Ret m, st1, ev0) ->
    wave_getframerate env wav = Returned rate ->
    tmp_choice env st1 = Some p ->
    tmp_write_error env wav = Some e ->
    WAV_run env wav st (Raise (Exception e))
      (set_fs (<[p := tmp_written env wav]> (fs st1)) st1)
      (ev0 ++ rate_warning rate ++ [TmpCreate p])
| WAV_engine_raised m st1 ev0 rate p e :
    load_model env st = (Ret m, st1, ev0) ->
    wave_getframerate env wav = Returned rate ->
    tmp_choice env st1 = Some p ->
    tmp_write_error env wav = None ->
    whisper_transcribe env m (Some wav) transcribe_args = Raises e ->
    WAV_run env wav st (Raise (Exception e)) st1
      (ev0 ++ rate_warning rate
         ++ [TmpCreate p; TmpWrite p wav;
             Transcribe m p transcribe_args (Raises e); Unlink p])
| WAV_segments_raised m st1 ev0 rate p t e :
    load_model env st = (Ret m, st1, ev0) ->
    wave_getframerate env wav = Returned rate ->
    tmp_choice env st1 = Some p ->
    tmp_write_error env wav = None ->
    whisper_transcribe env m (Some wav) transcribe_args = Returned t ->
    seg_error t = Some e ->
    WAV_run env wav st (Raise (Exception e)) st1
      (ev0 ++ rate_warning rate
         ++ [TmpCreate p; TmpWrite p wav;
             Transcribe m p transcribe_args (Returned t); Unlink p])
| WAV_transcribed m st1 ev0 rate p t :
    load_model env st = (Ret m, st1, ev0) ->
    wave_getframerate env wav = Returned rate ->
    tmp_choice env st1 = Some p ->
    tmp_write_error env wav = None ->
    whisper_transcribe env m (Some wav) transcribe_args = Returned t ->
    seg_error t = None ->
    WAV_run env wav st
      (Ret (success_result (join (map seg_text (seg_list t))) (info t))) st1
      (ev0 ++ rate_warning rate
         ++ [TmpCreate p; TmpWrite p wav;
             Transcribe m p transcribe_args (Returned t); Unlink p]).

Definition error_result (error_message : pystr) : dict :=
  [(py "success", JBool false); (py "error", JStr error_message)].

(** What [main()] makes of the outcome of [transcribe_wav]: the result
    it prints. *)
Definition main_result (r : Res dict) : Res dict :=
  match r with
  | Ret d => Ret d
  | Raise (Exception e) => Ret (error_result (exc_str e))
  | Raise (SystemExit code) => Raise (SystemExit code)
  end.

(** [main()], on the bytes of standard input; the result is printed and
    also returned here, for the statements about it.  The [print] is
    after the [try], so what it raises leaves [main()]. *)
Definition main (env : Env) (stdin : pybytes) : M dict :=
  let wav_data := stdin in
  result <-
    (if Z.of_nat (length wav_data) <? 44 then
       ret (error_result (py "Invalid WAV data"))
     else
       try_except
         (transcribe_wav env wav_data)
         (fun e => ret (error_result (exc_str e))));;
  print_text env (json_dumps result);;;
  ret result.

(** How [main()] ends once it has the result [d], in the state [st]
    and after the events [ev]: the JSON text is printed, or the [print]
    raises. *)
Definition printed (env : Env) (d : dict) (st : State) (ev : list Event)
    : Res dict * State * list Event :=
  match stdout_error env (json_dumps d) with
  | None => (Ret d, st, ev ++ [Stdout (json_dumps d)])
  | Some e => (Raise (Exception e), st, ev)
  end.

(** The script, run as a program: [if __name__ == "__main__": main()]. *)
Definition script (env : Env) (stdin : pybytes) : M unit :=
  main env stdin;;;
  ret tt.

End transcribe.

(* ===================================================================== *)
(** ** The two transcription calls *)
(* ===================================================================== *)

(** A transcription call: [transcribe_wav(wav_bytes)] of the script, or
    the POST handler of the server on a request. *)
Inductive Call :=
| CliCall (wav_bytes : pybytes)
| ServerCall (req : whisper_server.Request).

(** The state and the trace a call ends with. *)
Definition run_call (env : Env) (c : Call) (st : State) : State * list Event :=
  match c with
  | CliCall wav_bytes =>
      match transcribe.transcribe_wav env wav_bytes st with
      | (_, st', ev) => (st', ev)
      end
  | ServerCall req =>
      match whisper_server.do_POST env req st with
      | (_, st', ev) => (st', ev)
      end
  end.

(** The audio of a call: the bytes [transcribe_wav] is given, the bytes
    the POST handler reads from the request. *)
Definition call_audio (env : Env) (c : Call) : pybytes :=
  match c with
  | CliCall wav_bytes => wav_bytes
  | ServerCall req =>
      match whisper_server.header_content_length env req with
      | Returned n => whisper_server.read_data req n
      | Raises _ => []
      end
  end.

(** The machine [env] with another [wave] module: one that finds the
    sample rate [rate] in every file. *)
Definition set_sample_rate (env : Env) (rate : Z) : Env :=
  {| py_int := py_int env;
     torch := torch env;
     whisper_model_error := whisper_model_error env;
     wave_getframerate := fun _ => Returned rate;
     tmp_names := tmp_names env;
     tmp_write_error := tmp_write_error env;
     tmp_written := tmp_written env;
     read_limit := read_limit env;
     stdout_error := stdout_error env;
     whisper_transcribe := whisper_transcribe env |}.

(** A string that neither begins nor ends with white space. *)
Definition trimmed (s : pystr) : Prop :=
  match s with
  | [] => True
  | c :: _ => isspace c = false
  end
  /\ match rev s with
     | [] => True
     | c :: _ => isspace c = false
     end.

(* ===================================================================== *)
(** ** A sample machine, for running the programs on concrete inputs *)
(* ===================================================================== *)

Module sample.

Definition digit_value (c : N) : option Z :=
  if ((48 <=? c) && (c <=? 57))%N then Some (Z.of_N c - 48) else None.

Fixpoint decimal (acc : Z) (s : pystr) : option Z :=
  match s with
  | [] => Some acc
  | c :: s' =>
      match digit_value c with
      | Some d => decimal (10 * acc + d) s'
      | None => None
      end
  end.

(** [int(s)] as the sample machines have it: white space around the
    number is dropped, a sign may lead, the rest is ASCII digits.  (The
    underscores and the digits of other scripts that [int] also takes
    are not read here; the message quotes the string as it is.) *)
Definition int_of_digits (s : pystr) : Outcome Z :=
  let invalid :=
    Raises (mkExc "ValueError"
              (py "invalid literal for int() with base 10: '" ++ s ++ py "'")) in
  let digits (sign : Z) (ds : pystr) :=
    match ds with
    | [] => invalid
    | _ =>
        match decimal 0 ds with
        | Some n => Returned (sign * n)
        | None => invalid
        end
    end in
  match strip s with
  | 45%N :: ds => digits (-1) ds
  | 43%N :: ds => digits 1 ds
  | ds => digits 1 ds
  end.

(** [n] as [width] bytes, the least significant first. *)
Fixpoint le_bytes (width : nat) (n : N) : pybytes :=
  match width with
  | O => []
  | S w => byte_of_N (n mod 256) :: le_bytes w (n / 256)
  end.

(** The number that bytes hold, the least significant first. *)
Definition le_value (bs : pybytes) : Z :=
  fold_right (fun b acc => Z.of_N (Byte.to_N b) + 256 * acc) 0 bs.

(** The 44 bytes in front of the samples of a 16-bit mono PCM file. *)
Definition wav_header (rate data_len : N) : pybytes :=
  list_byte_of_string "RIFF" ++ le_bytes 4 (36 + data_len)
    ++ list_byte_of_string "WAVE"
    ++ list_byte_of_string "fmt " ++ le_bytes 4 16
    ++ le_bytes 2 1 ++ le_bytes 2 1
    ++ le_bytes 4 rate ++ le_bytes 4 (2 * rate)
    ++ le_bytes 2 2 ++ le_bytes 2 16
    ++ list_byte_of_string "data" ++ le_bytes 4 data_len.

(** A WAV file of [n] bytes: 16 kHz, mono, silence; below 44 bytes the
    beginning of its header. *)
Definition payload (n : nat) : pybytes :=
  take n (wav_header 16000 (N.of_nat (n - 44)) ++ repeat x00 (n - 44)).

(** [n] zero bytes, which are no WAV file. *)
Definition zeros (n : nat) : pybytes := repeat x00 n.

Definition field (offset len : nat) (b : pybytes) : pybytes :=
  take len (drop offset b).

Definition named (name : string) (bs : pybytes) : bool :=
  bool_decide (map Byte.to_N bs = map Byte.to_N (list_byte_of_string name)).

Definition wave_error (message : pystr) : PyExc := mkExc "wave.Error" message.

Definition eof_error : PyExc := mkExc "EOFError" [].

(** The [fmt ] chunk whose body begins at [offset]: the sample rate,
    when the chunk holds the PCM format (the extensible format, which
    newer versions of the module also read, is refused here). *)
Definition read_fmt_chunk (b : pybytes) (offset size : nat) : Outcome Z :=
  let body := take size (drop offset b) in
  if (length body <? 14)%nat then Raises eof_error
  else
    let tag := le_value (field 0 2 body) in
    if negb (tag =? 1) then
      Raises (wave_error (py "unknown format: " ++ str_of_int tag))
    else if (length body <? 16)%nat then Raises eof_error
    else if (le_value (field 14 2 body) + 7) / 8 =? 0 then
      Raises (wave_error (py "bad sample width"))
    else if le_value (field 2 2 body) =? 0 then
      Raises (wave_error (py "bad # of channels"))
    else Returned (le_value (field 4 4 body)).

(** The loop of [wave.open] over the chunks that follow the RIFF
    header, from [offset] on; [rate] is set once the [fmt ] chunk has
    been read. *)
Fixpoint read_chunks (fuel : nat) (b : pybytes) (offset : nat) (rate : option Z)
    : Outcome Z :=
  let missing := Raises (wave_error (py "fmt chunk and/or data chunk missing")) in
  match fuel with
  | O => missing
  | S fuel' =>
      if (length b <? offset + 8)%nat then missing
      else
        let size := Z.to_nat (le_value (field (offset + 4) 4 b)) in
        let next := (offset + 8 + size + size mod 2)%nat in
        if named "fmt " (field offset 4 b) then
          match read_fmt_chunk b (offset + 8) size with
          | Returned r => read_chunks fuel' b next (Some r)
          | Raises e => Raises e
          end
        else if named "data" (field offset 4 b) then
          match rate with
          | Some r => Returned r
          | None => Raises (wave_error (py "data chunk before fmt chunk"))
          end
        else read_chunks fuel' b next rate
  end.

(** [wave.open(io.BytesIO(b), 'rb').getframerate()], for files whose
    RIFF chunk spans the whole file. *)
Definition getframerate (b : pybytes) : Outcome Z :=
  if (length b <? 8)%nat then Raises eof_error
  else if negb (named "RIFF" (field 0 4 b)) then
    Raises (wave_error (py "file does not start with RIFF id"))
  else if negb (named "WAVE" (field 8 4 b)) then
    Raises (wave_error (py "not a WAVE file"))
  else read_chunks (length b) b 12 None.

(** What the [wave] module says of [zeros n], for [n] of 8 and more. *)
Definition no_riff : PyExc := wave_error (py "file does not start with RIFF id").

Definition hello : Transcription :=
  {| seg_list := [mkSegment (py " こんにちは"); mkSegment (py "、世界。 ")];
     seg_error := None;
     info := mkInfo (py "ja") (Float (py "0.98")) (Float (py "1.5")) |}.

Definition credits : Transcription :=
  {| seg_list := [mkSegment (py " ご視聴ありがとうございました")];
     seg_error := None;
     info := mkInfo (py "ja") (Float (py "0.71")) (Float (py "2.0")) |}.

Definition silence : Transcription :=
  {| seg_list := [];
     seg_error := None;
     info := mkInfo (py "ja") (Float (py "0.71")) (Float (py "2.0")) |}.

(** A transcription whose segment generator raises after two segments. *)
Definition cut_off : Transcription :=
  {| seg_list := [mkSegment (py " こんにちは"); mkSegment (py "、世界。 ")];
     seg_error := Some (mkExc "RuntimeError" (py "CUDA out of memory"));
     info := mkInfo (py "ja") (Float (py "0.98")) (Float (py "1.5")) |}.

Definition broken : PyExc := mkExc "InvalidDataError" (py "Invalid data found when processing input").

Definition no_gpu : PyExc := mkExc "RuntimeError" (py "CUDA failed with error no CUDA-capable device is detected").

(** A machine with a GPU whose engine hears [t] in every file. *)
Definition machine (t : Outcome Transcription) : Env :=
  {| py_int := int_of_digits;
     torch := TorchCuda true (py "NVIDIA GeForce RTX 3060");
     whisper_model_error := fun _ _ _ => None;
     wave_getframerate := getframerate;
     tmp_names := [py "/tmp/tmpa1b2c3d4.wav"; py "/tmp/tmpe5f6g7h8.wav"];
     tmp_write_error := fun _ => None;
     tmp_written := fun data => data;
     read_limit := 1073741824;
     stdout_error := fun _ => None;
     whisper_transcribe := fun _ _ _ => t |}.

(** The same machine without a usable GPU: the probe finds none. *)
Definition cpu_machine (t : Outcome Transcription) : Env :=
  {| py_int := int_of_digits;
     torch := TorchCuda false [];
     whisper_model_error := fun _ _ _ => None;
     wave_getframerate := getframerate;
     tmp_names := [py "/tmp/tmpa1b2c3d4.wav"; py "/tmp/tmpe5f6g7h8.wav"];
     tmp_write_error := fun _ => None;
     tmp_written := fun data => data;
     read_limit := 1073741824;
     stdout_error := fun _ => None;
     whisper_transcribe := fun _ _ _ => t |}.

(** A machine on which the model cannot be loaded. *)
Definition no_model_machine : Env :=
  {| py_int := int_of_digits;
     torch := TorchCuda true (py "NVIDIA GeForce RTX 3060");
     whisper_model_error := fun _ _ _ => Some no_gpu;
     wave_getframerate := getframerate;
     tmp_names := [py "/tmp/tmpa1b2c3d4.wav"];
     tmp_write_error := fun _ => None;
     tmp_written := fun data => data;
     read_limit := 1073741824;
     stdout_error := fun _ => None;
     whisper_transcribe := fun _ _ _ => Raises broken |}.

(** A machine whose disk is full after ten more bytes. *)
Definition full_disk_machine : Env :=
  {| py_int := int_of_digits;
     torch := TorchCuda true (py "NVIDIA GeForce RTX 3060");
     whisper_model_error := fun _ _ _ => None;
     wave_getframerate := getframerate;
     tmp_names := [py "/tmp/tmpa1b2c3d4.wav"];
     tmp_write_error :=
       fun _ => Some (mkExc "OSError" (py "[Errno 28] No space left on device"));
     tmp_written := take 10;
     read_limit := 1073741824;
     stdout_error := fun _ => None;
     whisper_transcribe := fun _ _ _ => Returned hello |}.

(** The hexadecimal digits of [n], [width] of them. *)
Fixpoint hex (width : nat) (n : N) : pystr :=
  match width with
  | O => []
  | S w =>
      hex w (n / 16)
        ++ [if (n mod 16 <? 10)%N then (48 + n mod 16)%N else (87 + n mod 16)%N]
  end.

(** The length of the run of code points beyond ASCII that [s] begins
    with. *)
Fixpoint beyond_ascii (s : pystr) : nat :=
  match s with
  | c :: s' => if (c <? 128)%N then O else S (beyond_ascii s')
  | [] => O
  end.

(** [text.encode('ascii')] where it fails: the [UnicodeEncodeError] for
    the first run of code points beyond ASCII, [pos] being the number
    of code points passed. *)
Fixpoint ascii_error (pos : nat) (text : pystr) : option PyExc :=
  match text with
  | [] => None
  | c :: text' =>
      if (c <? 128)%N then ascii_error (S pos) text'
      else
        let last := (pos + beyond_ascii text')%nat in
        Some (mkExc "UnicodeEncodeError"
                (if (last =? pos)%nat then
                   py "'ascii' codec can't encode character '"
                     ++ (if (c <? 256)%N then py "\x" ++ hex 2 c
                         else if (c <? 65536)%N then py "\u" ++ hex 4 c
                         else py "\U" ++ hex 8 c)
                     ++ py "' in position " ++ str_of_int (Z.of_nat pos)
                     ++ py ": ordinal not in range(128)"
                 else
                   py "'ascii' codec can't encode characters in position "
                     ++ str_of_int (Z.of_nat pos) ++ py "-"
                     ++ str_of_int (Z.of_nat last)
                     ++ py ": ordinal not in range(128)"))
  end.

(** The machine [machine t] with a standard output that takes ASCII
    only ([PYTHONIOENCODING=ascii]). *)
Definition ascii_machine (t : Outcome Transcription) : Env :=
  {| py_int := int_of_digits;
     torch := TorchCuda true (py "NVIDIA GeForce RTX 3060");
     whisper_model_error := fun _ _ _ => None;
     wave_getframerate := getframerate;
     tmp_names := [py "/tmp/tmpa1b2c3d4.wav"; py "/tmp/tmpe5f6g7h8.wav"];
     tmp_write_error := fun _ => None;
     tmp_written := fun data => data;
     read_limit := 1073741824;
     stdout_error := ascii_error 0;
     whisper_transcribe := fun _ _ _ => t |}.

(** What that standard output says of the result for [hello]. *)
Definition hello_unprintable : PyExc :=
  mkExc "UnicodeEncodeError"
    (py "'ascii' codec can't encode characters in position 27-35: ordinal not in range(128)").

(** An empty disk, no model loaded yet. *)
Definition boot : State := {| fs := ∅; model := None |}.

(** A server state after the model has been loaded. *)
Definition serving : State :=
  {| fs := ∅; model := Some (mkModel (py "small") (py "cuda") (py "float16")) |}.

Definition globals : whisper_server.Globals :=
  whisper_server.mkGlobals
    (whisper_server.mkConfig (py "small") (py "cuda") (py "float16") 5001)
    (py "cuda") (py "float16").


(** [POST /] with a body and the [Content-Length] that goes with it. *)
Definition post (body : pybytes) : whisper_server.Request :=
  {| whisper_server.command := py "POST";
     whisper_server.path := py "/";
     whisper_server.requestline := py "POST / HTTP/1.1";
     whisper_server.headers :=
       [(py "Host", py "127.0.0.1:5001");
        (py "Content-Length", str_of_int (Z.of_nat (length body)))];
     whisper_server.rfile := body |}.

(** [POST /] announcing [n] bytes, whatever the body holds. *)
Definition lying_post (n : Z) (body : pybytes) : whisper_server.Request :=
  {| whisper_server.command := py "POST";
     whisper_server.path := py "/";
     whisper_server.requestline := py "POST / HTTP/1.1";
     whisper_server.headers :=
       [(py "Host", py "127.0.0.1:5001"); (py "content-length", str_of_int n)];
     whisper_server.rfile := body |}.

(** What [int_of_digits] raises for the text "abc". *)
Definition abc_error : PyExc :=
  mkExc "ValueError"
    (py "invalid literal for int() with base 10: '" ++ py "abc" ++ py "'").

(** [POST /] with a Content-Length that is no number. *)
Definition bad_length_post : whisper_server.Request :=
  {| whisper_server.command := py "POST";
     whisper_server.path := py "/";
     whisper_server.requestline := py "POST / HTTP/1.1";
     whisper_server.headers := [(py "Content-Length", py "abc")];
     whisper_server.rfile := payload 44 |}.

Definition request (method target : string) : whisper_server.Request :=
  {| whisper_server.command := py method;
     whisper_server.path := py target;
     whisper_server.requestline := py method ++ py " " ++ py target ++ py " HTTP/1.1";
     whisper_server.headers := [(py "Host", py "127.0.0.1:5001")];
     whisper_server.rfile := [] |}.

(** A POST that names HTTP/2.0, which the base class refuses with
    505 before it looks for a handler method. *)
Definition http2_post : whisper_server.Incoming :=
  whisper_server.Refused 505
    {| whisper_server.command := [];
       whisper_server.path := [];
       whisper_server.requestline := py "POST / HTTP/2.0";
       whisper_server.headers := [];
       whisper_server.rfile := [] |}.

(** The server's answer to 44 bytes of audio in which the engine hears
    [t]. *)
Definition heard (t : Outcome Transcription) : Res unit * State * list Event :=
  whisper_server.do_POST (machine t) (post (payload 44)) serving.

(** The model of the sample server and the temporary file it uses. *)
Definition small : Model := mkModel (py "small") (py "cuda") (py "float16").

Definition tmp_wav : pystr := py "/tmp/tmpa1b2c3d4.wav".

End sample.

Arguments py : simpl never.
Arguments str_of_int : simpl never.
Arguments utf8_encode : simpl never.
Arguments json_dumps : simpl never.

(** The parts of a run. *)
Definition result_of {A} (run : Res A * State * list Event) : Res A := fst (fst run).
Definition state_of {A} (run : Res A * State * list Event) : State := snd (fst run).
Definition events_of {A} (run : Res A * State * list Event) : list Event := snd run.

(** A handler answers with status [code] and the JSON text of [d]. *)
Definition responds (ev : list Event) (code : Z) (d : dict) : Prop :=
  statuses ev = [code] /\ bodies ev = [utf8_encode (json_dumps d)].

(* ===================================================================== *)
(** ** Strings: substrings and stripping *)
(* ===================================================================== *)

Lemma startswith_spec (p s : pystr) :
  startswith p s = true <-> exists post, s = p ++ post.
Proof.
  revert s. induction p as [|a p IH]; intros s; simpl.
  - split; [intros _; exists s; reflexivity | reflexivity].
  - destruct s as [|b s].
    + split; [discriminate | intros [post H]; discriminate].
    + rewrite andb_true_iff, N.eqb_eq, IH. split.
      * intros [-> [post ->]]. exists post. reflexivity.
      * intros [post H]. injection H as -> ->. eauto.
Qed.

Lemma contains_spec (h text : pystr) :
  contains h text = true <-> occurs_in h text.
Proof.
  unfold occurs_in. induction text as [|c text IH]; simpl.
  - rewrite orb_false_r, startswith_spec. split.
    + intros [post H]. exists [], post. exact H.
    + intros [pre [post H]]. destruct pre; [eauto|discriminate].
  - rewrite orb_true_iff, startswith_spec, IH. split.
    + intros [[post H] | [pre [post H]]].
      * exists [], post. exact H.
      * exists (c :: pre), post. simpl. congruence.
    + intros [[|x pre] [post H]].
      * left. exists post. exact H.
      * right. injection H as _ H. eauto.
Qed.

Lemma contains_false (h text : pystr) :
  contains h text = false <-> ~ occurs_in h text.
Proof.
  rewrite <- contains_spec. destruct (contains h text); split; congruence.
Qed.

Lemma lstrip_suffix (s : pystr) : exists ws, s = ws ++ lstrip s.
Proof.
  induction s as [|c s [ws IH]]; simpl.
  - exists []. reflexivity.
  - destruct (isspace c).
    + exists (c :: ws). simpl. congruence.
    + exists []. reflexivity.
Qed.

Lemma occurs_in_rev (h s : pystr) : occurs_in h s -> occurs_in (rev h) (rev s).
Proof.
  intros [pre [post ->]]. exists (rev post), (rev pre).
  rewrite !rev_app_distr, <- app_assoc. reflexivity.
Qed.

Lemma occurs_in_lstrip (c : N) (h s : pystr) :
  isspace c = false ->
  (occurs_in (c :: h) s <-> occurs_in (c :: h) (lstrip s)).
Proof.
  intros Hc. split.
  - intros [pre [post ->]]. induction pre as [|x pre IH]; simpl.
    + rewrite Hc. exists [], post. reflexivity.
    + destruct (isspace x); [exact IH|].
      exists (x :: pre), post. reflexivity.
  - intros [pre [post H]]. destruct (lstrip_suffix s) as [ws Hws].
    exists (ws ++ pre), post. rewrite Hws at 1. rewrite H, <- app_assoc.
    reflexivity.
Qed.

(** A phrase whose first and last characters are not white space
    occurs in a string exactly when it occurs in the stripped string. *)
Lemma occurs_in_strip (h s : pystr) :
  (exists c r, h = c :: r /\ isspace c = false) ->
  (exists c r, rev h = c :: r /\ isspace c = false) ->
  (occurs_in h s <-> occurs_in h (strip s)).
Proof.
  intros (c & r & -> & Hc) (c' & r' & Hrev & Hc').
  unfold strip, rstrip. rewrite (occurs_in_lstrip c r s Hc).
  set (u := lstrip s). split.
  - intros H. apply occurs_in_rev in H. rewrite Hrev in H.
    apply (occurs_in_lstrip c' r' _ Hc') in H.
    apply occurs_in_rev in H.
    rewrite <- Hrev, rev_involutive in H. exact H.
  - intros H. apply occurs_in_rev in H. rewrite rev_involutive, Hrev in H.
    apply (occurs_in_lstrip c' r' _ Hc') in H.
    apply occurs_in_rev in H. rewrite rev_involutive in H.
    rewrite <- Hrev, rev_involutive in H. exact H.
Qed.

Lemma hallucinations_edges :
  Forall (fun h => (exists c r, h = c :: r /\ isspace c = false)
                   /\ (exists c r, rev h = c :: r /\ isspace c = false))
         whisper_server.hallucinations.
Proof.
  unfold whisper_server.hallucinations.
  repeat match goal with
         | |- Forall _ _ => constructor
         end;
    split; eexists; eexists; (split; [vm_compute; reflexivity | reflexivity]).
Qed.

Lemma filter_hallucinations_hit (hs : list pystr) (text : pystr) :
  (exists h, In h hs /\ occurs_in h text) ->
  whisper_server.filter_hallucinations hs text = [].
Proof.
  induction hs as [|h0 hs IH]; intros (h & Hin & Hocc); simpl.
  - destruct Hin.
  - destruct (contains h0 text) eqn:E; [reflexivity|].
    apply IH. destruct Hin as [->|Hin]; [|eauto].
    apply contains_spec in Hocc. congruence.
Qed.

Lemma filter_hallucinations_miss (hs : list pystr) (text : pystr) :
  (forall h, In h hs -> ~ occurs_in h text) ->
  whisper_server.filter_hallucinations hs text = text.
Proof.
  induction hs as [|h0 hs IH]; intros H; simpl; [reflexivity|].
  assert (contains h0 text = false) as ->.
  { apply contains_false, H. left. reflexivity. }
  apply IH. intros h Hin. apply H. right. exact Hin.
Qed.

(* ===================================================================== *)
(** ** The definitions on concrete inputs *)
(* ===================================================================== *)

Example py_ascii : py "cuda" = [99; 117; 100; 97]%N.
Proof. reflexivity. Qed.

Example py_kanji : py "高評価" = [39640; 35413; 20385]%N.
Proof. reflexivity. Qed.

Example utf8_roundtrip :
  utf8_encode (py "高評価 Amara.org") = list_byte_of_string "高評価 Amara.org".
Proof. reflexivity. Qed.

Example str_of_int_44 : str_of_int 44 = py "44".
Proof. reflexivity. Qed.

Example strip_ex :
  strip (py "　 Subtitles by " ++ [10%N]) = py "Subtitles by".
Proof. reflexivity. Qed.

Example contains_ex : contains (py "高評価") (py "ぜひ高評価お願いします") = true.
Proof. reflexivity. Qed.

Example json_dumps_error :
  utf8_encode (json_dumps [(py "success", JBool false);
                           (py "error", JStr (py "No audio data received"))])
  = quoted "{'success': false, 'error': 'No audio data received'}".
Proof. reflexivity. Qed.

Example json_dumps_escapes :
  json_dumps [(py "text", JStr [97; 34; 92; 10; 1; 127; 12288]%N)]
  = py "{" ++ [34%N] ++ py "text" ++ [34%N] ++ py ": " ++ [34; 97; 92; 34; 92; 92; 92; 110]%N
      ++ py "\u0001" ++ [127; 12288; 34]%N ++ py "}".
Proof. reflexivity. Qed.

Example server_hears_hello :
  bodies (events_of (sample.heard (Returned sample.hello)))
  = [quoted "{'success': true, 'text': 'こんにちは、世界。', 'language': 'ja', 'language_probability': 0.98, 'duration': 1.5}"].
Proof. vm_compute. reflexivity. Qed.

Example server_hears_credits :
  bodies (events_of (sample.heard (Returned sample.credits)))
  = [quoted "{'success': true, 'text': '', 'language': 'ja', 'language_probability': 0.71, 'duration': 2.0}"].
Proof. vm_compute. reflexivity. Qed.

Example server_engine_fails :
  bodies (events_of (sample.heard (Raises sample.broken)))
  = [quoted "{'success': false, 'error': 'Invalid data found when processing input'}"]
  /\ statuses (events_of (sample.heard (Raises sample.broken))) = [200].
Proof. split; vm_compute; reflexivity. Qed.

Example script_hears_hello :
  stdout_of (events_of (transcribe.main (sample.machine (Returned sample.hello))
                          (sample.payload 44) sample.boot))
  = [quoted_text "{'success': true, 'text': 'こんにちは、世界。', 'language': 'ja', 'duration': 1.5}"].
Proof. vm_compute. reflexivity. Qed.

Example script_short_input :
  stdout_of (events_of (transcribe.main (sample.machine (Returned sample.hello))
                          (sample.payload 43) sample.boot))
  = [quoted_text "{'success': false, 'error': 'Invalid WAV data'}"].
Proof. vm_compute. reflexivity. Qed.

Example server_starts_on_cpu :
  stdout_of (events_of (whisper_server.module_body
                          (sample.cpu_machine (Returned sample.hello)) ∅ sample.boot))
  = [ py "[whisper-server] Loading model: small";
      py "[whisper-server] CUDA not available, falling back to CPU";
      py "[whisper-server] Device: cpu, Compute type: int8";
      py "[whisper-server] Model loaded successfully" ].
Proof. vm_compute. reflexivity. Qed.

Example server_routes :
  statuses (events_of (whisper_server.serve_forever
                         (sample.machine (Returned sample.hello)) sample.globals
                         [ whisper_server.Parsed (sample.request "GET" "/health");
                           whisper_server.Parsed (sample.request "GET" "/");
                           whisper_server.Parsed (sample.post (sample.payload 44));
                           whisper_server.Parsed (sample.post (sample.payload 10));
                           whisper_server.Parsed (sample.request "DELETE" "/health");
                           sample.http2_post ]
                         sample.serving))
  = [200; 404; 200; 200; 501; 505].
Proof. vm_compute. reflexivity. Qed.

Example wave_reads_payload :
  sample.getframerate (sample.payload 44) = Returned 16000
  /\ sample.getframerate (sample.payload 100) = Returned 16000
  /\ length (sample.payload 100) = 100%nat
  /\ sample.getframerate (sample.zeros 44) = Raises sample.no_riff.
Proof. repeat split; vm_compute; reflexivity. Qed.

Example int_reads_signs :
  sample.int_of_digits (py " 44 ") = Returned 44
  /\ sample.int_of_digits (py "-1") = Returned (-1)
  /\ sample.int_of_digits (py "abc") = Raises sample.abc_error.
Proof. repeat split; vm_compute; reflexivity. Qed.

Example script_on_ascii_stdout :
  sample.ascii_error 0
    (json_dumps (transcribe.success_result
                   (join (map seg_text (seg_list sample.hello))) (info sample.hello)))
  = Some sample.hello_unprintable.
Proof. vm_compute. reflexivity. Qed.

(* ===================================================================== *)
(** ** Runs of the library calls *)
(* ===================================================================== *)

Lemma set_fs_id st : set_fs (fs st) st = st.
Proof. destruct st; reflexivity. Qed.

Lemma fs_restored (f : gmap pystr pybytes) p d :
  f !! p = None -> delete p (<[p := d]> (<[p := []]> f)) = f.
Proof.
  intros H. rewrite insert_insert_eq, delete_insert_eq.
  apply delete_id. exact H.
Qed.

Lemma tmp_choice_free env st p : tmp_choice env st = Some p -> fs st !! p = None.
Proof.
  unfold tmp_choice. intros H. apply List.find_some in H as [_ H].
  apply bool_decide_eq_true in H. exact H.
Qed.

Lemma bind_run {A B} (c : M A) (k : A -> M B) st :
  bind c k st =
  match c st with
  | (Ret a, st1, ev1) =>
      match k a st1 with
      | (r, st2, ev2) => (r, st2, ev1 ++ ev2)
      end
  | (Raise x, st1, ev1) => (Raise x, st1, ev1)
  end.
Proof. reflexivity. Qed.

Lemma write_temp_wav_run env data st :
  write_temp_wav env data st =
  match tmp_choice env st with
  | None => (Raise (Exception no_tmp_error), st, [])
  | Some p =>
      match tmp_write_error env data with
      | Some e =>
          (Raise (Exception e), set_fs (<[p := tmp_written env data]> (fs st)) st,
           [TmpCreate p])
      | None => (Ret p, set_fs (<[p := data]> (<[p := []]> (fs st))) st,
                 [TmpCreate p; TmpWrite p data])
      end
  end.
Proof.
  unfold write_temp_wav, bind, NamedTemporaryFile, tmp_write.
  destruct (tmp_choice env st) as [p|]; [|reflexivity].
  destruct (tmp_write_error env data); [|reflexivity].
  unfold set_fs. cbn [fs model app]. rewrite insert_insert_eq. reflexivity.
Qed.

Lemma lift_returned {A} (a : A) st : lift (Returned a) st = (Ret a, st, []).
Proof. reflexivity. Qed.

Lemma lift_raises {A} e st : @lift A (Raises e) st = (Raise (Exception e), st, []).
Proof. reflexivity. Qed.

Lemma transcribe_then_unlink env m p kw data {A} (k : list Segment -> Transcription -> A) st :
  fs st !! p = Some data ->
  try_finally
    (t <- model_transcribe env m p kw;;
     segments <- iterate t;;
     ret (k segments t))
    (os_unlink p) st
  = (match whisper_transcribe env m (Some data) kw with
     | Raises e => Raise (Exception e)
     | Returned t =>
         match seg_error t with
         | Some e => Raise (Exception e)
         | None => Ret (k (seg_list t) t)
         end
     end,
     set_fs (delete p (fs st)) st,
     [Transcribe m p kw (whisper_transcribe env m (Some data) kw); Unlink p]).
Proof.
  intros Hp.
  unfold try_finally, bind, model_transcribe, iterate, os_unlink.
  rewrite Hp. destruct (whisper_transcribe env m (Some data) kw) as [t|e]; [|rewrite Hp; reflexivity].
  destruct (seg_error t); simpl; rewrite Hp; reflexivity.
Qed.

Lemma set_fs_restored st p d :
  fs st !! p = None ->
  set_fs (delete p (fs (set_fs (<[p := d]> (<[p := []]> (fs st))) st)))
         (set_fs (<[p := d]> (<[p := []]> (fs st))) st) = st.
Proof.
  intros H. destruct st as [f m]. unfold set_fs. simpl in *.
  rewrite fs_restored by exact H. reflexivity.
Qed.

Ltac mred := lazy beta iota.
Ltac found := eexists _, _; split; [reflexivity|].
Ltac reached :=
  eexists _, _, _; split; [reflexivity|]; cbn [app]; rewrite ?app_nil_r.

(* ===================================================================== *)
(** ** Runs of the server's handlers *)
(* ===================================================================== *)

Import whisper_server.

Lemma send_json_response_run req d st :
  send_json_response req d st = (Ret tt, st, response_events req d).
Proof. reflexivity. Qed.

Lemma send_error_response_run req msg st :
  send_error_response req msg st = (Ret tt, st, response_events req (error_result msg)).
Proof. reflexivity. Qed.

Lemma rfile_read_run env req n st :
  rfile_read env req n st =
  if n <? -1 then (Raise (Exception read_error), st, [RfileRead n])
  else
    match read_refused env n with
    | Some e => (Raise (Exception e), st, [RfileRead n])
    | None => (Ret (read_data req n), st, [RfileRead n])
    end.
Proof.
  unfold rfile_read, read_data, bind, emit.
  destruct (n <? -1); [reflexivity|].
  destruct (read_refused env n); [reflexivity|].
  destruct (n =? -1); reflexivity.
Qed.

Lemma global_then_unlink env p kw data {A} (k : list Segment -> Transcription -> A) st :
  fs st !! p = Some data ->
  try_finally
    (m <- global_model;;
     t <- model_transcribe env m p kw;;
     segments <- iterate t;;
     ret (k segments t))
    (os_unlink p) st
  = match model st with
    | None => (Raise (Exception name_error), set_fs (delete p (fs st)) st, [Unlink p])
    | Some m =>
        (match whisper_transcribe env m (Some data) kw with
         | Raises e => Raise (Exception e)
         | Returned t =>
             match seg_error t with
             | Some e => Raise (Exception e)
             | None => Ret (k (seg_list t) t)
             end
         end,
         set_fs (delete p (fs st)) st,
         [Transcribe m p kw (whisper_transcribe env m (Some data) kw); Unlink p])
    end.
Proof.
  intros Hp.
  cbv beta iota zeta delta [try_finally bind global_model get model_transcribe
                            iterate os_unlink ret raise].
  destruct (model st) as [m|]; rewrite ?Hp; [|reflexivity].
  destruct (whisper_transcribe env m (Some data) kw) as [t|e]; [|rewrite Hp; reflexivity].
  destruct (seg_error t); rewrite Hp; reflexivity.
Qed.

Lemma handler_run req e st :
  (emit (PrintExc e);;; send_error_response req (exc_str e)) st
  = (Ret tt, st, PrintExc e :: response_events req (error_result (exc_str e))).
Proof. reflexivity. Qed.

Lemma do_POST_run env req st :
  exists st' ev, do_POST env req st = (Ret tt, st', ev) /\ POST_run env req st st' ev.
Proof.
  unfold do_POST, try_except. cbv zeta. rewrite bind_run.
  destruct (header_content_length env req) as [n|e] eqn:Hlen.
  2: { rewrite lift_raises; mred. rewrite handler_run. found.
       apply POST_bad_length. exact Hlen. }
  rewrite lift_returned; mred.
  destruct (n =? 0) eqn:Hn0.
  { rewrite send_error_response_run. apply Z.eqb_eq in Hn0; subst n.
    found. apply POST_no_data. exact Hlen. }
  apply Z.eqb_neq in Hn0.
  rewrite bind_run, rfile_read_run.
  destruct (n <? -1) eqn:Hn1.
  { apply Z.ltb_lt in Hn1. mred. rewrite handler_run.
    found. apply (POST_bad_read _ _ _ n); assumption. }
  apply Z.ltb_ge in Hn1.
  destruct (read_refused env n) as [e|] eqn:Hread.
  { mred. rewrite handler_run.
    found. apply (POST_read_refused _ _ _ n); assumption. }
  mred.
  destruct (Z.of_nat (length (read_data req n)) <? 44) eqn:Hshort.
  { apply Z.ltb_lt in Hshort. rewrite send_error_response_run.
    found. apply (POST_too_short _ _ _ n); try assumption. lia. }
  apply Z.ltb_ge in Hshort.
  rewrite bind_run, write_temp_wav_run.
  destruct (tmp_choice env st) as [p|] eqn:Hp.
  2: { mred. rewrite handler_run.
       found. apply (POST_no_tmp _ _ _ n); try assumption. lia. }
  pose proof (tmp_choice_free _ _ _ Hp) as Hfree.
  destruct (tmp_write_error env (read_data req n)) as [e|] eqn:Hw.
  { mred. rewrite handler_run.
    found. apply (POST_write_failed _ _ _ n); try assumption. lia. }
  mred. rewrite bind_run.
  rewrite (global_then_unlink env p transcribe_args (read_data req n)).
  2: { cbn [fs set_fs]. apply lookup_insert_eq. }
  rewrite set_fs_restored by exact Hfree.
  replace (fs (set_fs (<[p:=read_data req n]> (<[p:=[]]> (fs st))) st) !! p)
    with (Some (read_data req n)) by (cbn [fs set_fs]; symmetry; apply lookup_insert_eq).
  cbn [model set_fs].
  destruct (model st) as [m|] eqn:Hm.
  2: { mred. rewrite handler_run. found.
       apply (POST_no_model _ _ _ n); try assumption. lia. }
  destruct (whisper_transcribe env m (Some (read_data req n)) transcribe_args) as [t|e] eqn:Ht.
  2: { mred. rewrite handler_run. found.
       apply (POST_engine_raised _ _ _ n); try assumption. lia. }
  destruct (seg_error t) as [e|] eqn:Hseg.
  { mred. rewrite handler_run. found.
    apply (POST_segments_raised _ _ _ n); try assumption. lia. }
  mred. rewrite send_json_response_run. found.
  apply (POST_transcribed _ _ _ n); try assumption. lia.
Qed.

Lemma do_POST_cases env req st r st' ev :
  do_POST env req st = (r, st', ev) ->
  r = Ret tt /\ POST_run env req st st' ev.
Proof.
  intros H. destruct (do_POST_run env req st) as (st0 & ev0 & Heq & Hrun).
  rewrite Heq in H. injection H as <- <- <-. auto.
Qed.

(* ===================================================================== *)
(** ** Runs of the command-line script *)
(* ===================================================================== *)

Section CliRuns.
Import transcribe.

Lemma load_model_run env st :
  load_model env st =
  match model st with
  | Some m => (Ret m, st, [])
  | None =>
      match whisper_model_error env MODEL_SIZE DEVICE COMPUTE_TYPE with
      | Some e =>
          (Raise (Exception e), st,
           [Stderr loading_line; LoadModel MODEL_SIZE DEVICE COMPUTE_TYPE])
      | None =>
          (Ret (mkModel MODEL_SIZE DEVICE COMPUTE_TYPE),
           set_model (mkModel MODEL_SIZE DEVICE COMPUTE_TYPE) st,
           [Stderr loading_line; LoadModel MODEL_SIZE DEVICE COMPUTE_TYPE;
            Stderr loaded_line])
      end
  end.
Proof.
  cbv beta iota zeta delta [load_model bind get put WhisperModel emit stderr_write
                            ret raise loading_line loaded_line].
  destruct (model st); [reflexivity|].
  destruct (whisper_model_error env MODEL_SIZE DEVICE COMPUTE_TYPE);
    cbn [app]; reflexivity.
Qed.

(** Loading the model touches no file and calls no inference. *)
Lemma load_model_quiet env st r st1 ev0 :
  load_model env st = (r, st1, ev0) ->
  fs st1 = fs st /\ inference_calls ev0 = []
  /\ forall p, ~ In (TmpCreate p) ev0.
Proof.
  rewrite load_model_run. intros H.
  destruct (model st).
  - injection H as <- <- <-. simpl. intuition.
  - destruct (whisper_model_error env MODEL_SIZE DEVICE COMPUTE_TYPE);
      injection H as <- <- <-; simpl; intuition discriminate.
Qed.

Lemma rate_warning_run sample_rate st :
  (if negb (sample_rate =? 16000) then
     stderr_write (py "[faster-whisper] Warning: sample rate "
                     ++ str_of_int sample_rate ++ py " != 16000" ++ LF)
   else ret tt) st
  = (Ret tt, st, rate_warning sample_rate).
Proof.
  unfold rate_warning, stderr_write, emit, ret.
  destruct (negb (sample_rate =? 16000)); reflexivity.
Qed.

Lemma transcribe_wav_run env wav st :
  exists r st' ev,
    transcribe_wav env wav st = (r, st', ev) /\ WAV_run env wav st r st' ev.
Proof.
  unfold transcribe_wav. rewrite bind_run.
  destruct (load_model env st) as [[[m|x] st1] ev0] eqn:Hload; mred.
  2: { reached. apply WAV_load_failed. exact Hload. }
  rewrite bind_run.
  destruct (wave_getframerate env wav) as [rate|e] eqn:Hwave.
  2: { rewrite lift_raises; mred. reached. eapply WAV_bad_wave; eauto. }
  rewrite lift_returned; mred.
  rewrite bind_run, rate_warning_run; mred.
  rewrite bind_run, write_temp_wav_run.
  destruct (tmp_choice env st1) as [p|] eqn:Hp.
  2: { mred. reached. eapply WAV_no_tmp; eauto. }
  pose proof (tmp_choice_free _ _ _ Hp) as Hfree.
  destruct (tmp_write_error env wav) as [e|] eqn:Hw.
  { mred. reached. eapply WAV_write_failed; eauto. }
  mred.
  rewrite (transcribe_then_unlink env m p transcribe_args wav
             (fun segments t => success_result (join (map seg_text segments)) (info t)))
    by (cbn [fs set_fs]; apply lookup_insert_eq).
  rewrite set_fs_restored by exact Hfree.
  destruct (whisper_transcribe env m (Some wav) transcribe_args) as [t|e] eqn:Ht.
  2: { reached. eapply WAV_engine_raised; eauto. }
  destruct (seg_error t) as [e|] eqn:Hseg.
  - reached. eapply WAV_segments_raised; eauto.
  - reached. eapply WAV_transcribed; eauto.
Qed.

Lemma print_text_run env text st :
  print_text env text st
  = match stdout_error env text with
    | Some e => (Raise (Exception e), st, [])
    | None => (Ret tt, st, [Stdout text])
    end.
Proof. unfold print_text. destruct (stdout_error env text); reflexivity. Qed.

(** The end of [main()]: the print of the result [d]. *)
Lemma print_result_run env d st :
  (print_text env (json_dumps d);;; ret d) st = printed env d st [].
Proof.
  rewrite bind_run, print_text_run. unfold printed.
  destruct (stdout_error env (json_dumps d)); reflexivity.
Qed.

Lemma printed_app env d st ev :
  printed env d st ev
  = match printed env d st [] with
    | (r, st', ev') => (r, st', ev ++ ev')
    end.
Proof.
  unfold printed. destruct (stdout_error env (json_dumps d)); cbn [app];
    rewrite ?app_nil_r; reflexivity.
Qed.

Lemma main_short env stdin st :
  (length stdin < 44)%nat ->
  main env stdin st = printed env (error_result (py "Invalid WAV data")) st [].
Proof.
  intros H. unfold main. cbv zeta.
  assert ((Z.of_nat (length stdin) <? 44) = true) as -> by (apply Z.ltb_lt; lia).
  rewrite bind_run.
  change (ret (error_result (py "Invalid WAV data")) st)
    with (Ret (error_result (py "Invalid WAV data")), st, @nil Event).
  mred. rewrite print_result_run. unfold printed.
  destruct (stdout_error env (json_dumps (error_result (py "Invalid WAV data"))));
    reflexivity.
Qed.

Lemma main_long env stdin st r st1 ev :
  (44 <= length stdin)%nat ->
  transcribe_wav env stdin st = (r, st1, ev) ->
  main env stdin st
  = match main_result r with
    | Ret d => printed env d st1 ev
    | Raise x => (Raise x, st1, ev)
    end.
Proof.
  intros H Hrun. unfold main. cbv zeta.
  assert ((Z.of_nat (length stdin) <? 44) = false) as -> by (apply Z.ltb_ge; lia).
  rewrite bind_run. unfold try_except. rewrite Hrun.
  destruct r as [d|[e|code]]; cbn [main_result].
  - mred. rewrite print_result_run. symmetry. apply printed_app.
  - change (ret (error_result (exc_str e)) st1)
      with (Ret (error_result (exc_str e)), st1, @nil Event).
    mred. rewrite print_result_run, app_nil_r. symmetry. apply printed_app.
  - reflexivity.
Qed.

(** A run of [main()] that returns has printed its result. *)
Lemma printed_returns env d0 st0 ev0 d st ev :
  printed env d0 st0 ev0 = (Ret d, st, ev) ->
  d = d0 /\ st = st0 /\ ev = ev0 ++ [Stdout (json_dumps d0)]
  /\ stdout_error env (json_dumps d0) = None.
Proof.
  unfold printed. destruct (stdout_error env (json_dumps d0)); [discriminate|].
  intros H. injection H as <- <- <-. auto.
Qed.

End CliRuns.

Lemma rate_warning_quiet rate e :
  In e (transcribe.rate_warning rate) -> exists text, e = Stderr text.
Proof.
  unfold transcribe.rate_warning.
  destruct (negb (rate =? 16000)); cbn [In]; [|tauto].
  intros [<-|[]]. eauto.
Qed.

(** The paths of [transcribe_wav] on which an inference call is in the
    trace. *)
Lemma WAV_run_inference env wav st r st' ev m p kw out :
  transcribe.WAV_run env wav st r st' ev ->
  In (Transcribe m p kw out) ev ->
  fs st' = fs st /\ fs st !! p = None /\ kw = transcribe.transcribe_args
  /\ out = whisper_transcribe env m (Some wav) transcribe.transcribe_args
  /\ exists ev1,
       ev = ev1 ++ [TmpCreate p; TmpWrite p wav; Transcribe m p kw out; Unlink p]
       /\ inference_calls ev1 = []
       /\ (forall q, ~ In (TmpCreate q) ev1)
       /\ r = match out with
              | Raises e => Raise (Exception e)
              | Returned t =>
                  match seg_error t with
                  | Some e => Raise (Exception e)
                  | None =>
                      Ret (transcribe.success_result
                             (join (map seg_text (seg_list t))) (info t))
                  end
              end.
Proof.
  intros Hrun Hin.
  assert (Hpre : forall r0 st1 ev0 rate,
             transcribe.load_model env st = (r0, st1, ev0) ->
             fs st1 = fs st
             /\ inference_calls (ev0 ++ transcribe.rate_warning rate) = []
             /\ forall q, ~ In (TmpCreate q) (ev0 ++ transcribe.rate_warning rate)).
  { intros r0 st1 ev0 rate Hl.
    destruct (load_model_quiet _ _ _ _ _ Hl) as (Hfs & Hcalls & Htmp).
    split; [exact Hfs|]. split.
    - unfold inference_calls in *. rewrite List.filter_app, Hcalls.
      unfold transcribe.rate_warning. destruct (negb (rate =? 16000)); reflexivity.
    - intros q Hq. apply in_app_or in Hq as [Hq|Hq]; [exact (Htmp q Hq)|].
      apply rate_warning_quiet in Hq as [text Hq]. discriminate Hq. }
  assert (Hnot : forall l, inference_calls l = [] -> ~ In (Transcribe m p kw out) l).
  { intros l Hl Hx.
    assert (Hc : In (Transcribe m p kw out) (inference_calls l))
      by (apply List.filter_In; split; [exact Hx|reflexivity]).
    rewrite Hl in Hc. destruct Hc. }
  destruct Hrun as [x st1 ev0 Hload
                   | m0 st1 ev0 e Hload Hwave
                   | m0 st1 ev0 rate Hload Hwave Htmp
                   | m0 st1 ev0 rate p0 e Hload Hwave Htmp Hwrite
                   | m0 st1 ev0 rate p0 e Hload Hwave Htmp Hwrite Hcall
                   | m0 st1 ev0 rate p0 t e Hload Hwave Htmp Hwrite Hcall Hseg
                   | m0 st1 ev0 rate p0 t Hload Hwave Htmp Hwrite Hcall Hseg].
  1-2: destruct (load_model_quiet _ _ _ _ _ Hload) as (_ & Hc & _);
       destruct (Hnot _ Hc Hin).
  all: destruct (Hpre _ _ _ rate Hload) as (Hfs & Hcalls & Hnotmp).
  1: destruct (Hnot _ Hcalls Hin).
  all: rewrite app_assoc in Hin; apply in_app_or in Hin as [Hin|Hin];
       [destruct (Hnot _ Hcalls Hin)|]; cbn [In] in Hin.
  1: destruct Hin as [Hin|[]]; discriminate Hin.
  all: destruct Hin as [Hin|[Hin|[Hin|[Hin|[]]]]]; try discriminate Hin;
       injection Hin as <- <- <- <-;
       pose proof (tmp_choice_free _ _ _ Htmp) as Hfree; rewrite Hfs in Hfree;
       repeat match goal with |- _ /\ _ => split end; auto;
       exists (ev0 ++ transcribe.rate_warning rate);
       rewrite <- app_assoc, ?Hseg; auto.
Qed.

(* ===================================================================== *)
(** ** What a trace of [do_POST] contains *)
(* ===================================================================== *)

Lemma responds_response_events req d : responds (response_events req d) 200 d.
Proof. split; reflexivity. Qed.

Lemma responds_cons e ev code d :
  silent e = true -> responds ev code d -> responds (e :: ev) code d.
Proof.
  unfold responds, statuses, bodies. intros He [H1 H2].
  destruct e; try discriminate He; cbn [omap list_omap]; auto.
Qed.

Lemma no_transcribe_in_response m p kw out req d :
  ~ In (Transcribe m p kw out) (response_events req d).
Proof.
  unfold response_events. cbn [In]. intuition discriminate.
Qed.

Lemma inference_calls_response req d : inference_calls (response_events req d) = [].
Proof. reflexivity. Qed.

Ltac responding :=
  repeat match goal with
         | |- responds (response_events _ _) _ _ => apply responds_response_events
         | |- responds (_ :: _) _ _ => apply responds_cons; [reflexivity|]
         end.

(** Every path of [do_POST] ends with status 200 and one JSON body. *)
Lemma POST_run_responds env req st st' ev :
  POST_run env req st st' ev ->
  exists d, responds ev 200 d.
Proof.
  intros H; destruct H; eexists; responding.
Qed.

(** A response determines its status and body. *)
Lemma responds_body ev code d b :
  responds ev code d -> bodies ev = [b] -> b = utf8_encode (json_dumps d).
Proof. intros [_ H] Hb. congruence. Qed.

(** The paths on which an inference call is in the trace. *)
Lemma POST_run_inference env req st st' ev m p kw out :
  POST_run env req st st' ev ->
  In (Transcribe m p kw out) ev ->
  st' = st /\ fs st !! p = None /\ model st = Some m /\ kw = transcribe_args
  /\ exists n,
       header_content_length env req = Returned n /\ n <> 0 /\ -1 <= n
       /\ (44 <= length (read_data req n))%nat
       /\ out = whisper_transcribe env m (Some (read_data req n)) transcribe_args
       /\ ev = [RfileRead n; TmpCreate p; TmpWrite p (read_data req n);
                Transcribe m p kw out; Unlink p]
               ++ match out with
                  | Raises e =>
                      PrintExc e :: response_events req (error_result (exc_str e))
                  | Returned t =>
                      match seg_error t with
                      | Some e =>
                          PrintExc e :: response_events req (error_result (exc_str e))
                      | None =>
                          response_events req (success_result (transcript_text t) (info t))
                      end
                  end.
Proof.
  intros H Hin. destruct H; cbn [In] in Hin;
    repeat match type of Hin with
           | _ \/ _ => destruct Hin as [Hin|Hin]
           end;
    try discriminate Hin;
    try (apply no_transcribe_in_response in Hin; contradiction);
    try contradiction.
  all: inversion Hin; subst; clear Hin.
  all: repeat match goal with |- _ /\ _ => split end; eauto using tmp_choice_free.
  all: exists n; repeat match goal with |- _ /\ _ => split end; auto.
  all: cbn [app];
    repeat match goal with
           | H : seg_error _ = _ |- _ => rewrite H
           end;
    reflexivity.
Qed.

(* ===================================================================== *)
(** ** The POST handler *)
(* ===================================================================== *)

Lemma no_audio_in_response req d : List.filter handles_audio (response_events req d) = [].
Proof. reflexivity. Qed.

(** C9: a POST request without a Content-Length header (the default 0
    is taken) or with one that reads as 0 is answered with status 200
    and the body {"success": false, "error": "No audio data received"};
    the request body is not read, no temporary file is made and the
    engine is not called; the state is left as it was. *)
Theorem post_without_length env req st :
  headers_get (py "Content-Length") (headers req) = None
  \/ (exists v, headers_get (py "Content-Length") (headers req) = Some v
                /\ py_int env v = Returned 0) ->
  exists ev,
    do_POST env req st = (Ret tt, st, ev)
    /\ statuses ev = [200]
    /\ bodies ev = [quoted "{'success': false, 'error': 'No audio data received'}"]
    /\ responds ev 200 (error_result (py "No audio data received"))
    /\ List.filter handles_audio ev = [].
Proof.
  intros Hlen.
  assert (H0 : header_content_length env req = Returned 0).
  { unfold header_content_length.
    destruct Hlen as [-> | (v & -> & Hv)]; [reflexivity | exact Hv]. }
  destruct (do_POST_run env req st) as (st' & ev & Heq & Hrun).
  destruct Hrun;
    try match goal with
        | H : header_content_length env req = _ |- _ => rewrite H0 in H
        end;
    try discriminate;
    try (match goal with
         | H : Returned 0 = Returned ?n |- _ => injection H as <-
         end; exfalso; lia).
  exists (response_events req (error_result (py "No audio data received"))).
  split; [exact Heq|]. repeat split; reflexivity.
Qed.

Lemma post_without_length_witness :
  exists ev,
    do_POST (sample.machine (Returned sample.hello)) (sample.request "POST" "/")
      sample.serving = (Ret tt, sample.serving, ev)
    /\ statuses ev = [200]
    /\ bodies ev = [quoted "{'success': false, 'error': 'No audio data received'}"]
    /\ responds ev 200 (error_result (py "No audio data received"))
    /\ List.filter handles_audio ev = [].
Proof.
  apply (post_without_length (sample.machine (Returned sample.hello))
           (sample.request "POST" "/") sample.serving).
  left. reflexivity.
Defined.

Lemma success_result_fields text i :
  dict_get (py "success") (success_result text i) = Some (JBool true)
  /\ dict_get (py "text") (success_result text i) = Some (JStr text)
  /\ dict_get (py "language") (success_result text i) = Some (JStr (info_language i))
  /\ dict_get (py "language_probability") (success_result text i)
     = Some (JFloat (info_language_probability i))
  /\ dict_get (py "duration") (success_result text i) = Some (JFloat (info_duration i))
  /\ dict_get (py "error") (success_result text i) = None.
Proof. repeat split; vm_compute; reflexivity. Qed.

Lemma error_result_fields msg :
  dict_get (py "success") (error_result msg) = Some (JBool false)
  /\ dict_get (py "error") (error_result msg) = Some (JStr msg)
  /\ dict_get (py "text") (error_result msg) = None.
Proof. repeat split; vm_compute; reflexivity. Qed.

(** C4: every POST request is answered with status 200 and one JSON
    body, and no exception leaves the handler.  The body has success =
    false and an error string unless an inference call returned and its
    segments were read to the end; then it has success = true with the
    text, the language and the duration. *)
Theorem post_always_200 env req st :
  exists st' ev d,
    do_POST env req st = (Ret tt, st', ev)
    /\ statuses ev = [200]
    /\ bodies ev = [utf8_encode (json_dumps d)]
    /\ ((exists msg,
           d = error_result msg
           /\ dict_get (py "success") d = Some (JBool false)
           /\ dict_get (py "error") d = Some (JStr msg)
           /\ forall m p kw t,
                In (Transcribe m p kw (Returned t)) ev -> seg_error t <> None)
        \/ (exists m p t text,
             In (Transcribe m p transcribe_args (Returned t)) ev
             /\ seg_error t = None
             /\ d = success_result text (info t)
             /\ dict_get (py "success") d = Some (JBool true)
             /\ dict_get (py "text") d = Some (JStr text)
             /\ dict_get (py "language") d = Some (JStr (info_language (info t)))
             /\ dict_get (py "duration") d = Some (JFloat (info_duration (info t))))).
Proof.
  destruct (do_POST_run env req st) as (st' & ev & Heq & Hrun).
  exists st', ev.
  destruct Hrun as [e | | n | n | n | n p e | n p | n p m e | n p m t e | n p m t
                   | n e].
  1-9, 11: match type of Heq with
       | context [response_events _ (error_result ?msg)] =>
           exists (error_result msg);
           split; [exact Heq|]; split; [reflexivity|]; split; [reflexivity|];
           left; exists msg;
           destruct (error_result_fields msg) as (F1 & F2 & _);
           split; [reflexivity|]; split; [exact F1|]; split; [exact F2|];
           intros m0 p0 kw0 t0 Hin;
           repeat match type of Hin with
                  | In _ (response_events _ _) =>
                      apply no_transcribe_in_response in Hin; contradiction
                  | In _ (_ :: _) => destruct Hin as [Hin|Hin]
                  end;
           try discriminate Hin;
           try (injection Hin as <- <- <- <-; congruence)
       end.
  exists (success_result (transcript_text t) (info t)).
  split; [exact Heq|]. split; [reflexivity|]. split; [reflexivity|].
  right. exists m, p, t, (transcript_text t).
  destruct (success_result_fields (transcript_text t) (info t)) as (F1 & F2 & F3 & F4 & F5 & _).
  repeat split; auto. cbn [In]. auto.
Qed.

(** A phrase of the list occurs in the joined segments exactly when it
    occurs in the stripped text the filter looks at. *)
Lemma hallucination_in_stripped h s :
  In h hallucinations -> (occurs_in h s <-> occurs_in h (strip s)).
Proof.
  intros Hin. pose proof hallucinations_edges as Hall.
  rewrite List.Forall_forall in Hall. destruct (Hall h Hin) as [Hfirst Hlast].
  apply occurs_in_strip; assumption.
Qed.

Lemma transcript_text_hit t :
  (exists h, In h hallucinations /\ occurs_in h (join (map seg_text (seg_list t)))) ->
  transcript_text t = [].
Proof.
  intros (h & Hin & Hocc). apply filter_hallucinations_hit.
  exists h. split; [exact Hin|].
  apply (proj1 (hallucination_in_stripped h _ Hin)). exact Hocc.
Qed.

Lemma transcript_text_miss t :
  (forall h, In h hallucinations -> ~ occurs_in h (join (map seg_text (seg_list t)))) ->
  transcript_text t = strip (join (map seg_text (seg_list t))).
Proof.
  intros H. apply filter_hallucinations_miss.
  intros h Hin Hocc. apply (H h Hin).
  apply (proj2 (hallucination_in_stripped h _ Hin)). exact Hocc.
Qed.

(** The response to a request whose segments were read to the end. *)
Lemma transcribed_response env req st r st' ev m p kw t :
  do_POST env req st = (r, st', ev) ->
  In (Transcribe m p kw (Returned t)) ev ->
  seg_error t = None ->
  responds ev 200 (success_result (transcript_text t) (info t)).
Proof.
  intros Hrun Hin Hseg. apply do_POST_cases in Hrun as [_ Hrun].
  destruct (POST_run_inference _ _ _ _ _ _ _ _ _ Hrun Hin)
    as (_ & _ & _ & _ & n & _ & _ & _ & _ & _ & ->).
  rewrite Hseg. cbn [app]. responding.
Qed.

(** C2: when the segments of the server's transcription call have been
    read, a phrase of the hallucination list occurring anywhere in their
    concatenation makes the text of the response empty, the whole
    transcript being dropped; when no phrase of the list occurs, the
    text is the stripped concatenation, unchanged. *)
Theorem hallucination_filter env req st r st' ev m p kw t :
  do_POST env req st = (r, st', ev) ->
  In (Transcribe m p kw (Returned t)) ev ->
  seg_error t = None ->
  exists d,
    responds ev 200 d
    /\ ((exists h, In h hallucinations
                   /\ occurs_in h (join (map seg_text (seg_list t)))) ->
        dict_get (py "text") d = Some (JStr []))
    /\ ((forall h, In h hallucinations
                   -> ~ occurs_in h (join (map seg_text (seg_list t)))) ->
        dict_get (py "text") d
        = Some (JStr (strip (join (map seg_text (seg_list t)))))).
Proof.
  intros Hrun Hin Hseg.
  exists (success_result (transcript_text t) (info t)).
  split; [eapply transcribed_response; eassumption|].
  destruct (success_result_fields (transcript_text t) (info t)) as (_ & Ftext & _).
  rewrite Ftext. split; intros H.
  - rewrite transcript_text_hit by exact H. reflexivity.
  - rewrite transcript_text_miss by exact H. reflexivity.
Qed.

Ltac pick_event := vm_compute; repeat (first [left; reflexivity | right]).

Lemma hello_is_clean h :
  In h hallucinations ->
  ~ occurs_in h (join (map seg_text (seg_list sample.hello))).
Proof.
  intros Hin. apply contains_false.
  repeat destruct Hin as [<-|Hin]; try (vm_compute; reflexivity).
  destruct Hin.
Qed.

Lemma hallucination_filter_witness :
  (exists d,
     responds (events_of (sample.heard (Returned sample.credits))) 200 d
     /\ dict_get (py "text") d = Some (JStr []))
  /\ (exists d,
        responds (events_of (sample.heard (Returned sample.hello))) 200 d
        /\ dict_get (py "text") d = Some (JStr (py "こんにちは、世界。"))).
Proof.
  split.
  - destruct (hallucination_filter (sample.machine (Returned sample.credits))
                (sample.post (sample.payload 44)) sample.serving
                (Ret tt) sample.serving
                (events_of (sample.heard (Returned sample.credits)))
                sample.small sample.tmp_wav transcribe_args sample.credits)
      as (d & Hresp & Hhit & _).
    + vm_compute. reflexivity.
    + pick_event.
    + reflexivity.
    + exists d. split; [exact Hresp|]. apply Hhit.
      exists (py "ご視聴ありがとうございました"). split.
      * left. reflexivity.
      * apply contains_spec. vm_compute. reflexivity.
  - destruct (hallucination_filter (sample.machine (Returned sample.hello))
                (sample.post (sample.payload 44)) sample.serving
                (Ret tt) sample.serving
                (events_of (sample.heard (Returned sample.hello)))
                sample.small sample.tmp_wav transcribe_args sample.hello)
      as (d & Hresp & _ & Hmiss).
    + vm_compute. reflexivity.
    + pick_event.
    + reflexivity.
    + exists d. split; [exact Hresp|].
      rewrite (Hmiss hello_is_clean). vm_compute. reflexivity.
Defined.

(** C10: when the filter empties the transcript, the response still
    has success = true and carries the language, the language
    probability and the duration the model reported; it is the very
    response a request gets whose audio gave no text at all. *)
Theorem filtered_response_keeps_info env req st r st' ev m p kw t :
  do_POST env req st = (r, st', ev) ->
  In (Transcribe m p kw (Returned t)) ev ->
  seg_error t = None ->
  (exists h, In h hallucinations
             /\ occurs_in h (join (map seg_text (seg_list t)))) ->
  responds ev 200
    [ (py "success", JBool true);
      (py "text", JStr []);
      (py "language", JStr (info_language (info t)));
      (py "language_probability", JFloat (info_language_probability (info t)));
      (py "duration", JFloat (info_duration (info t))) ]
  /\ forall env2 req2 st2 r2 st2' ev2 m2 p2 kw2 t2,
       do_POST env2 req2 st2 = (r2, st2', ev2) ->
       In (Transcribe m2 p2 kw2 (Returned t2)) ev2 ->
       seg_error t2 = None ->
       strip (join (map seg_text (seg_list t2))) = [] ->
       info t2 = info t ->
       statuses ev2 = statuses ev /\ bodies ev2 = bodies ev.
Proof.
  intros Hrun Hin Hseg Hhit.
  pose proof (transcribed_response _ _ _ _ _ _ _ _ _ _ Hrun Hin Hseg) as Hresp.
  rewrite transcript_text_hit in Hresp by exact Hhit.
  split; [exact Hresp|].
  intros env2 req2 st2 r2 st2' ev2 m2 p2 kw2 t2 Hrun2 Hin2 Hseg2 Hsilent Hinfo.
  pose proof (transcribed_response _ _ _ _ _ _ _ _ _ _ Hrun2 Hin2 Hseg2) as Hresp2.
  unfold transcript_text in Hresp2. rewrite Hsilent, Hinfo in Hresp2.
  change (filter_hallucinations hallucinations []) with (@nil N) in Hresp2.
  destruct Hresp as [Hs Hb], Hresp2 as [Hs2 Hb2].
  split; congruence.
Qed.

Lemma filtered_response_keeps_info_witness :
  responds (events_of (sample.heard (Returned sample.credits))) 200
    [ (py "success", JBool true);
      (py "text", JStr []);
      (py "language", JStr (py "ja"));
      (py "language_probability", JFloat (Float (py "0.71")));
      (py "duration", JFloat (Float (py "2.0"))) ]
  /\ statuses (events_of (sample.heard (Returned sample.silence)))
     = statuses (events_of (sample.heard (Returned sample.credits)))
  /\ bodies (events_of (sample.heard (Returned sample.silence)))
     = bodies (events_of (sample.heard (Returned sample.credits))).
Proof.
  destruct (filtered_response_keeps_info
              (sample.machine (Returned sample.credits))
              (sample.post (sample.payload 44)) sample.serving
              (Ret tt) sample.serving
              (events_of (sample.heard (Returned sample.credits)))
              sample.small sample.tmp_wav transcribe_args sample.credits)
    as [Hresp Hsame].
  - vm_compute. reflexivity.
  - pick_event.
  - reflexivity.
  - exists (py "ご視聴ありがとうございました"). split.
    + left. reflexivity.
    + apply contains_spec. vm_compute. reflexivity.
  - split; [exact Hresp|].
    apply (Hsame (sample.machine (Returned sample.silence))
             (sample.post (sample.payload 44)) sample.serving
             (Ret tt) sample.serving
             (events_of (sample.heard (Returned sample.silence)))
             sample.small sample.tmp_wav transcribe_args sample.silence).
    + vm_compute. reflexivity.
    + pick_event.
    + reflexivity.
    + reflexivity.
    + reflexivity.
Defined.

(* ===================================================================== *)
(** ** Short payloads *)
(* ===================================================================== *)

Lemma read_data_length req n :
  -1 <= n -> (length (read_data req n) <= length (rfile req))%nat.
Proof.
  intros Hn. unfold read_data. destruct (n =? -1); [lia|].
  rewrite length_take. lia.
Qed.

(** C1, as the code has it: a payload shorter than 44 bytes never
    reaches the engine, and the result is success = false in both
    programs.  The script's result is the error "Invalid WAV data",
    which it prints (unless the [print] itself raises).  The POST
    handler answers with "Invalid WAV data (too short)" when the
    Content-Length is a number other than 0, not below -1, that
    [rfile.read] takes; the state is left as it was in every case. *)
Theorem short_payload_rejected env (payload : pybytes) req st :
  (length payload < 44)%nat ->
  rfile req = payload ->
  transcribe.main env payload st
  = transcribe.printed env (transcribe.error_result (py "Invalid WAV data")) st []
  /\ inference_calls (events_of (transcribe.main env payload st)) = []
  /\ (exists ev msg,
        do_POST env req st = (Ret tt, st, ev)
        /\ responds ev 200 (error_result msg)
        /\ inference_calls ev = []
        /\ (forall n,
              header_content_length env req = Returned n ->
              n <> 0 -> -1 <= n -> read_refused env n = None ->
              msg = py "Invalid WAV data (too short)"))
  /\ dict_get (py "success") (transcribe.error_result (py "Invalid WAV data"))
     = Some (JBool false)
  /\ (forall msg, dict_get (py "success") (error_result msg) = Some (JBool false))
  /\ startswith (py "Invalid WAV data") (py "Invalid WAV data") = true
  /\ startswith (py "Invalid WAV data") (py "Invalid WAV data (too short)") = true.
Proof.
  intros Hshort Hbody.
  split; [apply main_short; exact Hshort|].
  split.
  { rewrite (main_short env payload st Hshort). unfold transcribe.printed.
    destruct (stdout_error env _); reflexivity. }
  split.
  2: { split; [vm_compute; reflexivity|].
       split; [intros msg; apply error_result_fields|].
       split; vm_compute; reflexivity. }
  destruct (do_POST_run env req st) as (st' & ev & Heq & Hrun).
  destruct Hrun;
    try (exfalso;
         match goal with
         | H1 : -1 <= ?n, H2 : (44 <= length (read_data req ?n))%nat |- _ =>
             pose proof (read_data_length req n H1); rewrite Hbody in *; lia
         end);
    (eexists _, _; split; [exact Heq|]; split; [responding|];
     split; [reflexivity|]);
    intros n' Hlen' Hn0' Hn1' Hread';
    lazymatch goal with
    | |- ?x = ?x => reflexivity
    | _ =>
        exfalso;
        match goal with
        | H : header_content_length env req = _ |- _ =>
            rewrite Hlen' in H;
            first [ discriminate H
                  | injection H as ?; subst; first [lia | congruence] ]
        end
    end.
Qed.

Lemma short_payload_rejected_witness :
  transcribe.main (sample.machine (Returned sample.hello)) (sample.payload 43)
    sample.boot
  = (Ret (transcribe.error_result (py "Invalid WAV data")), sample.boot,
     [Stdout (json_dumps (transcribe.error_result (py "Invalid WAV data")))])
  /\ (exists ev msg,
        do_POST (sample.machine (Returned sample.hello))
          (sample.post (sample.payload 43)) sample.serving
        = (Ret tt, sample.serving, ev)
        /\ responds ev 200 (error_result msg)
        /\ inference_calls ev = []
        /\ msg = py "Invalid WAV data (too short)").
Proof.
  destruct (short_payload_rejected (sample.machine (Returned sample.hello))
              (sample.payload 43) (sample.post (sample.payload 43))
              sample.serving) as (_ & _ & (ev & msg & Hrun & Hresp & Hcalls & Hmsg) & _).
  - vm_compute. lia.
  - reflexivity.
  - destruct (short_payload_rejected (sample.machine (Returned sample.hello))
                (sample.payload 43) (sample.post (sample.payload 43))
                sample.boot) as (Hcli & _).
    + vm_compute. lia.
    + reflexivity.
    + split; [exact Hcli|].
      exists ev, msg. split; [exact Hrun|]. split; [exact Hresp|].
      split; [exact Hcalls|].
      apply (Hmsg 43); [vm_compute; reflexivity | lia | lia | vm_compute; reflexivity].
Defined.

(** C1 as stated fails for the server on the empty payload: sent with
    Content-Length 0 it is shorter than 44 bytes, and the answer is "No
    audio data received", which does not begin with "Invalid WAV data". *)
Lemma empty_payload_not_invalid_wav :
  (length (rfile (sample.post (sample.payload 0))) < 44)%nat
  /\ do_POST (sample.machine (Returned sample.hello))
       (sample.post (sample.payload 0)) sample.serving
     = (Ret tt, sample.serving,
        response_events (sample.post (sample.payload 0))
          (error_result (py "No audio data received")))
  /\ startswith (py "Invalid WAV data") (py "No audio data received") = false
  /\ ~ (exists msg,
          startswith (py "Invalid WAV data") msg = true
          /\ responds
               (events_of (do_POST (sample.machine (Returned sample.hello))
                             (sample.post (sample.payload 0)) sample.serving))
               200 (error_result msg)).
Proof.
  split; [vm_compute; lia|]. split; [vm_compute; reflexivity|].
  split; [vm_compute; reflexivity|].
  intros (msg & Hprefix & _ & Hbody).
  apply startswith_spec in Hprefix as [rest ->].
  apply (f_equal (fun l => match l with
                           | b :: _ => nth 30 b x00
                           | [] => x00
                           end)) in Hbody.
  vm_compute in Hbody. discriminate Hbody.
Qed.

(* ===================================================================== *)
(** ** Temporary files and the arguments of the inference call *)
(* ===================================================================== *)

Lemma no_tmp_in_response q req d : ~ In (TmpCreate q) (response_events req d).
Proof. unfold response_events. cbn [In]. intuition discriminate. Qed.

(** A call in whose trace the inference call [Transcribe m p kw out]
    occurs: the file is new, it is unlinked right after the inference
    call, the disk ends as it began, and the call passes the arguments
    of its program. *)
Lemma call_inference env c st st' ev m p kw out :
  run_call env c st = (st', ev) ->
  In (Transcribe m p kw out) ev ->
  fs st !! p = None /\ fs st' = fs st
  /\ kw = match c with
          | CliCall _ => transcribe.transcribe_args
          | ServerCall _ => whisper_server.transcribe_args
          end
  /\ (exists ev1 ev2 data,
        ev = ev1 ++ [TmpCreate p; TmpWrite p data; Transcribe m p kw out; Unlink p] ++ ev2)
  /\ forall q, In (TmpCreate q) ev -> q = p.
Proof.
  intros Hrun Hin. destruct c as [wav|req]; cbn [run_call] in Hrun.
  - destruct (transcribe_wav_run env wav st) as (r & st0 & ev0 & Heq & Hwav).
    rewrite Heq in Hrun. injection Hrun as <- <-.
    destruct (WAV_run_inference _ _ _ _ _ _ _ _ _ _ Hwav Hin)
      as (Hfs & Hfree & Hkw & _ & ev1 & Hev & _ & Htmp & _).
    repeat match goal with |- _ /\ _ => split end; auto.
    + exists ev1, [], wav. exact Hev.
    + intros q Hq. rewrite Hev in Hq. apply in_app_or in Hq as [Hq|Hq].
      * destruct (Htmp q Hq).
      * cbn [In] in Hq. destruct Hq as [Hq|[Hq|[Hq|[Hq|[]]]]]; congruence.
  - destruct (do_POST_run env req st) as (st0 & ev0 & Heq & Hpost).
    rewrite Heq in Hrun. injection Hrun as <- <-.
    destruct (POST_run_inference _ _ _ _ _ _ _ _ _ Hpost Hin)
      as (Hst & Hfree & _ & Hkw & n & _ & _ & _ & _ & _ & Hev).
    subst st0. repeat match goal with |- _ /\ _ => split end; auto.
    + eexists [RfileRead n], _, (read_data req n). rewrite Hev at 1. reflexivity.
    + intros q Hq. rewrite Hev in Hq. cbn [app In] in Hq.
      destruct Hq as [Hq|[Hq|[Hq|[Hq|[Hq|Hq]]]]]; try congruence.
      destruct out as [t|e]; [destruct (seg_error t)|]; cbn [In] in Hq;
        repeat match type of Hq with
               | _ \/ _ => destruct Hq as [Hq|Hq]
               end;
        try discriminate Hq;
        apply no_tmp_in_response in Hq; contradiction.
Qed.

(** X28: in a transcription call that gets as far as the inference
    call (the script's [transcribe_wav] or the server's POST handler),
    the temporary file is unlinked right after the inference call,
    whether that returned or raised: no temporary file the call created
    is on disk when it ends, and the disk is as it was before the
    call. *)
Theorem temp_file_removed env c st st' ev m p kw out :
  run_call env c st = (st', ev) ->
  In (Transcribe m p kw out) ev ->
  (exists ev1 ev2 data,
     ev = ev1 ++ [TmpCreate p; TmpWrite p data; Transcribe m p kw out; Unlink p] ++ ev2)
  /\ (forall q, In (TmpCreate q) ev -> fs st' !! q = None)
  /\ fs st' = fs st.
Proof.
  intros Hrun Hin.
  destruct (call_inference _ _ _ _ _ _ _ _ _ Hrun Hin)
    as (Hfree & Hfs & _ & Hev & Honly).
  split; [exact Hev|]. split; [|exact Hfs].
  intros q Hq. rewrite (Honly q Hq), Hfs. exact Hfree.
Qed.

Lemma temp_file_removed_witness :
  (* the script, the engine returning *)
  fs (fst (run_call (sample.machine (Returned sample.hello))
             (CliCall (sample.payload 44)) sample.boot)) = ∅
  (* the server, the engine raising *)
  /\ fs (fst (run_call (sample.machine (Raises sample.broken))
                (ServerCall (sample.post (sample.payload 44))) sample.serving)) = ∅.
Proof.
  split.
  - apply (temp_file_removed (sample.machine (Returned sample.hello))
             (CliCall (sample.payload 44)) sample.boot
             (fst (run_call (sample.machine (Returned sample.hello))
                     (CliCall (sample.payload 44)) sample.boot))
             (snd (run_call (sample.machine (Returned sample.hello))
                     (CliCall (sample.payload 44)) sample.boot))
             sample.small sample.tmp_wav transcribe.transcribe_args
             (Returned sample.hello)).
    + vm_compute. reflexivity.
    + pick_event.
  - apply (temp_file_removed (sample.machine (Raises sample.broken))
             (ServerCall (sample.post (sample.payload 44))) sample.serving
             (fst (run_call (sample.machine (Raises sample.broken))
                     (ServerCall (sample.post (sample.payload 44))) sample.serving))
             (snd (run_call (sample.machine (Raises sample.broken))
                     (ServerCall (sample.post (sample.payload 44))) sample.serving))
             sample.small sample.tmp_wav whisper_server.transcribe_args
             (Raises sample.broken)).
    + vm_compute. reflexivity.
    + pick_event.
Defined.

(** C3 fails on the code where [tmp.write] raises: the write stands
    between the creation of the file and the [try] whose [finally]
    unlinks it, so on a disk that fills up during the write both calls
    end with the temporary file they created still there, holding what
    had been written, and no unlink in the trace. *)
Lemma temp_file_left_behind :
  (exists st' ev,
     run_call sample.full_disk_machine
       (ServerCall (sample.post (sample.payload 44))) sample.serving = (st', ev)
     /\ In (TmpCreate sample.tmp_wav) ev
     /\ ~ In (Unlink sample.tmp_wav) ev
     /\ fs st' !! sample.tmp_wav = Some (take 10 (sample.payload 44)))
  /\ (exists st' ev,
        run_call sample.full_disk_machine (CliCall (sample.payload 44)) sample.boot
        = (st', ev)
        /\ In (TmpCreate sample.tmp_wav) ev
        /\ ~ In (Unlink sample.tmp_wav) ev
        /\ fs st' !! sample.tmp_wav = Some (take 10 (sample.payload 44))).
Proof.
  split; eexists _, _; (split; [vm_compute; reflexivity|]);
    (split; [pick_event|]);
    (split; [|vm_compute; reflexivity]);
    intros H; cbn [In] in H;
    repeat destruct H as [H|H]; try discriminate H; destruct H.
Qed.

(** C6, as the code has it: every inference call has the language
    "ja", beam size 5 and the VAD filter switched on.  The POST handler
    also passes best_of 5, the VAD thresholds 1000 ms of silence and
    400 ms of padding, no word timestamps, no conditioning on previous
    text, the priming prompt and the no-speech threshold 0.6;
    [transcribe_wav] passes 500 ms of silence as its only VAD threshold
    and neither a prompt nor a no-speech threshold. *)
Theorem transcribe_arguments env c st st' ev m p kw out :
  run_call env c st = (st', ev) ->
  In (Transcribe m p kw out) ev ->
  language kw = Some (py "ja")
  /\ beam_size kw = Some 5
  /\ vad_filter kw = Some true
  /\ match c with
     | ServerCall _ =>
         best_of kw = Some 5
         /\ vad_parameters kw = Some (mkVad (Some 1000) (Some 400))
         /\ word_timestamps kw = Some false
         /\ condition_on_previous_text kw = Some false
         /\ initial_prompt kw
            = Some (py "以下は、マイクからの入力音声に対する、ノイズを除去した日本語の文字起こしです。")
         /\ no_speech_threshold kw = Some (Float (py "0.6"))
     | CliCall _ =>
         best_of kw = None
         /\ vad_parameters kw = Some (mkVad (Some 500) None)
         /\ word_timestamps kw = None
         /\ condition_on_previous_text kw = None
         /\ initial_prompt kw = None
         /\ no_speech_threshold kw = None
     end.
Proof.
  intros Hrun Hin.
  destruct (call_inference _ _ _ _ _ _ _ _ _ Hrun Hin) as (_ & _ & -> & _).
  destruct c; repeat split; reflexivity.
Qed.

Lemma transcribe_arguments_witness :
  initial_prompt whisper_server.transcribe_args
  = Some (py "以下は、マイクからの入力音声に対する、ノイズを除去した日本語の文字起こしです。")
  /\ initial_prompt transcribe.transcribe_args = None.
Proof.
  split.
  - apply (transcribe_arguments (sample.machine (Returned sample.hello))
             (ServerCall (sample.post (sample.payload 44))) sample.serving
             (fst (run_call (sample.machine (Returned sample.hello))
                     (ServerCall (sample.post (sample.payload 44))) sample.serving))
             (snd (run_call (sample.machine (Returned sample.hello))
                     (ServerCall (sample.post (sample.payload 44))) sample.serving))
             sample.small sample.tmp_wav whisper_server.transcribe_args
             (Returned sample.hello)).
    + vm_compute. reflexivity.
    + pick_event.
  - apply (transcribe_arguments (sample.machine (Returned sample.hello))
             (CliCall (sample.payload 44)) sample.boot
             (fst (run_call (sample.machine (Returned sample.hello))
                     (CliCall (sample.payload 44)) sample.boot))
             (snd (run_call (sample.machine (Returned sample.hello))
                     (CliCall (sample.payload 44)) sample.boot))
             sample.small sample.tmp_wav transcribe.transcribe_args
             (Returned sample.hello)).
    + vm_compute. reflexivity.
    + pick_event.
Defined.

(** C6 as stated fails for the script: on a WAV file that the [wave]
    module reads (44 bytes: the header of a 16 kHz mono file with no
    samples) its inference call passes no priming prompt, no no-speech
    threshold and no padding threshold. *)
Lemma cli_call_has_no_prompt :
  wave_getframerate (sample.machine (Returned sample.silence)) (sample.payload 44)
  = Returned 16000
  /\ (exists m p kw out,
     In (Transcribe m p kw out)
        (snd (run_call (sample.machine (Returned sample.silence))
                (CliCall (sample.payload 44)) sample.boot))
     /\ initial_prompt kw = None
     /\ no_speech_threshold kw = None
     /\ vad_parameters kw = Some (mkVad (Some 500) None))
  /\ ~ (forall m p kw out,
          In (Transcribe m p kw out)
             (snd (run_call (sample.machine (Returned sample.silence))
                     (CliCall (sample.payload 44)) sample.boot)) ->
          initial_prompt kw <> None /\ no_speech_threshold kw <> None).
Proof.
  assert (Hin : In (Transcribe sample.small sample.tmp_wav transcribe.transcribe_args
                      (Returned sample.silence))
                   (snd (run_call (sample.machine (Returned sample.silence))
                           (CliCall (sample.payload 44)) sample.boot))).
  { pick_event. }
  split; [vm_compute; reflexivity|].
  split.
  - exists sample.small, sample.tmp_wav, transcribe.transcribe_args,
      (Returned sample.silence).
    split; [exact Hin|]. repeat split; reflexivity.
  - intros H. destruct (H _ _ _ _ Hin) as [Hprompt _]. apply Hprompt. reflexivity.
Qed.

(* ===================================================================== *)
(** ** Start-up of the server *)
(* ===================================================================== *)

Lemma get_device_run env cfg st :
  get_device env cfg st = (Ret (resolved_device env cfg), st, device_lines env cfg).
Proof.
  unfold get_device, resolved_device, device_lines.
  destruct (bool_decide (DEVICE cfg = py "cuda")); [|reflexivity].
  destruct (torch env) as [|[|] name]; reflexivity.
Qed.

Lemma module_body_run env environ st :
  exists r st' ev,
    module_body env environ st = (r, st', ev) /\ BOOT_run env environ st r st' ev.
Proof.
  unfold module_body, read_config. cbv zeta. rewrite !bind_run.
  destruct (py_int env (environ_get environ (py "WHISPER_PORT") (py "5001")))
    as [port|e] eqn:Hport.
  2: { rewrite lift_raises; mred. reached. apply BOOT_bad_port. exact Hport. }
  rewrite lift_returned; mred.
  fold (environ_config environ port). set (cfg := environ_config environ port).
  cbv beta iota delta [ret print emit]. rewrite bind_run; mred.
  rewrite bind_run, get_device_run; mred.
  rewrite bind_run; mred. rewrite bind_run. unfold try_except.
  rewrite bind_run. unfold WhisperModel. rewrite bind_run.
  cbv beta iota delta [emit].
  destruct (whisper_model_error env (MODEL_SIZE cfg) (resolved_device env cfg)
              (get_compute_type cfg (resolved_device env cfg))) as [e|] eqn:Hload.
  - cbv beta iota delta [raise]. rewrite bind_run.
    cbv beta iota delta [sys_exit].
    eexists _, _, _; split; [reflexivity|].
    match goal with
    | |- BOOT_run _ _ _ _ _ ?ev =>
        replace ev
          with (loading_events env cfg
                  ++ [Stdout (py "[whisper-server] Failed to load model: " ++ exc_str e)])
          by (unfold loading_events; cbn [app]; rewrite <- ?app_assoc;
              cbn [app]; reflexivity)
    end.
    apply (BOOT_load_failed env environ st port e Hport Hload).
  - cbv beta iota delta [ret]. rewrite !bind_run.
    cbv beta iota delta [get put print emit ret].
    eexists _, _, _; split; [reflexivity|].
    match goal with
    | |- BOOT_run _ _ _ _ _ ?ev =>
        replace ev
          with (loading_events env cfg
                  ++ [Stdout (py "[whisper-server] Model loaded successfully")])
          by (unfold loading_events; cbn [app]; rewrite <- ?app_assoc;
              cbn [app]; reflexivity)
    end.
    apply (BOOT_loaded env environ st port Hport Hload).
Qed.

Lemma module_body_cases env environ st r st' ev :
  module_body env environ st = (r, st', ev) -> BOOT_run env environ st r st' ev.
Proof.
  intros H. destruct (module_body_run env environ st) as (r0 & st0 & ev0 & Heq & Hrun).
  rewrite Heq in H. injection H as <- <- <-. exact Hrun.
Qed.

Lemma loading_events_startup env cfg :
  forallb startup_event (loading_events env cfg) = true.
Proof.
  unfold loading_events, device_lines.
  destruct (bool_decide (DEVICE cfg = py "cuda")); [|reflexivity].
  destruct (torch env) as [|[|] name]; reflexivity.
Qed.

Lemma load_in_loading_events env cfg size device ct :
  In (LoadModel size device ct) (loading_events env cfg) ->
  size = MODEL_SIZE cfg /\ device = resolved_device env cfg
  /\ ct = get_compute_type cfg (resolved_device env cfg).
Proof.
  unfold loading_events. intros H.
  apply in_app_or in H as [H|H]; [destruct H as [H|[]]; discriminate H|].
  apply in_app_or in H as [H|H].
  - unfold device_lines in H.
    destruct (bool_decide (DEVICE cfg = py "cuda")); [|destruct H].
    destruct (torch env) as [|[|] name]; destruct H as [H|[]]; discriminate H.
  - destruct H as [H|[H|[]]]; [discriminate H|].
    injection H as <- <- <-. auto.
Qed.

Lemma startup_events_quiet ev :
  forallb startup_event ev = true ->
  stderr_of ev = [] /\ statuses ev = [] /\ List.filter handles_audio ev
                                           = List.filter (fun e => match e with
                                                                   | LoadModel _ _ _ => true
                                                                   | _ => false
                                                                   end) ev.
Proof.
  induction ev as [|e ev IH]; [auto|].
  cbn [forallb]. intros H. apply andb_true_iff in H as [He Hev].
  destruct (IH Hev) as (IH1 & IH2 & IH3).
  destruct e; try discriminate He; cbn; rewrite ?IH1, ?IH2, ?IH3; auto.
Qed.

Lemma handle_health env g req st :
  command req = py "GET" ->
  path req = py "/health" ->
  handle_one_request env g (Parsed req) st
  = (Ret tt, st,
     response_events req
       [ (py "status", JStr (py "ok"));
         (py "model", JStr (MODEL_SIZE (config g)));
         (py "device", JStr (actual_device g));
         (py "compute_type", JStr (actual_compute_type g)) ]).
Proof.
  intros Hcmd Hpath. unfold handle_one_request, do_GET. mred. rewrite Hcmd, Hpath.
  assert (bool_decide (py "GET" = py "POST") = false) as -> by (vm_compute; reflexivity).
  rewrite !bool_decide_eq_true_2 by reflexivity.
  apply send_json_response_run.
Qed.

(** C5: a GET request for /health is answered with status 200 and the
    JSON object of status "ok", the model size, and the device and
    compute type that start-up settled on, which are the ones the model
    was loaded with; when "cuda" was asked for and torch is missing or
    finds no CUDA, these are "cpu" and "int8", whatever was
    configured. *)
Theorem health_reports_resolved_device env environ st g st' ev0 req st1 :
  module_body env environ st = (Ret g, st', ev0) ->
  command req = py "GET" ->
  path req = py "/health" ->
  (exists ev,
     handle_one_request env g (Parsed req) st1 = (Ret tt, st1, ev)
     /\ responds ev 200
          [ (py "status", JStr (py "ok"));
            (py "model", JStr (MODEL_SIZE (config g)));
            (py "device", JStr (actual_device g));
            (py "compute_type", JStr (actual_compute_type g)) ])
  /\ model st'
     = Some (mkModel (MODEL_SIZE (config g)) (actual_device g) (actual_compute_type g))
  /\ In (LoadModel (MODEL_SIZE (config g)) (actual_device g) (actual_compute_type g)) ev0
  /\ (DEVICE (config g) = py "cuda" ->
      torch env = TorchNotInstalled \/ (exists name, torch env = TorchCuda false name) ->
      actual_device g = py "cpu" /\ actual_compute_type g = py "int8").
Proof.
  intros Hboot Hcmd Hpath. apply module_body_cases in Hboot.
  inversion Hboot as [ | | port Hport Hload Hg Hst Hev]; subst; clear Hboot.
  cbv zeta in *. set (cfg := environ_config environ port) in *.
  cbn [config actual_device actual_compute_type].
  split; [|split; [|split]].
  - eexists. split; [apply handle_health; assumption|].
    apply responds_response_events.
  - reflexivity.
  - apply in_or_app. left. unfold loading_events.
    apply in_or_app. right. apply in_or_app. right. right. left. reflexivity.
  - intros Hcuda Htorch.
    assert (Hdev : resolved_device env cfg = py "cpu").
    { unfold resolved_device. rewrite Hcuda.
      rewrite bool_decide_eq_true_2 by reflexivity.
      destruct Htorch as [-> | [name ->]]; reflexivity. }
    rewrite Hdev. split; [reflexivity|].
    unfold get_compute_type. rewrite bool_decide_eq_true_2 by reflexivity.
    reflexivity.
Qed.

Lemma health_reports_resolved_device_witness :
  exists ev,
    handle_one_request (sample.cpu_machine (Returned sample.hello))
      (mkGlobals (mkConfig (py "small") (py "cuda") (py "float16") 5001)
         (py "cpu") (py "int8"))
      (Parsed (sample.request "GET" "/health")) sample.serving
    = (Ret tt, sample.serving, ev)
    /\ responds ev 200
         [ (py "status", JStr (py "ok"));
           (py "model", JStr (py "small"));
           (py "device", JStr (py "cpu"));
           (py "compute_type", JStr (py "int8")) ].
Proof.
  destruct (health_reports_resolved_device
              (sample.cpu_machine (Returned sample.hello)) ∅ sample.boot
              (mkGlobals (mkConfig (py "small") (py "cuda") (py "float16") 5001)
                 (py "cpu") (py "int8"))
              (state_of (module_body (sample.cpu_machine (Returned sample.hello))
                           ∅ sample.boot))
              (events_of (module_body (sample.cpu_machine (Returned sample.hello))
                            ∅ sample.boot))
              (sample.request "GET" "/health") sample.serving)
    as (Hget & _).
  - vm_compute. reflexivity.
  - reflexivity.
  - reflexivity.
  - exact Hget.
Defined.

(** C8, as the code has it: when loading the model raises at start-up
    the script prints "[whisper-server] Failed to load model: ..." with
    [print], that is on standard output, writes nothing on stderr, and
    ends with exit status 1; no request is read or answered. *)
Theorem model_load_failure_exits env environ argv reqs st r st1 ev0 size device ct e :
  module_body env environ st = (r, st1, ev0) ->
  In (LoadModel size device ct) ev0 ->
  whisper_model_error env size device ct = Some e ->
  run_process (script env environ argv reqs) st = (1, st, ev0)
  /\ last ev0 = Some (Stdout (py "[whisper-server] Failed to load model: " ++ exc_str e))
  /\ stderr_of ev0 = []
  /\ statuses ev0 = []
  /\ forallb startup_event ev0 = true.
Proof.
  intros Hboot Hin Herr. pose proof (module_body_cases _ _ _ _ _ _ Hboot) as Hrun.
  destruct Hrun as [e0 Hport | port e0 Hport Hload | port Hport Hload].
  - destruct Hin.
  - cbv zeta in Hload. set (cfg := environ_config environ port) in *.
    assert (Hall : forallb startup_event
                     (loading_events env cfg
                        ++ [Stdout (py "[whisper-server] Failed to load model: "
                                      ++ exc_str e0)]) = true).
    { rewrite forallb_app, loading_events_startup. reflexivity. }
    apply in_app_or in Hin as [Hin|Hin].
    2: { destruct Hin as [Hin|[]]. discriminate Hin. }
    apply load_in_loading_events in Hin as (-> & -> & ->).
    rewrite Hload in Herr. injection Herr as ->.
    destruct (startup_events_quiet _ Hall) as (Hquiet & Hnone & _).
    split; [|split; [apply last_snoc|auto]].
    unfold run_process, script. rewrite bind_run, Hboot. reflexivity.
  - cbv zeta in Hload. set (cfg := environ_config environ port) in *.
    apply in_app_or in Hin as [Hin|Hin].
    2: { destruct Hin as [Hin|[]]. discriminate Hin. }
    apply load_in_loading_events in Hin as (-> & -> & ->).
    congruence.
Qed.

Lemma model_load_failure_exits_witness :
  run_process (script sample.no_model_machine ∅ (Options (mkArgv None None))
                 [Parsed (sample.request "GET" "/health")]) sample.boot
  = (1, sample.boot,
     events_of (module_body sample.no_model_machine ∅ sample.boot))
  /\ last (events_of (module_body sample.no_model_machine ∅ sample.boot))
     = Some (Stdout (py "[whisper-server] Failed to load model: "
                       ++ exc_str sample.no_gpu))
  /\ stderr_of (events_of (module_body sample.no_model_machine ∅ sample.boot)) = []
  /\ statuses (events_of (module_body sample.no_model_machine ∅ sample.boot)) = []
  /\ forallb startup_event
       (events_of (module_body sample.no_model_machine ∅ sample.boot)) = true.
Proof.
  apply (model_load_failure_exits sample.no_model_machine ∅ (Options (mkArgv None None))
           [Parsed (sample.request "GET" "/health")] sample.boot
           (result_of (module_body sample.no_model_machine ∅ sample.boot))
           (state_of (module_body sample.no_model_machine ∅ sample.boot))
           (events_of (module_body sample.no_model_machine ∅ sample.boot))
           (py "small") (py "cuda") (py "float16") sample.no_gpu).
  - vm_compute. reflexivity.
  - pick_event.
  - reflexivity.
Defined.

(** C8 as stated fails: the failure to load the model is printed on
    standard output, and nothing at all is written on stderr. *)
Lemma load_failure_not_on_stderr :
  exists ev,
    run_process (script sample.no_model_machine ∅ (Options (mkArgv None None))
                   [Parsed (sample.request "GET" "/health")]) sample.boot
    = (1, sample.boot, ev)
    /\ whisper_model_error sample.no_model_machine (py "small") (py "cuda")
         (py "float16") = Some sample.no_gpu
    /\ In (Stdout (py "[whisper-server] Failed to load model: "
                     ++ exc_str sample.no_gpu)) ev
    /\ stderr_of ev = []
    /\ ~ (exists e, In e ev /\ on_stderr e = true).
Proof.
  eexists. split; [vm_compute; reflexivity|].
  split; [reflexivity|]. split; [pick_event|]. split; [reflexivity|].
  intros (e & Hin & Herr). cbn [In] in Hin.
  repeat destruct Hin as [<-|Hin]; try discriminate Herr. destruct Hin.
Qed.

(* ===================================================================== *)
(** ** Routing *)
(* ===================================================================== *)

(** C7, as the code has it: a request that is neither a POST nor a GET
    for /health is answered with an error status and no JSON body: 404
    when it is a GET, and 501, from the base class, for every other
    method, since the handler defines only [do_POST] and [do_GET]. *)
Theorem other_requests env g req st :
  command req <> py "POST" ->
  ~ (command req = py "GET" /\ path req = py "/health") ->
  exists ev,
    handle_one_request env g (Parsed req) st = (Ret tt, st, ev)
    /\ statuses ev = [if bool_decide (command req = py "GET") then 404 else 501]
    /\ bodies ev = []
    /\ List.filter handles_audio ev = [].
Proof.
  intros Hpost Hhealth. unfold handle_one_request. mred.
  rewrite bool_decide_eq_false_2 by exact Hpost.
  destruct (bool_decide (command req = py "GET")) eqn:Hget.
  - apply bool_decide_eq_true in Hget. unfold do_GET.
    rewrite bool_decide_eq_false_2 by tauto.
    eexists. split; [reflexivity|]. repeat split; reflexivity.
  - eexists. split; [reflexivity|]. repeat split; reflexivity.
Qed.

Lemma other_requests_witness :
  (exists ev,
     handle_one_request (sample.machine (Returned sample.hello)) sample.globals
       (Parsed (sample.request "GET" "/")) sample.serving = (Ret tt, sample.serving, ev)
     /\ statuses ev = [404])
  /\ (exists ev,
        handle_one_request (sample.machine (Returned sample.hello)) sample.globals
          (Parsed (sample.request "PUT" "/health")) sample.serving = (Ret tt, sample.serving, ev)
        /\ statuses ev = [501]).
Proof.
  split.
  - destruct (other_requests (sample.machine (Returned sample.hello)) sample.globals
                (sample.request "GET" "/") sample.serving)
      as (ev & Hrun & Hst & _).
    + vm_compute. discriminate.
    + vm_compute. intros [_ H]. discriminate H.
    + exists ev. split; [exact Hrun | exact Hst].
  - destruct (other_requests (sample.machine (Returned sample.hello)) sample.globals
                (sample.request "PUT" "/health") sample.serving)
      as (ev & Hrun & Hst & _).
    + vm_compute. discriminate.
    + vm_compute. intros [H _]. discriminate H.
    + exists ev. split; [exact Hrun | exact Hst].
Defined.

(** C7 as stated fails for methods the handler does not define: a PUT
    request is neither a POST nor a GET for /health, and the answer is
    501, not 404. *)
Lemma put_request_gets_501 :
  command (sample.request "PUT" "/") <> py "POST"
  /\ ~ (command (sample.request "PUT" "/") = py "GET"
        /\ path (sample.request "PUT" "/") = py "/health")
  /\ statuses (events_of (handle_one_request (sample.machine (Returned sample.hello))
                            sample.globals (Parsed (sample.request "PUT" "/"))
                            sample.serving))
     = [501]
  /\ statuses (events_of (handle_one_request (sample.machine (Returned sample.hello))
                            sample.globals (Parsed (sample.request "PUT" "/"))
                            sample.serving))
     <> [404].
Proof.
  split; [vm_compute; discriminate|].
  split; [vm_compute; intros [H _]; discriminate H|].
  split; [vm_compute; reflexivity | vm_compute; discriminate].
Qed.

(* ===================================================================== *)
(** ** Further properties of the command-line script *)
(* ===================================================================== *)

(** What [load_model()] can do: return or raise an [Exception], and
    write on stderr only. *)
Lemma load_model_shape env st r st1 ev0 :
  transcribe.load_model env st = (r, st1, ev0) ->
  ((exists m, r = Ret m) \/ (exists e, r = Raise (Exception e) /\ st1 = st))
  /\ stdout_of ev0 = [] /\ statuses ev0 = [] /\ bodies ev0 = [].
Proof.
  rewrite load_model_run. intros H. destruct (model st).
  - injection H as <- <- <-. repeat split; eauto.
  - destruct (whisper_model_error env transcribe.MODEL_SIZE transcribe.DEVICE
                transcribe.COMPUTE_TYPE);
      injection H as <- <- <-; repeat split; eauto.
Qed.

Lemma rate_warning_shape rate :
  stdout_of (transcribe.rate_warning rate) = []
  /\ statuses (transcribe.rate_warning rate) = []
  /\ bodies (transcribe.rate_warning rate) = [].
Proof.
  unfold transcribe.rate_warning. destruct (negb (rate =? 16000)); auto.
Qed.

Lemma stdout_of_app ev1 ev2 : stdout_of (ev1 ++ ev2) = stdout_of ev1 ++ stdout_of ev2.
Proof. unfold stdout_of. apply omap_app. Qed.

Lemma statuses_app ev1 ev2 : statuses (ev1 ++ ev2) = statuses ev1 ++ statuses ev2.
Proof. unfold statuses. apply omap_app. Qed.

Lemma bodies_app ev1 ev2 : bodies (ev1 ++ ev2) = bodies ev1 ++ bodies ev2.
Proof. unfold bodies. apply omap_app. Qed.

(** [transcribe_wav] returns a dictionary or raises an [Exception]; it
    prints nothing on stdout. *)
Lemma WAV_run_shape env wav st r st' ev :
  transcribe.WAV_run env wav st r st' ev ->
  ((exists text i, r = Ret (transcribe.success_result text i))
   \/ (exists e, r = Raise (Exception e)))
  /\ stdout_of ev = [].
Proof.
  intros H.
  destruct H as [x st1 ev0 Hload
                | m0 st1 ev0 e Hload Hwave
                | m0 st1 ev0 rate Hload Hwave Htmp
                | m0 st1 ev0 rate p0 e Hload Hwave Htmp Hwrite
                | m0 st1 ev0 rate p0 e Hload Hwave Htmp Hwrite Hcall
                | m0 st1 ev0 rate p0 t e Hload Hwave Htmp Hwrite Hcall Hseg
                | m0 st1 ev0 rate p0 t Hload Hwave Htmp Hwrite Hcall Hseg];
    destruct (load_model_shape _ _ _ _ _ Hload) as (Hr & Hout & _);
    try destruct (rate_warning_shape rate) as (Hw & _);
    rewrite ?stdout_of_app, ?Hout, ?Hw;
    (split; [|reflexivity]).
  1: destruct Hr as [[m Hm]|[e [He _]]]; [discriminate Hm|];
     right; exists e; injection He as ->; reflexivity.
  1-5: right; eexists; reflexivity.
  left. eexists _, _. reflexivity.
Qed.

(** X1: the script loads its model once.  When [load_model()] has
    returned a model, the global holds it, and every later call returns
    that same model without loading anything and without a word on
    stderr; a call that failed leaves the global empty, so that the
    next one tries again. *)
Theorem load_model_once env st r st1 ev :
  transcribe.load_model env st = (r, st1, ev) ->
  (forall m, r = Ret m ->
     model st1 = Some m /\ transcribe.load_model env st1 = (Ret m, st1, []))
  /\ (forall x, r = Raise x -> st1 = st /\ model st = None).
Proof.
  rewrite load_model_run. intros H. destruct (model st) as [m0|] eqn:Hm.
  - injection H as <- <- <-. split.
    + intros m Heq. injection Heq as <-. split; [exact Hm|].
      rewrite load_model_run, Hm. reflexivity.
    + intros x Heq. discriminate Heq.
  - destruct (whisper_model_error env transcribe.MODEL_SIZE transcribe.DEVICE
                transcribe.COMPUTE_TYPE);
      injection H as <- <- <-; split.
    + intros m Heq. discriminate Heq.
    + intros x _. auto.
    + intros m Heq. injection Heq as <-. split; [reflexivity|].
      rewrite load_model_run. reflexivity.
    + intros x Heq. discriminate Heq.
Qed.

Lemma load_model_once_witness :
  model (state_of (transcribe.load_model (sample.machine (Returned sample.hello))
                     sample.boot))
  = Some sample.small
  /\ transcribe.load_model (sample.machine (Returned sample.hello))
       (state_of (transcribe.load_model (sample.machine (Returned sample.hello))
                    sample.boot))
     = (Ret sample.small,
        state_of (transcribe.load_model (sample.machine (Returned sample.hello))
                    sample.boot), []).
Proof.
  apply (load_model_once (sample.machine (Returned sample.hello)) sample.boot
           (Ret sample.small)
           (state_of (transcribe.load_model (sample.machine (Returned sample.hello))
                        sample.boot))
           (events_of (transcribe.load_model (sample.machine (Returned sample.hello))
                         sample.boot))).
  - vm_compute. reflexivity.
  - reflexivity.
Defined.

Lemma script_run env stdin st d st' ev :
  transcribe.main env stdin st = (Ret d, st', ev) ->
  run_process (transcribe.script env stdin) st = (0, st', ev).
Proof.
  intros H. unfold run_process, transcribe.script. rewrite bind_run, H.
  cbv beta iota delta [ret]. rewrite app_nil_r. reflexivity.
Qed.

Lemma script_raises env stdin st e st' ev :
  transcribe.main env stdin st = (Raise (Exception e), st', ev) ->
  run_process (transcribe.script env stdin) st = (1, st', ev ++ [PrintExc e]).
Proof.
  intros H. unfold run_process, transcribe.script. rewrite bind_run, H. reflexivity.
Qed.

(** What [main()] has done when it comes to its [print]: the result
    [d], the state and the events so far, which hold nothing on stdout. *)
Lemma main_printed env stdin st :
  exists d st' ev,
    transcribe.main env stdin st = transcribe.printed env d st' ev
    /\ stdout_of ev = []
    /\ ((exists msg, d = transcribe.error_result msg)
        \/ (exists text i, d = transcribe.success_result text i))
    /\ forall x, In x ev -> In x (events_of (transcribe.transcribe_wav env stdin st)).
Proof.
  destruct (Nat.lt_ge_cases (length stdin) 44) as [Hshort|Hlong].
  - exists (transcribe.error_result (py "Invalid WAV data")), st, [].
    split; [exact (main_short env stdin st Hshort)|]. split; [reflexivity|].
    split; [left; eauto | intros x []].
  - destruct (transcribe_wav_run env stdin st) as (r & st1 & ev & Heq & Hrun).
    pose proof (main_long env stdin st r st1 ev Hlong Heq) as Hmain.
    rewrite Heq. unfold events_of. cbn [snd].
    destruct (WAV_run_shape _ _ _ _ _ _ Hrun) as ([(text & i & ->)|(e & ->)] & Hout);
      cbn [transcribe.main_result] in Hmain;
      eexists _, st1, ev; (split; [exact Hmain|]); (split; [exact Hout|]);
      (split; [eauto | auto]).
Qed.

(** [main()] prints its result, once, and nothing else on stdout. *)
Lemma cli_main_stdout env stdin st d st' ev :
  transcribe.main env stdin st = (Ret d, st', ev) ->
  stdout_of ev = [json_dumps d].
Proof.
  intros Hmain.
  destruct (main_printed env stdin st) as (d0 & st0 & ev0 & Heq & Hout & _).
  rewrite Heq in Hmain. apply printed_returns in Hmain as (-> & _ & -> & _).
  rewrite stdout_of_app, Hout. reflexivity.
Qed.

(** X2: once the imports at its top are done, whatever bytes the script
    reads and whatever fails in [transcribe_wav], [main()] comes to its
    [print] with a result, an error dictionary or the dictionary of a
    transcription, and nothing on stdout so far.  When stdout takes the
    JSON text of the result, that is the one line the script prints and
    the exit status is 0.  The [print] is outside the [try]: when it
    raises (a stdout that cannot encode the text), nothing is printed
    and the process ends with the traceback and exit status 1. *)
Theorem cli_prints_one_result env stdin st :
  exists d st' ev,
    transcribe.main env stdin st = transcribe.printed env d st' ev
    /\ stdout_of ev = []
    /\ ((exists msg, d = transcribe.error_result msg)
        \/ (exists text i, d = transcribe.success_result text i))
    /\ (stdout_error env (json_dumps d) = None ->
        run_process (transcribe.script env stdin) st
        = (0, st', ev ++ [Stdout (json_dumps d)]))
    /\ (forall e, stdout_error env (json_dumps d) = Some e ->
        run_process (transcribe.script env stdin) st = (1, st', ev ++ [PrintExc e])).
Proof.
  destruct (main_printed env stdin st) as (d & st' & ev & Heq & Hout & Hd & _).
  exists d, st', ev. split; [exact Heq|]. split; [exact Hout|]. split; [exact Hd|].
  unfold transcribe.printed in Heq. split.
  - intros Hok. rewrite Hok in Heq. exact (script_run _ _ _ _ _ _ Heq).
  - intros e He. rewrite He in Heq. exact (script_raises _ _ _ _ _ _ Heq).
Qed.

(** X3: a payload of 44 bytes or more that the [wave] module rejects
    is answered with the text of that exception as the error; by then
    the model has been loaded, but no temporary file is made, the engine
    is not called and the files on disk are untouched. *)
Theorem cli_rejects_bad_wave env stdin st m st1 ev0 e :
  (44 <= length stdin)%nat ->
  transcribe.load_model env st = (Ret m, st1, ev0) ->
  wave_getframerate env stdin = Raises e ->
  transcribe.main env stdin st
  = transcribe.printed env (transcribe.error_result (exc_str e)) st1 ev0
  /\ fs st1 = fs st
  /\ inference_calls (events_of (transcribe.main env stdin st)) = []
  /\ forall q, ~ In (TmpCreate q) (events_of (transcribe.main env stdin st)).
Proof.
  intros Hlong Hload Hwave.
  destruct (load_model_quiet _ _ _ _ _ Hload) as (Hfs & Hcalls & Htmp).
  assert (Hrun : transcribe.transcribe_wav env stdin st
                 = (Raise (Exception e), st1, ev0)).
  { unfold transcribe.transcribe_wav. rewrite bind_run, Hload. mred.
    rewrite bind_run, Hwave, lift_raises. mred. rewrite app_nil_r. reflexivity. }
  rewrite (main_long env stdin st _ _ _ Hlong Hrun). cbn [transcribe.main_result].
  split; [reflexivity|]. split; [exact Hfs|].
  unfold transcribe.printed.
  destruct (stdout_error env (json_dumps (transcribe.error_result (exc_str e))));
    unfold events_of; cbn [snd]; (split; [|intros q Hq]).
  - exact Hcalls.
  - exact (Htmp q Hq).
  - unfold inference_calls in *. rewrite List.filter_app, Hcalls. reflexivity.
  - apply in_app_or in Hq as [Hq|[Hq|[]]]; [exact (Htmp q Hq)|]. discriminate Hq.
Qed.

Lemma cli_rejects_bad_wave_witness :
  transcribe.main (sample.machine (Returned sample.hello)) (sample.zeros 44) sample.boot
  = transcribe.printed (sample.machine (Returned sample.hello))
      (transcribe.error_result (exc_str sample.no_riff))
      (state_of (transcribe.load_model (sample.machine (Returned sample.hello))
                   sample.boot))
      (events_of (transcribe.load_model (sample.machine (Returned sample.hello))
                    sample.boot)).
Proof.
  apply (cli_rejects_bad_wave (sample.machine (Returned sample.hello))
           (sample.zeros 44) sample.boot sample.small
           (state_of (transcribe.load_model (sample.machine (Returned sample.hello))
                        sample.boot))
           (events_of (transcribe.load_model (sample.machine (Returned sample.hello))
                         sample.boot))
           sample.no_riff).
  - vm_compute. lia.
  - vm_compute. reflexivity.
  - vm_compute. reflexivity.
Defined.

(** X4: when [WhisperModel(...)] raises, the script does not die of
    it: the error is its JSON result, printed with exit status 0 (or,
    when that [print] raises, followed by its traceback and exit status
    1).  It always asks for the model "small" on "cuda" with "float16",
    with no fallback, and leaves the global empty. *)
Theorem cli_load_failure_is_a_result env stdin st e :
  (44 <= length stdin)%nat ->
  model st = None ->
  whisper_model_error env (py "small") (py "cuda") (py "float16") = Some e ->
  run_process (transcribe.script env stdin) st
  = match stdout_error env (json_dumps (transcribe.error_result (exc_str e))) with
    | None =>
        (0, st,
         [ Stderr (py "[faster-whisper] Loading model: small" ++ LF);
           LoadModel (py "small") (py "cuda") (py "float16");
           Stdout (json_dumps (transcribe.error_result (exc_str e))) ])
    | Some e' =>
        (1, st,
         [ Stderr (py "[faster-whisper] Loading model: small" ++ LF);
           LoadModel (py "small") (py "cuda") (py "float16");
           PrintExc e' ])
    end.
Proof.
  intros Hlong Hnone Herr.
  assert (Hload : transcribe.load_model env st
                  = (Raise (Exception e), st,
                     [Stderr (py "[faster-whisper] Loading model: small" ++ LF);
                      LoadModel (py "small") (py "cuda") (py "float16")])).
  { rewrite load_model_run, Hnone.
    unfold transcribe.MODEL_SIZE, transcribe.DEVICE, transcribe.COMPUTE_TYPE.
    rewrite Herr. unfold transcribe.loading_line, transcribe.MODEL_SIZE.
    vm_compute. reflexivity. }
  assert (Hrun : transcribe.transcribe_wav env stdin st
                 = (Raise (Exception e), st,
                    [Stderr (py "[faster-whisper] Loading model: small" ++ LF);
                     LoadModel (py "small") (py "cuda") (py "float16")])).
  { unfold transcribe.transcribe_wav. rewrite bind_run, Hload. reflexivity. }
  pose proof (main_long env stdin st _ _ _ Hlong Hrun) as Hmain.
  cbn [transcribe.main_result] in Hmain. unfold transcribe.printed in Hmain.
  destruct (stdout_error env (json_dumps (transcribe.error_result (exc_str e)))).
  - exact (script_raises _ _ _ _ _ _ Hmain).
  - exact (script_run _ _ _ _ _ _ Hmain).
Qed.

Lemma cli_load_failure_is_a_result_witness :
  run_process (transcribe.script sample.no_model_machine (sample.payload 44)) sample.boot
  = (0, sample.boot,
     [ Stderr (py "[faster-whisper] Loading model: small" ++ LF);
       LoadModel (py "small") (py "cuda") (py "float16");
       Stdout (json_dumps (transcribe.error_result (exc_str sample.no_gpu))) ]).
Proof.
  apply (cli_load_failure_is_a_result sample.no_model_machine (sample.payload 44)
           sample.boot sample.no_gpu).
  - vm_compute. lia.
  - reflexivity.
  - reflexivity.
Defined.

(** The result and the trace of [transcribe_wav], by what the machine
    answers. *)
Lemma transcribe_wav_eq env wav st :
  transcribe.transcribe_wav env wav st =
  match transcribe.load_model env st with
  | (Raise x, st1, ev0) => (Raise x, st1, ev0)
  | (Ret m, st1, ev0) =>
      match wave_getframerate env wav with
      | Raises e => (Raise (Exception e), st1, ev0)
      | Returned rate =>
          match tmp_choice env st1 with
          | None =>
              (Raise (Exception no_tmp_error), st1, ev0 ++ transcribe.rate_warning rate)
          | Some p =>
              match tmp_write_error env wav with
              | Some e =>
                  (Raise (Exception e),
                   set_fs (<[p := tmp_written env wav]> (fs st1)) st1,
                   ev0 ++ transcribe.rate_warning rate ++ [TmpCreate p])
              | None =>
                  (match whisper_transcribe env m (Some wav) transcribe.transcribe_args with
                   | Raises e => Raise (Exception e)
                   | Returned t =>
                       match seg_error t with
                       | Some e => Raise (Exception e)
                       | None =>
                           Ret (transcribe.success_result
                                  (join (map seg_text (seg_list t))) (info t))
                       end
                   end,
                   st1,
                   ev0 ++ transcribe.rate_warning rate
                     ++ [TmpCreate p; TmpWrite p wav;
                         Transcribe m p transcribe.transcribe_args
                           (whisper_transcribe env m (Some wav)
                              transcribe.transcribe_args);
                         Unlink p])
              end
          end
      end
  end.
Proof.
  unfold transcribe.transcribe_wav. rewrite bind_run.
  destruct (transcribe.load_model env st) as [[[m|x] st1] ev0]; mred; [|reflexivity].
  rewrite bind_run.
  destruct (wave_getframerate env wav) as [rate|e].
  2: { rewrite lift_raises; mred. rewrite app_nil_r. reflexivity. }
  rewrite lift_returned; mred.
  rewrite bind_run, rate_warning_run; mred.
  rewrite bind_run, write_temp_wav_run.
  destruct (tmp_choice env st1) as [p|] eqn:Hp.
  2: { mred. cbn [app]. rewrite app_nil_r. reflexivity. }
  pose proof (tmp_choice_free _ _ _ Hp) as Hfree.
  destruct (tmp_write_error env wav) as [e|].
  { mred. cbn [app]. reflexivity. }
  mred.
  rewrite (transcribe_then_unlink env m p transcribe.transcribe_args wav
             (fun segments t =>
                transcribe.success_result (join (map seg_text segments)) (info t)))
    by (cbn [fs set_fs]; apply lookup_insert_eq).
  rewrite set_fs_restored by exact Hfree. cbn [app]. reflexivity.
Qed.

(** X5: the sample rate of the WAV header decides nothing: once the
    model is loaded, a rate other than 16000 puts one warning line on
    stderr, before the temporary file is made, and the result, the
    final state and the rest of the trace are those of a 16 kHz file. *)
Theorem sample_rate_only_warns env wav st rate m st1 ev0 :
  transcribe.load_model env st = (Ret m, st1, ev0) ->
  exists r st' ev1,
    transcribe.transcribe_wav (set_sample_rate env 16000) wav st
    = (r, st', ev0 ++ ev1)
    /\ transcribe.transcribe_wav (set_sample_rate env rate) wav st
       = (r, st',
          ev0
            ++ (if rate =? 16000 then []
                else [Stderr (py "[faster-whisper] Warning: sample rate "
                                ++ str_of_int rate ++ py " != 16000" ++ LF)])
            ++ ev1).
Proof.
  intros Hload.
  assert (Hl : forall r0, transcribe.load_model (set_sample_rate env r0) st
                          = (Ret m, st1, ev0)).
  { intros r0. rewrite load_model_run. rewrite load_model_run in Hload.
    exact Hload. }
  rewrite !transcribe_wav_eq, !Hl.
  unfold tmp_choice.
  cbn [wave_getframerate tmp_names tmp_write_error whisper_transcribe set_sample_rate].
  fold (tmp_choice env st1).
  assert (Hw : transcribe.rate_warning rate
               = if rate =? 16000 then []
                 else [Stderr (py "[faster-whisper] Warning: sample rate "
                                 ++ str_of_int rate ++ py " != 16000" ++ LF)]).
  { unfold transcribe.rate_warning. destruct (rate =? 16000); reflexivity. }
  rewrite <- Hw. change (transcribe.rate_warning 16000) with (@nil Event).
  destruct (tmp_choice env st1) as [p|];
    [destruct (tmp_write_error env wav)|];
    cbn [app].
  1-2: eexists _, _, _; split; reflexivity.
  eexists _, _, []. rewrite !app_nil_r. split; reflexivity.
Qed.

Lemma sample_rate_only_warns_witness :
  exists r st' ev1,
    transcribe.transcribe_wav
      (set_sample_rate (sample.machine (Returned sample.hello)) 16000)
      (sample.payload 44) sample.boot
    = (r, st',
       events_of (transcribe.load_model (sample.machine (Returned sample.hello))
                    sample.boot) ++ ev1)
    /\ transcribe.transcribe_wav
         (set_sample_rate (sample.machine (Returned sample.hello)) 44100)
         (sample.payload 44) sample.boot
       = (r, st',
          events_of (transcribe.load_model (sample.machine (Returned sample.hello))
                       sample.boot)
            ++ [Stderr (py "[faster-whisper] Warning: sample rate 44100 != 16000" ++ LF)]
            ++ ev1).
Proof.
  apply (sample_rate_only_warns (sample.machine (Returned sample.hello))
           (sample.payload 44) sample.boot 44100 sample.small
           (state_of (transcribe.load_model (sample.machine (Returned sample.hello))
                        sample.boot))
           (events_of (transcribe.load_model (sample.machine (Returned sample.hello))
                         sample.boot))).
  vm_compute. reflexivity.
Defined.

(** The result [main()] returns when the inference call is in its
    trace. *)
Lemma main_inference env stdin st d st' ev m p kw out :
  transcribe.main env stdin st = (Ret d, st', ev) ->
  In (Transcribe m p kw out) ev ->
  d = match out with
      | Raises e => transcribe.error_result (exc_str e)
      | Returned t =>
          match seg_error t with
          | Some e => transcribe.error_result (exc_str e)
          | None =>
              transcribe.success_result (join (map seg_text (seg_list t))) (info t)
          end
      end.
Proof.
  intros Hmain Hin.
  destruct (Nat.lt_ge_cases (length stdin) 44) as [Hshort|Hlong].
  { rewrite (main_short env stdin st Hshort) in Hmain.
    apply printed_returns in Hmain as (_ & _ & -> & _).
    destruct Hin as [Hin|[]]. discriminate Hin. }
  destruct (transcribe_wav_run env stdin st) as (r & st1 & ev1 & Heq & Hrun).
  rewrite (main_long env stdin st r st1 ev1 Hlong Heq) in Hmain.
  destruct (transcribe.main_result r) as [d0|x] eqn:Hres; [|discriminate Hmain].
  apply printed_returns in Hmain as (-> & _ & -> & _).
  apply in_app_or in Hin as [Hin|[Hin|[]]]; [|discriminate Hin].
  destruct (WAV_run_inference _ _ _ _ _ _ _ _ _ _ Hrun Hin)
    as (_ & _ & _ & _ & ev2 & _ & _ & _ & ->).
  destruct out as [t|e]; [destruct (seg_error t)|];
    cbn [transcribe.main_result] in Hres; injection Hres as <-; reflexivity.
Qed.

(** X6: the script has no hallucination filter.  For a transcription
    whose segments were read to the end its result is success = true
    with the stripped concatenation of the segment texts, whatever
    it says, the language and the duration; there is no
    language_probability in it. *)
Theorem cli_returns_text_unfiltered env stdin st d st' ev m p kw t :
  transcribe.main env stdin st = (Ret d, st', ev) ->
  In (Transcribe m p kw (Returned t)) ev ->
  seg_error t = None ->
  d = [ (py "success", JBool true);
        (py "text", JStr (strip (join (map seg_text (seg_list t)))));
        (py "language", JStr (info_language (info t)));
        (py "duration", JFloat (info_duration (info t))) ]
  /\ dict_get (py "language_probability") d = None
  /\ stdout_of ev = [json_dumps d].
Proof.
  intros Hmain Hin Hseg.
  pose proof (main_inference _ _ _ _ _ _ _ _ _ _ Hmain Hin) as Hd.
  cbn beta iota in Hd. rewrite Hseg in Hd. subst d.
  split; [reflexivity|]. split; [vm_compute; reflexivity|].
  exact (cli_main_stdout env stdin st _ _ _ Hmain).
Qed.

Lemma cli_returns_text_unfiltered_witness :
  stdout_of (events_of (transcribe.main (sample.machine (Returned sample.credits))
                          (sample.payload 44) sample.boot))
  = [json_dumps [ (py "success", JBool true);
                  (py "text", JStr (py "ご視聴ありがとうございました"));
                  (py "language", JStr (py "ja"));
                  (py "duration", JFloat (Float (py "2.0"))) ]].
Proof.
  destruct (cli_returns_text_unfiltered (sample.machine (Returned sample.credits))
              (sample.payload 44) sample.boot
              [ (py "success", JBool true);
                (py "text", JStr (py "ご視聴ありがとうございました"));
                (py "language", JStr (py "ja"));
                (py "duration", JFloat (Float (py "2.0"))) ]
              (state_of (transcribe.main (sample.machine (Returned sample.credits))
                           (sample.payload 44) sample.boot))
              (events_of (transcribe.main (sample.machine (Returned sample.credits))
                            (sample.payload 44) sample.boot))
              sample.small sample.tmp_wav transcribe.transcribe_args sample.credits)
    as (_ & _ & Hout).
  - vm_compute. reflexivity.
  - pick_event.
  - reflexivity.
  - exact Hout.
Defined.

(* ===================================================================== *)
(** ** Further properties of the transcript *)
(* ===================================================================== *)

Lemma lstrip_head (s : pystr) :
  match lstrip s with
  | [] => True
  | c :: _ => isspace c = false
  end.
Proof.
  induction s as [|c s IH]; simpl; [exact I|].
  destruct (isspace c) eqn:Hc; [exact IH | exact Hc].
Qed.

Lemma strip_trimmed (s : pystr) : trimmed (strip s).
Proof.
  unfold trimmed, strip, rstrip. set (u := lstrip s).
  rewrite rev_involutive. split; [|apply lstrip_head].
  destruct (lstrip_suffix (rev u)) as [ws Hws].
  pose proof (lstrip_head s) as Hu. fold u in Hu.
  assert (Hrev : u = rev (lstrip (rev u)) ++ rev ws).
  { rewrite <- rev_app_distr, <- Hws, rev_involutive. reflexivity. }
  destruct (rev (lstrip (rev u))) as [|c r]; [exact I|].
  rewrite Hrev in Hu. exact Hu.
Qed.

Lemma trimmed_nil : trimmed [].
Proof. split; exact I. Qed.

Lemma filter_hallucinations_cases hs text :
  filter_hallucinations hs text = [] \/ filter_hallucinations hs text = text.
Proof.
  induction hs as [|h hs IH]; simpl; [auto|].
  destruct (contains h text); auto.
Qed.

Lemma occurs_in_nil h : occurs_in h [] -> h = [].
Proof.
  intros [pre [post H]]. symmetry in H.
  apply app_eq_nil in H as [_ H]. apply app_eq_nil in H as [H _]. exact H.
Qed.

(** What the filter returns holds none of the phrases it looks for. *)
Lemma filter_hallucinations_clean hs text h :
  (forall h0, In h0 hs -> h0 <> []) ->
  In h hs ->
  ~ occurs_in h (filter_hallucinations hs text).
Proof.
  intros Hne. induction hs as [|h0 hs IH]; intros Hin; [destruct Hin|].
  simpl. destruct (contains h0 text) eqn:Hc.
  - intros Hocc. apply occurs_in_nil in Hocc. apply (Hne h Hin Hocc).
  - destruct Hin as [<-|Hin].
    + destruct (filter_hallucinations_cases hs text) as [-> | ->].
      * intros Hocc. apply occurs_in_nil in Hocc.
        apply (Hne h0 (or_introl eq_refl) Hocc).
      * apply contains_false. exact Hc.
    + apply IH; [|exact Hin]. intros h1 H1. apply Hne. right. exact H1.
Qed.

Lemma hallucinations_nonempty h : In h hallucinations -> h <> [].
Proof.
  intros Hin. pose proof hallucinations_edges as Hall.
  rewrite List.Forall_forall in Hall.
  destruct (Hall h Hin) as [(c & r & -> & _) _]. discriminate.
Qed.

Lemma transcript_text_trimmed t : trimmed (transcript_text t).
Proof.
  unfold transcript_text.
  destruct (filter_hallucinations_cases hallucinations
              (strip (join (map seg_text (seg_list t))))) as [-> | ->].
  - apply trimmed_nil.
  - apply strip_trimmed.
Qed.

(** X7: the text the server returns holds none of the phrases of the
    hallucination list, and it neither begins nor ends with white
    space. *)
Theorem server_text_is_clean env req st r st' ev m p kw t :
  do_POST env req st = (r, st', ev) ->
  In (Transcribe m p kw (Returned t)) ev ->
  seg_error t = None ->
  exists text,
    responds ev 200 (success_result text (info t))
    /\ (forall h, In h hallucinations -> ~ occurs_in h text)
    /\ trimmed text.
Proof.
  intros Hrun Hin Hseg. exists (transcript_text t).
  split; [eapply transcribed_response; eassumption|]. split.
  - intros h Hh. apply filter_hallucinations_clean; [|exact Hh].
    apply hallucinations_nonempty.
  - apply transcript_text_trimmed.
Qed.

Lemma server_text_is_clean_witness :
  exists text,
    responds (events_of (sample.heard (Returned sample.hello))) 200
      (success_result text (info sample.hello))
    /\ (forall h, In h hallucinations -> ~ occurs_in h text)
    /\ trimmed text.
Proof.
  apply (server_text_is_clean (sample.machine (Returned sample.hello))
           (sample.post (sample.payload 44)) sample.serving
           (Ret tt) sample.serving
           (events_of (sample.heard (Returned sample.hello)))
           sample.small sample.tmp_wav transcribe_args sample.hello).
  - vm_compute. reflexivity.
  - pick_event.
  - reflexivity.
Defined.

(** X8: the text of the script's result neither begins nor ends with
    white space either, while the segments are joined as they come,
    with nothing put between them. *)
Theorem cli_text_is_trimmed env stdin st d st' ev m p kw t :
  transcribe.main env stdin st = (Ret d, st', ev) ->
  In (Transcribe m p kw (Returned t)) ev ->
  seg_error t = None ->
  exists text,
    dict_get (py "text") d = Some (JStr text)
    /\ text = strip (concat (map seg_text (seg_list t)))
    /\ trimmed text.
Proof.
  intros Hmain Hin Hseg.
  pose proof (main_inference _ _ _ _ _ _ _ _ _ _ Hmain Hin) as Hd.
  cbn beta iota in Hd. rewrite Hseg in Hd. subst d.
  exists (strip (join (map seg_text (seg_list t)))).
  split; [vm_compute; reflexivity|]. split; [reflexivity|]. apply strip_trimmed.
Qed.

Lemma cli_text_is_trimmed_witness :
  exists text,
    dict_get (py "text")
      [ (py "success", JBool true);
        (py "text", JStr (py "こんにちは、世界。"));
        (py "language", JStr (py "ja"));
        (py "duration", JFloat (Float (py "1.5"))) ]
    = Some (JStr text)
    /\ text = strip (concat (map seg_text (seg_list sample.hello)))
    /\ trimmed text.
Proof.
  apply (cli_text_is_trimmed (sample.machine (Returned sample.hello))
           (sample.payload 44) sample.boot
           [ (py "success", JBool true);
             (py "text", JStr (py "こんにちは、世界。"));
             (py "language", JStr (py "ja"));
             (py "duration", JFloat (Float (py "1.5"))) ]
           (state_of (transcribe.main (sample.machine (Returned sample.hello))
                        (sample.payload 44) sample.boot))
           (events_of (transcribe.main (sample.machine (Returned sample.hello))
                         (sample.payload 44) sample.boot))
           sample.small sample.tmp_wav transcribe.transcribe_args sample.hello).
  - vm_compute. reflexivity.
  - pick_event.
  - reflexivity.
Defined.

(** X9: no partial results.  When the segment generator raises part
    way, the segments read so far are dropped: the script's result and
    the server's response are the error with the text of that
    exception. *)
Theorem no_partial_results env stdin req st t e m p kw :
  seg_error t = Some e ->
  (forall d st' ev,
     transcribe.main env stdin st = (Ret d, st', ev) ->
     In (Transcribe m p kw (Returned t)) ev ->
     d = transcribe.error_result (exc_str e))
  /\ (forall r st' ev,
        do_POST env req st = (r, st', ev) ->
        In (Transcribe m p kw (Returned t)) ev ->
        responds ev 200 (error_result (exc_str e))).
Proof.
  intros Hseg. split.
  - intros d st' ev Hmain Hin.
    pose proof (main_inference _ _ _ _ _ _ _ _ _ _ Hmain Hin) as Hd.
    cbn beta iota in Hd. rewrite Hseg in Hd. exact Hd.
  - intros r st' ev Hrun Hin. apply do_POST_cases in Hrun as [_ Hrun].
    destruct (POST_run_inference _ _ _ _ _ _ _ _ _ Hrun Hin)
      as (_ & _ & _ & _ & n & _ & _ & _ & _ & _ & ->).
    rewrite Hseg. cbn [app]. responding.
Qed.

Lemma no_partial_results_witness :
  result_of (transcribe.main (sample.machine (Returned sample.cut_off))
               (sample.payload 44) sample.boot)
  = Ret (transcribe.error_result (py "CUDA out of memory"))
  /\ responds (events_of (sample.heard (Returned sample.cut_off))) 200
       (error_result (py "CUDA out of memory")).
Proof.
  destruct (no_partial_results (sample.machine (Returned sample.cut_off))
              (sample.payload 44) (sample.post (sample.payload 44)) sample.serving
              sample.cut_off (mkExc "RuntimeError" (py "CUDA out of memory"))
              sample.small sample.tmp_wav whisper_server.transcribe_args)
    as [_ Hserver].
  - reflexivity.
  - split; [vm_compute; reflexivity|].
    apply (Hserver (Ret tt) sample.serving).
    + vm_compute. reflexivity.
    + pick_event.
Defined.

(* ===================================================================== *)
(** ** Further properties of the POST handler *)
(* ===================================================================== *)

(** Every path of [do_POST] ends with the response; nothing is sent
    before it. *)
Lemma POST_run_tail env req st st' ev :
  POST_run env req st st' ev ->
  exists pre d,
    ev = pre ++ response_events req d
    /\ forallb silent pre = true
    /\ stdout_of pre = []
    /\ (stderr_of pre = []
        \/ exists e, stderr_of pre = [PrintExc e] /\ d = error_result (exc_str e)).
Proof.
  intros H; destruct H;
    match goal with
    | |- exists pre d, ?l = _ /\ _ =>
        match l with
        | response_events _ ?d0 => exists [], d0
        | ?a :: response_events _ ?d0 => exists [a], d0
        | ?a :: ?b :: response_events _ ?d0 => exists [a; b], d0
        | ?a :: ?b :: ?c :: response_events _ ?d0 => exists [a; b; c], d0
        | ?a :: ?b :: ?c :: ?x :: ?y :: response_events _ ?d0 =>
            exists [a; b; c; x; y], d0
        | ?a :: ?b :: ?c :: ?x :: ?y :: ?z :: response_events _ ?d0 =>
            exists [a; b; c; x; y; z], d0
        end
    end;
    (split; [cbn [app]; reflexivity|]);
    (split; [reflexivity|]);
    (split; [reflexivity|]);
    cbn [stderr_of List.filter on_stderr];
    first [left; reflexivity | right; eexists; split; reflexivity].
Qed.

Lemma response_events_quiet req d x :
  In x (response_events req d) -> handles_audio x = false.
Proof.
  unfold response_events. cbn [In].
  intros H. repeat destruct H as [<-|H]; try destruct H; reflexivity.
Qed.

(** X10: the response is the last thing the POST handler does: one
    access-log line, the status line 200, the content type, a
    Content-Length that is the number of bytes of the UTF-8 body (not of
    its characters), the end of the headers and the body, in this order,
    and no status line or body before.  What the handler does to the
    audio comes before the response: the read, the temporary file, the
    inference call and, on the paths that have one, the unlink. *)
Theorem post_response_comes_last env req st :
  exists st' pre body,
    do_POST env req st
    = (Ret tt, st',
       pre ++ [ Stdout (py "[whisper-server] " ++ requestline req);
                SendResponse 200;
                SendHeader (py "Content-Type") (py "application/json; charset=utf-8");
                SendHeader (py "Content-Length") (str_of_int (Z.of_nat (length body)));
                EndHeaders;
                WfileWrite body ])
    /\ forallb silent pre = true
    /\ stdout_of pre = []
    /\ (exists d, body = utf8_encode (json_dumps d))
    /\ forall x,
         In x (events_of (do_POST env req st)) -> handles_audio x = true -> In x pre.
Proof.
  destruct (do_POST_run env req st) as (st' & ev & Heq & Hrun).
  destruct (POST_run_tail _ _ _ _ _ Hrun) as (pre & d & -> & Hsilent & Hout & _).
  exists st', pre, (utf8_encode (json_dumps d)).
  split; [exact Heq|]. split; [exact Hsilent|]. split; [exact Hout|].
  split; [exists d; reflexivity|].
  intros x Hx Haudio. rewrite Heq in Hx. unfold events_of in Hx. cbn [snd] in Hx.
  apply in_app_or in Hx as [Hx|Hx]; [exact Hx|].
  apply response_events_quiet in Hx. congruence.
Qed.

(** X11: every traceback the handler prints is the one of the exception
    whose text it returns: stderr stays empty, or holds one traceback
    and the response is the error with the text of that exception. *)
Theorem traceback_matches_error env req st :
  stderr_of (events_of (do_POST env req st)) = []
  \/ exists e,
       stderr_of (events_of (do_POST env req st)) = [PrintExc e]
       /\ responds (events_of (do_POST env req st)) 200 (error_result (exc_str e)).
Proof.
  destruct (do_POST_run env req st) as (st' & ev & Heq & Hrun).
  rewrite Heq. cbn [events_of snd].
  destruct (POST_run_responds _ _ _ _ _ Hrun) as [d0 Hresp0].
  destruct (POST_run_tail _ _ _ _ _ Hrun) as (pre & d & -> & Hsilent & _ & Herr).
  assert (Hresp : responds (pre ++ response_events req d) 200 d).
  { clear - Hsilent. induction pre as [|x pre IH]; [apply responds_response_events|].
    cbn [forallb] in Hsilent. apply andb_true_iff in Hsilent as [Hx Hpre].
    cbn [app]. apply responds_cons; auto. }
  unfold stderr_of in *. rewrite List.filter_app.
  change (List.filter on_stderr (response_events req d)) with (@nil Event).
  rewrite app_nil_r. destruct Herr as [->|(e & -> & ->)]; [left; reflexivity|].
  right. exists e. split; [reflexivity | exact Hresp].
Qed.

(** X12: a Content-Length that [int()] rejects is not an HTTP error:
    the handler prints the traceback and answers 200 with the text of
    the exception, without reading the body, making a file or calling
    the engine. *)
Theorem post_bad_content_length env req st e :
  header_content_length env req = Raises e ->
  do_POST env req st
  = (Ret tt, st, PrintExc e :: response_events req (error_result (exc_str e)))
  /\ responds (PrintExc e :: response_events req (error_result (exc_str e))) 200
       (error_result (exc_str e))
  /\ List.filter handles_audio
       (PrintExc e :: response_events req (error_result (exc_str e))) = [].
Proof.
  intros Hlen. destruct (do_POST_run env req st) as (st' & ev & Heq & Hrun).
  destruct Hrun;
    try match goal with
        | H : header_content_length env req = _ |- _ => rewrite Hlen in H
        end;
    try discriminate.
  match goal with
  | H : Raises e = Raises _ |- _ => injection H as <-
  end.
  split; [exact Heq|]. split; [responding | reflexivity].
Qed.

Lemma post_bad_content_length_witness :
  do_POST (sample.machine (Returned sample.hello)) sample.bad_length_post sample.serving
  = (Ret tt, sample.serving,
     PrintExc sample.abc_error
       :: response_events sample.bad_length_post
            (error_result (exc_str sample.abc_error))).
Proof.
  destruct (post_bad_content_length (sample.machine (Returned sample.hello))
              sample.bad_length_post sample.serving sample.abc_error) as [Hrun _].
  - vm_compute. reflexivity.
  - exact Hrun.
Defined.

Lemma read_data_at_most req n :
  0 <= n -> (length (read_data req n) <= Z.to_nat n)%nat.
Proof.
  intros Hn. unfold read_data.
  destruct (n =? -1) eqn:E; [apply Z.eqb_eq in E; lia|].
  rewrite length_take. lia.
Qed.

(** A read of 64 KiB or less is not refused. *)
Lemma read_refused_small env n : n <= 65536 -> read_refused env n = None.
Proof.
  intros Hn. unfold read_refused, PY_SSIZE_T_MAX.
  destruct (2 ^ 63 - 1 <? n) eqn:E1; [apply Z.ltb_lt in E1; lia|].
  destruct (65536 + Z.of_N (read_limit env) <? n) eqn:E2;
    [apply Z.ltb_lt in E2; lia | reflexivity].
Qed.

(** X13: the handler goes by the announced length: a Content-Length
    between 1 and 43 is rejected as too short whatever the body holds,
    with nothing but the read done. *)
Theorem post_short_content_length env req st n :
  header_content_length env req = Returned n ->
  0 < n < 44 ->
  do_POST env req st
  = (Ret tt, st,
     RfileRead n
       :: response_events req (error_result (py "Invalid WAV data (too short)"))).
Proof.
  intros Hlen Hn. destruct (do_POST_run env req st) as (st' & ev & Heq & Hrun).
  pose proof (read_data_at_most req n ltac:(lia)) as Hread.
  pose proof (read_refused_small env n ltac:(lia)) as Hfits.
  destruct Hrun;
    try match goal with
        | H : header_content_length env req = _ |- _ => rewrite Hlen in H
        end;
    try discriminate;
    try (match goal with
         | H : Returned n = Returned _ |- _ => injection H as Heqn
         end; exfalso; subst; first [lia | congruence]).
  match goal with
  | H : Returned n = Returned _ |- _ => injection H as <-
  end.
  exact Heq.
Qed.

Lemma post_short_content_length_witness :
  do_POST (sample.machine (Returned sample.hello))
    (sample.lying_post 43 (sample.payload 100)) sample.serving
  = (Ret tt, sample.serving,
     RfileRead 43
       :: response_events (sample.lying_post 43 (sample.payload 100))
            (error_result (py "Invalid WAV data (too short)"))).
Proof.
  apply (post_short_content_length (sample.machine (Returned sample.hello))
           (sample.lying_post 43 (sample.payload 100)) sample.serving 43).
  - vm_compute. reflexivity.
  - lia.
Defined.

(* ===================================================================== *)
(** ** Further properties of the temporary file *)
(* ===================================================================== *)

(** X14: the engine is given exactly the audio of the call: the file it
    reads was written with the bytes [transcribe_wav] received, or with
    the bytes the handler read from the request, which are the first
    Content-Length bytes of the body, at least 44 of them (all of the
    body for -1), and the outcome in the trace is the engine's answer
    to that content. *)
Theorem engine_hears_the_payload env c st st' ev m p kw out :
  run_call env c st = (st', ev) ->
  In (Transcribe m p kw out) ev ->
  In (TmpWrite p (call_audio env c)) ev
  /\ out = whisper_transcribe env m (Some (call_audio env c)) kw
  /\ match c with
     | CliCall wav_bytes => call_audio env c = wav_bytes
     | ServerCall req =>
         exists n,
           header_content_length env req = Returned n
           /\ n <> 0
           /\ call_audio env c
              = (if n =? -1 then rfile req else take (Z.to_nat n) (rfile req))
           /\ (44 <= length (call_audio env c))%nat
     end.
Proof.
  intros Hrun Hin. destruct c as [wav|req]; cbn [run_call] in Hrun.
  - destruct (transcribe_wav_run env wav st) as (r & st0 & ev0 & Heq & Hwav).
    rewrite Heq in Hrun. injection Hrun as <- <-.
    destruct (WAV_run_inference _ _ _ _ _ _ _ _ _ _ Hwav Hin)
      as (_ & _ & -> & Hout & ev1 & -> & _).
    cbn [call_audio]. split; [|split; [exact Hout | reflexivity]].
    apply in_or_app. right. right. left. reflexivity.
  - destruct (do_POST_run env req st) as (st0 & ev0 & Heq & Hpost).
    rewrite Heq in Hrun. injection Hrun as <- <-.
    destruct (POST_run_inference _ _ _ _ _ _ _ _ _ Hpost Hin)
      as (_ & _ & _ & -> & n & Hlen & Hn0 & Hn1 & Hlong & Hout & ->).
    cbn [call_audio]. rewrite Hlen.
    split; [right; right; left; reflexivity|]. split; [exact Hout|].
    exists n. repeat split; auto.
Qed.

Lemma engine_hears_the_payload_witness :
  In (TmpWrite sample.tmp_wav (take 44 (sample.payload 100)))
     (snd (run_call (sample.machine (Returned sample.hello))
             (ServerCall (sample.lying_post 44 (sample.payload 100)))
             sample.serving)).
Proof.
  destruct (engine_hears_the_payload (sample.machine (Returned sample.hello))
              (ServerCall (sample.lying_post 44 (sample.payload 100))) sample.serving
              (fst (run_call (sample.machine (Returned sample.hello))
                      (ServerCall (sample.lying_post 44 (sample.payload 100)))
                      sample.serving))
              (snd (run_call (sample.machine (Returned sample.hello))
                      (ServerCall (sample.lying_post 44 (sample.payload 100)))
                      sample.serving))
              sample.small sample.tmp_wav whisper_server.transcribe_args
              (Returned sample.hello)) as (Hwrite & _).
  - vm_compute. reflexivity.
  - pick_event.
  - exact Hwrite.
Defined.

(** What [load_model()] leaves in the trace. *)
Lemma load_model_events env st r st1 ev0 x :
  transcribe.load_model env st = (r, st1, ev0) ->
  In x ev0 -> handles_audio x = false \/ exists s d c, x = LoadModel s d c.
Proof.
  rewrite load_model_run. intros H Hx. destruct (model st).
  - injection H as <- <- <-. destruct Hx.
  - destruct (whisper_model_error env transcribe.MODEL_SIZE transcribe.DEVICE
                transcribe.COMPUTE_TYPE);
      injection H as <- <- <-; cbn [In] in Hx;
      repeat destruct Hx as [<-|Hx]; try destruct Hx; eauto.
Qed.

(** X15: a call never touches a file that was there before it, and it
    leaves the disk as it found it, with one exception: when the audio
    cannot be written to the temporary file, the file just created
    stays behind, holding what the write had put there ([tmp.write] is
    outside the [try] that unlinks it). *)
Theorem call_keeps_existing_files env c st st' ev :
  run_call env c st = (st', ev) ->
  (forall q data, fs st !! q = Some data -> fs st' !! q = Some data)
  /\ (fs st' = fs st
      \/ exists p e,
           fs st !! p = None
           /\ fs st' = <[p := tmp_written env (call_audio env c)]> (fs st)
           /\ tmp_write_error env (call_audio env c) = Some e
           /\ In (TmpCreate p) ev
           /\ ~ In (Unlink p) ev).
Proof.
  intros Hrun.
  assert (Hmain : fs st' = fs st
      \/ exists p e,
           fs st !! p = None
           /\ fs st' = <[p := tmp_written env (call_audio env c)]> (fs st)
           /\ tmp_write_error env (call_audio env c) = Some e
           /\ In (TmpCreate p) ev
           /\ ~ In (Unlink p) ev).
  { destruct c as [wav|req]; cbn [run_call] in Hrun.
    - destruct (transcribe_wav_run env wav st) as (r & st0 & ev0 & Heq & Hwav).
      rewrite Heq in Hrun. injection Hrun as <- <-.
      destruct Hwav as [x st1 ev1 Hload
                       | m0 st1 ev1 e Hload Hwave
                       | m0 st1 ev1 rate Hload Hwave Htmp
                       | m0 st1 ev1 rate p0 e Hload Hwave Htmp Hwrite
                       | m0 st1 ev1 rate p0 e Hload Hwave Htmp Hwrite Hcall
                       | m0 st1 ev1 rate p0 t e Hload Hwave Htmp Hwrite Hcall Hseg
                       | m0 st1 ev1 rate p0 t Hload Hwave Htmp Hwrite Hcall Hseg];
        destruct (load_model_quiet _ _ _ _ _ Hload) as (Hfs & _ & _);
        try (left; exact Hfs).
      right. exists p0, e. pose proof (tmp_choice_free _ _ _ Htmp) as Hfree.
      rewrite Hfs in Hfree. cbn [fs set_fs call_audio]. rewrite Hfs.
      repeat split; auto.
      + apply in_or_app. right. apply in_or_app. right. left. reflexivity.
      + intros Hu. apply in_app_or in Hu as [Hu|Hu].
        * destruct (load_model_events _ _ _ _ _ _ Hload Hu) as [Hq|(s & d & c0 & Hq)];
            discriminate Hq.
        * apply in_app_or in Hu as [Hu|[Hu|[]]]; [|discriminate Hu].
          apply rate_warning_quiet in Hu as [text Hu]. discriminate Hu.
    - destruct (do_POST_run env req st) as (st0 & ev0 & Heq & Hpost).
      rewrite Heq in Hrun. injection Hrun as <- <-.
      destruct Hpost as [e | | n | n | n | n p e Hlen Hn0 Hn1 Hfits Hlong Htmp Hwrite
                        | n p | n p m e | n p m t e | n p m t | n e];
        try (left; reflexivity).
      right. exists p, e. pose proof (tmp_choice_free _ _ _ Htmp) as Hfree.
      cbn [fs set_fs call_audio]. rewrite Hlen.
      repeat split; auto.
      + right. left. reflexivity.
      + intros [Hu|[Hu|[Hu|Hu]]]; try discriminate Hu.
        apply response_events_quiet in Hu. discriminate Hu. }
  split; [|exact Hmain].
  intros q data Hq. destruct Hmain as [-> | (p & e & Hfree & -> & _)]; [exact Hq|].
  rewrite lookup_insert_ne; [exact Hq|]. intros ->. congruence.
Qed.

Lemma call_keeps_existing_files_witness :
  fs (fst (run_call sample.full_disk_machine
             (ServerCall (sample.post (sample.payload 44))) sample.serving))
  = fs sample.serving
  \/ exists p e,
       fs sample.serving !! p = None
       /\ fs (fst (run_call sample.full_disk_machine
                     (ServerCall (sample.post (sample.payload 44))) sample.serving))
          = <[p := tmp_written sample.full_disk_machine
                     (call_audio sample.full_disk_machine
                        (ServerCall (sample.post (sample.payload 44))))]>
              (fs sample.serving)
       /\ tmp_write_error sample.full_disk_machine
            (call_audio sample.full_disk_machine
               (ServerCall (sample.post (sample.payload 44)))) = Some e
       /\ In (TmpCreate p)
             (snd (run_call sample.full_disk_machine
                     (ServerCall (sample.post (sample.payload 44))) sample.serving))
       /\ ~ In (Unlink p)
              (snd (run_call sample.full_disk_machine
                      (ServerCall (sample.post (sample.payload 44))) sample.serving)).
Proof.
  apply (call_keeps_existing_files sample.full_disk_machine
           (ServerCall (sample.post (sample.payload 44))) sample.serving
           (fst (run_call sample.full_disk_machine
                   (ServerCall (sample.post (sample.payload 44))) sample.serving))
           (snd (run_call sample.full_disk_machine
                   (ServerCall (sample.post (sample.payload 44))) sample.serving))).
  vm_compute. reflexivity.
Defined.

(* ===================================================================== *)
(** ** The server loop *)
(* ===================================================================== *)

(** One request through the handler class: it is answered, once, the
    handler returns, and the model is the one that was there. *)
Lemma handle_one_request_run env g inc st :
  exists st' ev,
    handle_one_request env g inc st = (Ret tt, st', ev)
    /\ statuses ev = [status_of inc]
    /\ model st' = model st
    /\ (forall m p kw out,
          In (Transcribe m p kw out) ev -> model st = Some m /\ kw = transcribe_args)
    /\ ((forall data, tmp_write_error env data = None) -> st' = st).
Proof.
  destruct inc as [req|code req]; cbn [handle_one_request status_of].
  2: { eexists _, _. split; [reflexivity|].
       split; [reflexivity|]. split; [reflexivity|]. split; [|reflexivity].
       intros m p kw out Hin. cbn [In] in Hin.
       repeat destruct Hin as [Hin|Hin]; try discriminate Hin. destruct Hin. }
  unfold status_of_request.
  destruct (bool_decide (command req = py "POST")).
  - destruct (do_POST_run env req st) as (st' & ev & Heq & Hrun).
    exists st', ev. split; [exact Heq|].
    split; [destruct (POST_run_responds _ _ _ _ _ Hrun) as (d & Hst & _); exact Hst|].
    split; [destruct Hrun; reflexivity|].
    split.
    + intros m p kw out Hin.
      destruct (POST_run_inference _ _ _ _ _ _ _ _ _ Hrun Hin) as (_ & _ & Hm & Hkw & _).
      auto.
    + intros Hdisk.
      destruct Hrun as [e | | n | n | n | n p e Hlen Hn0 Hn1 Hfits Hlong Htmp Hwrite
                       | n p | n p m e | n p m t e | n p m t | n e];
        try reflexivity.
      rewrite Hdisk in Hwrite. discriminate Hwrite.
  - destruct (bool_decide (command req = py "GET")).
    + unfold do_GET. destruct (bool_decide (path req = py "/health")).
      * rewrite send_json_response_run. eexists _, _. split; [reflexivity|].
        split; [reflexivity|]. split; [reflexivity|]. split; [|reflexivity].
        intros m p kw out Hin. apply no_transcribe_in_response in Hin. destruct Hin.
      * eexists _, _. split; [reflexivity|].
        split; [reflexivity|]. split; [reflexivity|]. split; [|reflexivity].
        intros m p kw out Hin. cbn [In] in Hin.
        repeat destruct Hin as [Hin|Hin]; try discriminate Hin. destruct Hin.
    + eexists _, _. split; [reflexivity|].
      split; [reflexivity|]. split; [reflexivity|]. split; [|reflexivity].
      intros m p kw out Hin. cbn [In] in Hin.
      repeat destruct Hin as [Hin|Hin]; try discriminate Hin. destruct Hin.
Qed.

Lemma serve_forever_run env g reqs st :
  exists st' ev,
    serve_forever env g reqs st = (Ret tt, st', ev)
    /\ statuses ev = map status_of reqs
    /\ model st' = model st
    /\ (forall m p kw out,
          In (Transcribe m p kw out) ev -> model st = Some m /\ kw = transcribe_args)
    /\ ((forall data, tmp_write_error env data = None) -> st' = st).
Proof.
  revert st. induction reqs as [|req reqs IH]; intros st.
  - exists st, []. cbn [serve_forever map]. split; [reflexivity|].
    split; [reflexivity|]. split; [reflexivity|]. split; [|reflexivity].
    intros m p kw out [].
  - destruct (handle_one_request_run env g req st)
      as (st1 & ev1 & Heq1 & Hst1 & Hm1 & Hcall1 & Hdisk1).
    destruct (IH st1) as (st2 & ev2 & Heq2 & Hst2 & Hm2 & Hcall2 & Hdisk2).
    exists st2, (ev1 ++ ev2). cbn [serve_forever map].
    rewrite bind_run, Heq1. mred. rewrite Heq2.
    split; [reflexivity|].
    split; [rewrite statuses_app, Hst1, Hst2; reflexivity|].
    split; [congruence|].
    split.
    + intros m p kw out Hin. apply in_app_or in Hin as [Hin|Hin].
      * eapply Hcall1; exact Hin.
      * rewrite <- Hm1. eapply Hcall2; exact Hin.
    + intros Hdisk. rewrite (Hdisk2 Hdisk). apply Hdisk1, Hdisk.
Qed.


(** X17: as long as writing a temporary file never fails, the server
    leaves no trace on the disk, however many requests it served: the
    state after the loop is the state before it. *)
Theorem server_leaves_no_files env g reqs st :
  (forall data, tmp_write_error env data = None) ->
  state_of (serve_forever env g reqs st) = st.
Proof.
  intros Hdisk.
  destruct (serve_forever_run env g reqs st) as (st' & ev & Heq & _ & _ & _ & Hst).
  rewrite Heq. exact (Hst Hdisk).
Qed.

Lemma server_leaves_no_files_witness :
  state_of (serve_forever (sample.machine (Returned sample.hello)) sample.globals
              [Parsed (sample.post (sample.payload 44));
               Parsed (sample.request "GET" "/health"); sample.http2_post;
               Parsed (sample.post (sample.payload 100))] sample.serving)
  = sample.serving.
Proof.
  apply (server_leaves_no_files (sample.machine (Returned sample.hello)) sample.globals
           [Parsed (sample.post (sample.payload 44));
            Parsed (sample.request "GET" "/health"); sample.http2_post;
            Parsed (sample.post (sample.payload 100))] sample.serving).
  intros data. reflexivity.
Defined.

(* ===================================================================== *)
(** ** The server process *)
(* ===================================================================== *)

(** [main()] when [parse_args()] ends the process. *)
Lemma server_main_help env g text reqs st :
  main env g (Help text) reqs st = (Raise (SystemExit 0), st, [Stdout text]).
Proof. reflexivity. Qed.

Lemma server_main_refusal env g usage error reqs st :
  main env g (Refusal usage error) reqs st
  = (Raise (SystemExit 2), st, [Stderr usage; Stderr error]).
Proof. reflexivity. Qed.

(** [main()] with its options: three lines, the loop, and the line of
    the shutdown. *)
Lemma server_main_run env g argv reqs st :
  exists st' ev,
    serve_forever env g reqs st = (Ret tt, st', ev)
    /\ exists l1 l2 l3,
         main env g (Options argv) reqs st
         = (Ret tt, st',
            [Stdout l1; Stdout l2; Stdout l3] ++ ev
              ++ [Stdout (LF ++ py "[whisper-server] Shutting down...")]).
Proof.
  destruct (serve_forever_run env g reqs st) as (st' & ev & Heq & _).
  exists st', ev. split; [exact Heq|].
  unfold main. rewrite bind_run. cbn [parse_args].
  change (ret argv st) with (Ret argv, st, @nil Event). mred. cbv zeta.
  eexists _, _, _.
  cbv beta iota delta [print emit]. rewrite !bind_run. mred.
  rewrite Heq. mred. reflexivity.
Qed.

(** X18: once the model is loaded (and the socket bound), the server
    process serves every request and ends, on the keyboard interrupt,
    with exit status 0 and
    the line of the shutdown as the last thing it prints; the model
    loaded at start-up is still the global model then. *)
Theorem server_runs_to_shutdown env environ argv reqs st g st1 ev0 :
  module_body env environ st = (Ret g, st1, ev0) ->
  exists st' ev,
    run_process (script env environ (Options argv) reqs) st = (0, st', ev0 ++ ev)
    /\ statuses (ev0 ++ ev) = map status_of reqs
    /\ last ev = Some (Stdout (LF ++ py "[whisper-server] Shutting down..."))
    /\ stderr_of ev0 = []
    /\ model st'
       = Some (mkModel (MODEL_SIZE (config g)) (actual_device g) (actual_compute_type g)).
Proof.
  intros Hboot.
  destruct (server_main_run env g argv reqs st1) as (st' & ev & Hloop & l1 & l2 & l3 & Hmain).
  destruct (serve_forever_run env g reqs st1) as (st2 & ev2 & Hloop2 & Hst & Hm & _).
  rewrite Hloop in Hloop2. injection Hloop2 as <- <-.
  eexists st', _. split.
  { unfold run_process, script. rewrite bind_run, Hboot. mred. rewrite Hmain. reflexivity. }
  apply module_body_cases in Hboot.
  inversion Hboot as [ | | port Hport Hload Hg Hst1 Hev]; subst; clear Hboot.
  cbv zeta in *. set (cfg := environ_config environ port) in *.
  assert (Hall : forallb startup_event
                   (loading_events env cfg
                      ++ [Stdout (py "[whisper-server] Model loaded successfully")]) = true).
  { rewrite forallb_app, loading_events_startup. reflexivity. }
  destruct (startup_events_quiet _ Hall) as (Hquiet & Hnone & _).
  split; [|split; [|split]].
  - rewrite statuses_app, Hnone. rewrite !statuses_app, Hst.
    change (statuses [Stdout l1; Stdout l2; Stdout l3]) with (@nil Z).
    change (statuses [Stdout (LF ++ py "[whisper-server] Shutting down...")])
      with (@nil Z).
    cbn [app]. apply app_nil_r.
  - rewrite app_assoc. apply last_snoc.
  - exact Hquiet.
  - rewrite Hm. reflexivity.
Qed.

Lemma server_runs_to_shutdown_witness :
  exists st' ev,
    run_process (script (sample.machine (Returned sample.hello)) ∅
                   (Options (mkArgv None None))
                   [Parsed (sample.post (sample.payload 44));
                    Parsed (sample.request "PUT" "/health")])
      sample.boot
    = (0, st',
       events_of (module_body (sample.machine (Returned sample.hello)) ∅ sample.boot)
         ++ ev)
    /\ statuses
         (events_of (module_body (sample.machine (Returned sample.hello)) ∅ sample.boot)
            ++ ev)
       = map status_of
           [Parsed (sample.post (sample.payload 44));
            Parsed (sample.request "PUT" "/health")].
Proof.
  destruct (server_runs_to_shutdown (sample.machine (Returned sample.hello)) ∅
              (mkArgv None None)
              [Parsed (sample.post (sample.payload 44));
               Parsed (sample.request "PUT" "/health")]
              sample.boot
              (mkGlobals (mkConfig (py "small") (py "cuda") (py "float16") 5001)
                 (py "cuda") (py "float16"))
              (state_of (module_body (sample.machine (Returned sample.hello))
                           ∅ sample.boot))
              (events_of (module_body (sample.machine (Returned sample.hello))
                            ∅ sample.boot)))
    as (st' & ev & Hrun & Hst & _).
  - vm_compute. reflexivity.
  - exists st', ev. split; [exact Hrun | exact Hst].
Defined.

(** No request makes the server load a model. *)
Lemma handle_one_request_loads env g inc st :
  model_loads (events_of (handle_one_request env g inc st)) = [].
Proof.
  destruct inc as [req|code req]; cbn [handle_one_request]; [|reflexivity].
  destruct (bool_decide (command req = py "POST")).
  - destruct (do_POST_run env req st) as (st' & ev & Heq & Hrun).
    rewrite Heq. destruct Hrun; reflexivity.
  - destruct (bool_decide (command req = py "GET")); [|reflexivity].
    unfold do_GET. destruct (bool_decide (path req = py "/health")); reflexivity.
Qed.

Lemma model_loads_app ev1 ev2 :
  model_loads (ev1 ++ ev2) = model_loads ev1 ++ model_loads ev2.
Proof. apply List.filter_app. Qed.

Lemma serve_forever_loads env g reqs st :
  model_loads (events_of (serve_forever env g reqs st)) = [].
Proof.
  revert st. induction reqs as [|req reqs IH]; intros st; [reflexivity|].
  cbn [serve_forever]. rewrite bind_run.
  destruct (handle_one_request_run env g req st) as (st1 & ev1 & Heq1 & _).
  pose proof (handle_one_request_loads env g req st) as Hload1.
  rewrite Heq1 in Hload1 |- *. mred.
  specialize (IH st1).
  destruct (serve_forever env g reqs st1) as [[r2 st2] ev2].
  unfold events_of in *. cbn [snd] in *.
  rewrite model_loads_app, Hload1, IH. reflexivity.
Qed.

Lemma loading_events_loads env cfg :
  model_loads (loading_events env cfg)
  = [LoadModel (MODEL_SIZE cfg) (resolved_device env cfg)
       (get_compute_type cfg (resolved_device env cfg))].
Proof.
  unfold loading_events, device_lines.
  destruct (bool_decide (DEVICE cfg = py "cuda")); [|reflexivity].
  destruct (torch env) as [|[|] name]; reflexivity.
Qed.

(** X19: every inference call of the server process is made on the
    model that start-up loaded, with the device and compute type it
    settled on, and with the arguments of the handler; that loading is
    the only one of the process: no request makes the server load a
    model. *)
Theorem server_uses_loaded_model env environ cl reqs st r st' ev m p kw out :
  script env environ cl reqs st = (r, st', ev) ->
  In (Transcribe m p kw out) ev ->
  model_loads ev
  = [LoadModel (model_size m) (model_device m) (model_compute_type m)]
  /\ whisper_model_error env (model_size m) (model_device m) (model_compute_type m) = None
  /\ kw = transcribe_args.
Proof.
  intros Hrun Hin. unfold script in Hrun. rewrite bind_run in Hrun.
  destruct (module_body env environ st) as [[r0 st0] ev0] eqn:Hboot.
  pose proof (module_body_cases _ _ _ _ _ _ Hboot) as Hcase.
  destruct Hcase as [e0 Hport | port e0 Hport Hload | port Hport Hload].
  - injection Hrun as <- <- <-. destruct Hin.
  - injection Hrun as <- <- <-. exfalso.
    assert (Hall : forallb startup_event
                     (loading_events env (environ_config environ port)
                        ++ [Stdout (py "[whisper-server] Failed to load model: "
                                      ++ exc_str e0)]) = true).
    { rewrite forallb_app, loading_events_startup. reflexivity. }
    rewrite forallb_forall in Hall. apply Hall in Hin. discriminate Hin.
  - cbv zeta in *. set (cfg := environ_config environ port) in *.
    set (M := mkModel (MODEL_SIZE cfg) (resolved_device env cfg)
                (get_compute_type cfg (resolved_device env cfg))) in *.
    set (g := mkGlobals cfg (resolved_device env cfg)
                (get_compute_type cfg (resolved_device env cfg))) in *.
    lazy beta iota in Hrun.
    assert (Hall : forallb startup_event
                     (loading_events env cfg
                        ++ [Stdout (py "[whisper-server] Model loaded successfully")]) = true).
    { rewrite forallb_app, loading_events_startup. reflexivity. }
    destruct cl as [argv|text|usage err].
    2: { rewrite server_main_help in Hrun.
         apply (f_equal snd) in Hrun. cbn [snd] in Hrun. subst ev. exfalso.
         apply in_app_or in Hin as [Hin|[Hin|[]]]; [|discriminate Hin].
         rewrite forallb_forall in Hall. apply Hall in Hin. discriminate Hin. }
    2: { rewrite server_main_refusal in Hrun.
         apply (f_equal snd) in Hrun. cbn [snd] in Hrun. subst ev. exfalso.
         apply in_app_or in Hin as [Hin|[Hin|[Hin|[]]]]; try discriminate Hin.
         rewrite forallb_forall in Hall. apply Hall in Hin. discriminate Hin. }
    destruct (server_main_run env g argv reqs (set_model M st))
      as (st2 & ev2 & Hloop & l1 & l2 & l3 & Hmain).
    rewrite Hmain in Hrun. apply (f_equal snd) in Hrun. cbn [snd] in Hrun. subst ev.
    destruct (serve_forever_run env g reqs (set_model M st))
      as (st3 & ev3 & Hloop3 & _ & _ & Hcalls & _).
    pose proof (serve_forever_loads env g reqs (set_model M st)) as Hnoload.
    rewrite Hloop in Hloop3, Hnoload. injection Hloop3 as <- <-.
    unfold events_of in Hnoload. cbn [snd] in Hnoload.
    assert (Hin2 : In (Transcribe m p kw out) ev2).
    { apply in_app_or in Hin as [Hin|Hin].
      - rewrite forallb_forall in Hall. apply Hall in Hin. discriminate Hin.
      - cbn [app In] in Hin. destruct Hin as [Hin|[Hin|[Hin|Hin]]]; try discriminate Hin.
        apply in_app_or in Hin as [Hin|[Hin|[]]]; [exact Hin | discriminate Hin]. }
    destruct (Hcalls _ _ _ _ Hin2) as [Hm Hkw]. cbn [model set_model] in Hm.
    injection Hm as <-. cbn [model_size model_device model_compute_type M].
    split; [|split; [exact Hload | exact Hkw]].
    rewrite !model_loads_app, loading_events_loads, Hnoload. reflexivity.
Qed.

Lemma server_uses_loaded_model_witness :
  model_loads
    (events_of (script (sample.machine (Returned sample.hello)) ∅ (Options (mkArgv None None))
                  [Parsed (sample.post (sample.payload 44))] sample.boot))
  = [LoadModel (py "small") (py "cuda") (py "float16")].
Proof.
  destruct (server_uses_loaded_model (sample.machine (Returned sample.hello)) ∅
              (Options (mkArgv None None)) [Parsed (sample.post (sample.payload 44))] sample.boot
              (result_of (script (sample.machine (Returned sample.hello)) ∅
                            (Options (mkArgv None None)) [Parsed (sample.post (sample.payload 44))]
                            sample.boot))
              (state_of (script (sample.machine (Returned sample.hello)) ∅
                           (Options (mkArgv None None)) [Parsed (sample.post (sample.payload 44))]
                           sample.boot))
              (events_of (script (sample.machine (Returned sample.hello)) ∅
                            (Options (mkArgv None None)) [Parsed (sample.post (sample.payload 44))]
                            sample.boot))
              sample.small sample.tmp_wav transcribe_args (Returned sample.hello))
    as (Hloads & _).
  - vm_compute. reflexivity.
  - pick_event.
  - exact Hloads.
Defined.

(** X20: a WHISPER_PORT that [int()] cannot read stops the server
    before anything else happens: the exception is not caught, the
    process ends with its traceback and exit status 1, having printed
    nothing, loaded no model and served no request, whatever the
    command line holds. *)
Theorem bad_port_stops_the_server env environ cl reqs st e :
  py_int env (environ_get environ (py "WHISPER_PORT") (py "5001")) = Raises e ->
  run_process (script env environ cl reqs) st = (1, st, [PrintExc e]).
Proof.
  intros Hport.
  destruct (module_body_run env environ st) as (r & st' & ev & Heq & Hcase).
  unfold run_process, script. rewrite bind_run, Heq.
  destruct Hcase as [e0 Hport0 | port e0 Hport0 Hload | port Hport0 Hload];
    rewrite Hport in Hport0; [|discriminate Hport0..].
  injection Hport0 as <-. reflexivity.
Qed.

Lemma bad_port_stops_the_server_witness :
  run_process (script (sample.machine (Returned sample.hello))
                 {[ py "WHISPER_PORT" := py "abc" ]} (Options (mkArgv (Some 8080) None))
                 [Parsed (sample.request "GET" "/health")]) sample.boot
  = (1, sample.boot, [PrintExc sample.abc_error]).
Proof.
  apply (bad_port_stops_the_server (sample.machine (Returned sample.hello))
           {[ py "WHISPER_PORT" := py "abc" ]} (Options (mkArgv (Some 8080) None))
           [Parsed (sample.request "GET" "/health")] sample.boot sample.abc_error).
  vm_compute. reflexivity.
Defined.

Lemma cpu_is_not_cuda : py "cpu" <> py "cuda".
Proof. intros H. vm_compute in H. discriminate H. Qed.

(** X21: how start-up settles the device and the compute type: the
    device is "cuda" exactly when "cuda" is configured and torch finds
    CUDA; any other configured device is taken as it is, torch is not
    asked and no line about CUDA is printed; the compute type is "int8"
    whenever the device is "cpu", also when "cpu" was configured
    together with another compute type, and the configured one
    otherwise. *)
Theorem device_resolution env environ st g st' ev0 :
  module_body env environ st = (Ret g, st', ev0) ->
  (actual_device g = py "cuda"
   <-> DEVICE (config g) = py "cuda" /\ exists name, torch env = TorchCuda true name)
  /\ (DEVICE (config g) <> py "cuda" ->
      actual_device g = DEVICE (config g) /\ length (stdout_of ev0) = 3%nat)
  /\ (actual_device g = py "cpu" -> actual_compute_type g = py "int8")
  /\ (actual_device g <> py "cpu" -> actual_compute_type g = COMPUTE_TYPE (config g)).
Proof.
  intros Hboot. apply module_body_cases in Hboot.
  inversion Hboot as [ | | port Hport Hload Hg Hst Hev]; subst; clear Hboot.
  cbv zeta in *. set (cfg := environ_config environ port) in *.
  cbn [config actual_device actual_compute_type].
  split; [|split; [|split]].
  - unfold resolved_device. case_bool_decide as Hdev.
    + destruct (torch env) as [|[|] name].
      * split; [intros H; destruct (cpu_is_not_cuda H)|].
        intros [_ [name H]]. discriminate H.
      * split; [intros _; split; [exact Hdev | exists name; reflexivity] | reflexivity].
      * split; [intros H; destruct (cpu_is_not_cuda H)|].
        intros [_ [name' H]]. discriminate H.
    + split; [intros H; destruct (Hdev H) | intros [H _]; destruct (Hdev H)].
  - intros Hdev. unfold loading_events, resolved_device, device_lines.
    rewrite !bool_decide_eq_false_2 by exact Hdev. split; reflexivity.
  - intros Hcpu. unfold get_compute_type.
    rewrite bool_decide_eq_true_2 by exact Hcpu. reflexivity.
  - intros Hcpu. unfold get_compute_type.
    rewrite bool_decide_eq_false_2 by exact Hcpu. reflexivity.
Qed.

Lemma device_resolution_witness :
  actual_device
    (mkGlobals (mkConfig (py "small") (py "cpu") (py "float16") 5001)
       (py "cpu") (py "int8")) = py "cpu"
  /\ actual_compute_type
       (mkGlobals (mkConfig (py "small") (py "cpu") (py "float16") 5001)
          (py "cpu") (py "int8")) = py "int8".
Proof.
  destruct (device_resolution (sample.machine (Returned sample.hello))
              {[ py "WHISPER_DEVICE" := py "cpu" ]} sample.boot
              (mkGlobals (mkConfig (py "small") (py "cpu") (py "float16") 5001)
                 (py "cpu") (py "int8"))
              (state_of (module_body (sample.machine (Returned sample.hello))
                           {[ py "WHISPER_DEVICE" := py "cpu" ]} sample.boot))
              (events_of (module_body (sample.machine (Returned sample.hello))
                            {[ py "WHISPER_DEVICE" := py "cpu" ]} sample.boot)))
    as (_ & Hkeep & Hcpu & _).
  - vm_compute. reflexivity.
  - split; [reflexivity | exact (Hcpu eq_refl)].
Defined.

(* ===================================================================== *)
(** ** The access log *)
(* ===================================================================== *)

Lemma handle_one_request_stdout env g inc st :
  stdout_of (events_of (handle_one_request env g inc st)) = log_of inc.
Proof.
  destruct inc as [req|code req]; cbn [handle_one_request log_of]; [|reflexivity].
  unfold log_lines, status_of_request.
  destruct (bool_decide (command req = py "POST")).
  - destruct (do_POST_run env req st) as (st' & ev & Heq & Hrun).
    rewrite Heq. unfold events_of. cbn [snd].
    destruct (POST_run_tail _ _ _ _ _ Hrun) as (pre & d & -> & _ & Hout & _).
    rewrite stdout_of_app, Hout. reflexivity.
  - destruct (bool_decide (command req = py "GET")); [|reflexivity].
    unfold do_GET. destruct (bool_decide (path req = py "/health")); reflexivity.
Qed.

Lemma serve_forever_stdout env g reqs st :
  stdout_of (events_of (serve_forever env g reqs st)) = flat_map log_of reqs.
Proof.
  revert st. induction reqs as [|req reqs IH]; intros st; [reflexivity|].
  cbn [serve_forever flat_map]. rewrite bind_run.
  destruct (handle_one_request_run env g req st) as (st1 & ev1 & Heq1 & _).
  pose proof (handle_one_request_stdout env g req st) as Hlog.
  rewrite Heq1 in Hlog |- *. mred.
  specialize (IH st1).
  destruct (serve_forever env g reqs st1) as [[r2 st2] ev2].
  unfold events_of in *. cbn [snd] in *.
  rewrite stdout_of_app, Hlog, IH. reflexivity.
Qed.

Lemma tagged_line x : tagged (py "[whisper-server] " ++ x) = true.
Proof. apply (proj2 (startswith_spec _ _)). exists x. reflexivity. Qed.

Lemma stdout_of_line l : stdout_of [Stdout l] = [l].
Proof. reflexivity. Qed.

Lemma log_of_tagged inc line : In line (log_of inc) -> tagged line = true.
Proof.
  destruct inc as [req|code req]; cbn [log_of].
  - unfold log_lines. cbv zeta. intros H. apply in_app_or in H as [H|H].
    + destruct (status_of_request req =? 200); [destruct H|].
      destruct H as [<-|[]]. apply tagged_line.
    + destruct H as [<-|[]]. apply tagged_line.
  - intros [<-|[<-|[]]]; apply tagged_line.
Qed.


Lemma loading_events_tagged env cfg line :
  In line (stdout_of (loading_events env cfg)) -> tagged line = true.
Proof.
  unfold loading_events. rewrite !stdout_of_app. intros H.
  apply in_app_or in H as [H|H].
  - destruct H as [<-|[]]. vm_compute. reflexivity.
  - apply in_app_or in H as [H|H].
    + unfold device_lines in H.
      destruct (bool_decide (DEVICE cfg = py "cuda")); [|destruct H].
      destruct (torch env) as [|[|] name]; destruct H as [<-|[]];
        vm_compute; reflexivity.
    + destruct H as [<-|[]]. vm_compute. reflexivity.
Qed.

Lemma server_main_stdout env g cl reqs st line :
  In line (stdout_of (events_of (main env g cl reqs st))) ->
  tagged line = true
  \/ line = LF ++ py "[whisper-server] Shutting down..."
  \/ cl = Help line.
Proof.
  destruct cl as [argv|text|usage err].
  2: { rewrite server_main_help. intros [<-|[]]. auto. }
  2: { rewrite server_main_refusal. intros []. }
  unfold main. rewrite bind_run. cbn [parse_args].
  change (ret argv st) with (Ret argv, st, @nil Event). mred. cbv zeta.
  cbv beta iota delta [print emit]. rewrite !bind_run. mred.
  destruct (serve_forever_run env g reqs st) as (st' & ev & Heq & _).
  pose proof (serve_forever_stdout env g reqs st) as Hlog.
  rewrite Heq in Hlog |- *. mred. unfold events_of in *. cbn [snd] in *.
  rewrite !stdout_of_app, Hlog, !stdout_of_line. intros H.
  apply in_app_or in H as [H|H]; [destruct H|].
  apply in_app_or in H as [H|H].
  { destruct H as [<-|[]]. left. vm_compute. reflexivity. }
  apply in_app_or in H as [H|H].
  { destruct H as [<-|[]]. left. vm_compute. reflexivity. }
  apply in_app_or in H as [H|H].
  { destruct H as [<-|[]]. left. vm_compute. reflexivity. }
  apply in_app_or in H as [H|H].
  - left. apply in_flat_map in H as (inc & _ & H). exact (log_of_tagged inc line H).
  - destruct H as [<-|[]]. right. left. reflexivity.
Qed.

(** X23: every line the server process writes on stdout begins with
    "[whisper-server] ": the lines of start-up, the failure to load the
    model, the lines of [main()] and the access log.  There are two
    exceptions: the line of the shutdown, which begins with a line feed,
    and the help text, which argparse writes, after the lines of
    start-up, when the command line asks for it. *)
Theorem server_stdout_is_tagged env environ cl reqs st r st' ev line :
  script env environ cl reqs st = (r, st', ev) ->
  In line (stdout_of ev) ->
  tagged line = true
  \/ line = LF ++ py "[whisper-server] Shutting down..."
  \/ cl = Help line.
Proof.
  intros Hrun Hin. unfold script in Hrun. rewrite bind_run in Hrun.
  destruct (module_body env environ st) as [[r0 st0] ev0] eqn:Hboot.
  pose proof (module_body_cases _ _ _ _ _ _ Hboot) as Hcase.
  destruct Hcase as [e0 Hport | port e0 Hport Hload | port Hport Hload].
  - apply (f_equal snd) in Hrun. cbn [snd] in Hrun. subst ev. destruct Hin.
  - apply (f_equal snd) in Hrun. cbn [snd] in Hrun. subst ev.
    rewrite stdout_of_app, stdout_of_line in Hin.
    apply in_app_or in Hin as [Hin|Hin]; left.
    + eapply loading_events_tagged, Hin.
    + destruct Hin as [<-|[]]. vm_compute. reflexivity.
  - cbv zeta in *. lazy beta iota in Hrun.
    match type of Hrun with
    | context [main env ?g cl reqs ?s] =>
        pose proof (server_main_stdout env g cl reqs s line) as Hmain;
        destruct (main env g cl reqs s) as [[r2 st2] ev2]
    end.
    apply (f_equal snd) in Hrun. cbn [snd] in Hrun. subst ev.
    unfold events_of in Hmain. cbn [snd] in Hmain.
    rewrite !stdout_of_app, stdout_of_line in Hin.
    apply in_app_or in Hin as [Hin|Hin]; [|exact (Hmain Hin)].
    apply in_app_or in Hin as [Hin|Hin]; left.
    + eapply loading_events_tagged, Hin.
    + destruct Hin as [<-|[]]. vm_compute. reflexivity.
Qed.

Lemma server_stdout_is_tagged_witness :
  tagged (py "usage: whisper_server.py [-h] [--port PORT] [--host HOST]") = true
  \/ py "usage: whisper_server.py [-h] [--port PORT] [--host HOST]"
     = LF ++ py "[whisper-server] Shutting down..."
  \/ Help (py "usage: whisper_server.py [-h] [--port PORT] [--host HOST]")
     = Help (py "usage: whisper_server.py [-h] [--port PORT] [--host HOST]").
Proof.
  apply (server_stdout_is_tagged (sample.machine (Returned sample.hello)) ∅
           (Help (py "usage: whisper_server.py [-h] [--port PORT] [--host HOST]"))
           [Parsed (sample.post (sample.payload 44))] sample.boot
           (result_of (script (sample.machine (Returned sample.hello)) ∅
                         (Help (py "usage: whisper_server.py [-h] [--port PORT] [--host HOST]"))
                         [Parsed (sample.post (sample.payload 44))]
                         sample.boot))
           (state_of (script (sample.machine (Returned sample.hello)) ∅
                        (Help (py "usage: whisper_server.py [-h] [--port PORT] [--host HOST]"))
                        [Parsed (sample.post (sample.payload 44))]
                        sample.boot))
           (events_of (script (sample.machine (Returned sample.hello)) ∅
                         (Help (py "usage: whisper_server.py [-h] [--port PORT] [--host HOST]"))
                         [Parsed (sample.post (sample.payload 44))]
                         sample.boot))).
  - vm_compute. reflexivity.
  - vm_compute. repeat (first [left; reflexivity | right]).
Defined.

(* ===================================================================== *)
(** ** The script and the server side by side *)
(* ===================================================================== *)

(** X24: the two programs differ by the filter alone: for the same
    transcription the text of the server's response is the text of the
    script's result passed through the hallucination filter, that is
    the same text or the empty one; language and duration are the
    same. *)
Theorem server_text_is_filtered_cli_text
    env1 stdin st1 d st1' ev1 m1 p1 kw1 env2 req st2 r st2' ev2 m2 p2 kw2 t :
  transcribe.main env1 stdin st1 = (Ret d, st1', ev1) ->
  In (Transcribe m1 p1 kw1 (Returned t)) ev1 ->
  do_POST env2 req st2 = (r, st2', ev2) ->
  In (Transcribe m2 p2 kw2 (Returned t)) ev2 ->
  seg_error t = None ->
  exists text,
    dict_get (py "text") d = Some (JStr text)
    /\ responds ev2 200
         (success_result (filter_hallucinations hallucinations text) (info t))
    /\ (filter_hallucinations hallucinations text = text
        \/ filter_hallucinations hallucinations text = [])
    /\ dict_get (py "language") d = Some (JStr (info_language (info t)))
    /\ dict_get (py "duration") d = Some (JFloat (info_duration (info t))).
Proof.
  intros Hmain Hin1 Hpost Hin2 Hseg.
  pose proof (main_inference _ _ _ _ _ _ _ _ _ _ Hmain Hin1) as Hd.
  cbn beta iota in Hd. rewrite Hseg in Hd. subst d.
  exists (strip (join (map seg_text (seg_list t)))).
  split; [vm_compute; reflexivity|].
  split; [exact (transcribed_response _ _ _ _ _ _ _ _ _ _ Hpost Hin2 Hseg)|].
  split.
  - destruct (filter_hallucinations_cases hallucinations
                (strip (join (map seg_text (seg_list t))))); auto.
  - split; vm_compute; reflexivity.
Qed.

Lemma server_text_is_filtered_cli_text_witness :
  exists text,
    dict_get (py "text")
      (transcribe.success_result (join (map seg_text (seg_list sample.credits)))
         (info sample.credits)) = Some (JStr text)
    /\ responds (events_of (sample.heard (Returned sample.credits))) 200
         (success_result (filter_hallucinations hallucinations text)
            (info sample.credits)).
Proof.
  destruct (server_text_is_filtered_cli_text
              (sample.machine (Returned sample.credits)) (sample.payload 44) sample.boot
              (transcribe.success_result (join (map seg_text (seg_list sample.credits)))
                 (info sample.credits))
              (state_of (transcribe.main (sample.machine (Returned sample.credits))
                           (sample.payload 44) sample.boot))
              (events_of (transcribe.main (sample.machine (Returned sample.credits))
                            (sample.payload 44) sample.boot))
              sample.small sample.tmp_wav transcribe.transcribe_args
              (sample.machine (Returned sample.credits))
              (sample.post (sample.payload 44)) sample.serving
              (result_of (sample.heard (Returned sample.credits)))
              (state_of (sample.heard (Returned sample.credits)))
              (events_of (sample.heard (Returned sample.credits)))
              sample.small sample.tmp_wav transcribe_args sample.credits)
    as (text & Htext & Hresp & _).
  - vm_compute. reflexivity.
  - pick_event.
  - vm_compute. reflexivity.
  - pick_event.
  - reflexivity.
  - exists text. split; [exact Htext | exact Hresp].
Defined.

(** X25: the filter is idempotent, for any list of phrases: what it
    lets through, or the empty text it puts in its place, passes a
    second time unchanged. *)
Theorem filter_is_idempotent hs text :
  filter_hallucinations hs (filter_hallucinations hs text)
  = filter_hallucinations hs text.
Proof.
  destruct (filter_hallucinations_cases hs text) as [H | H]; rewrite H.
  - destruct (filter_hallucinations_cases hs []) as [H0 | H0]; exact H0.
  - exact H.
Qed.

(** X26: a POST that the base class has parsed is served whatever its
    path: the handler never looks at [self.path], nor at the settings
    of start-up; two POST requests with the same request line, headers
    and body get the same answer. *)
Theorem post_path_is_ignored env g g' target target' line hs body st :
  handle_one_request env g (Parsed (mkRequest (py "POST") target line hs body)) st
  = handle_one_request env g' (Parsed (mkRequest (py "POST") target' line hs body)) st.
Proof.
  unfold handle_one_request. cbn [command].
  rewrite !bool_decide_eq_true_2 by reflexivity.
  reflexivity.
Qed.

(* ===================================================================== *)
(** ** What goes to stderr *)
(* ===================================================================== *)

Lemma load_model_stderr env st r st1 ev0 x :
  transcribe.load_model env st = (r, st1, ev0) ->
  In x ev0 -> on_stderr x = true ->
  exists text, x = Stderr (py "[faster-whisper] " ++ text).
Proof.
  rewrite load_model_run. intros H Hx Herr.
  assert (Hloading : exists text,
             transcribe.loading_line = py "[faster-whisper] " ++ text).
  { apply (proj1 (startswith_spec _ _)). vm_compute. reflexivity. }
  assert (Hloaded : exists text,
             transcribe.loaded_line = py "[faster-whisper] " ++ text).
  { apply (proj1 (startswith_spec _ _)). vm_compute. reflexivity. }
  destruct Hloading as [t1 H1]. destruct Hloaded as [t2 H2].
  destruct (model st).
  - injection H as <- <- <-. destruct Hx.
  - destruct (whisper_model_error env transcribe.MODEL_SIZE transcribe.DEVICE
                transcribe.COMPUTE_TYPE);
      injection H as <- <- <-; cbn [In] in Hx;
      repeat destruct Hx as [<-|Hx]; try destruct Hx; try discriminate Herr;
      rewrite ?H1, ?H2; eauto.
Qed.

Lemma rate_warning_stderr rate x :
  In x (transcribe.rate_warning rate) ->
  exists text, x = Stderr (py "[faster-whisper] " ++ text).
Proof.
  unfold transcribe.rate_warning.
  destruct (negb (rate =? 16000)); cbn [In]; [|tauto].
  intros [<-|[]].
  replace (py "[faster-whisper] Warning: sample rate ")
    with (py "[faster-whisper] " ++ py "Warning: sample rate ")
    by (vm_compute; reflexivity).
  rewrite <- app_assoc. eexists. reflexivity.
Qed.

Lemma WAV_run_stderr env wav st r st' ev x :
  transcribe.WAV_run env wav st r st' ev ->
  In x ev -> on_stderr x = true ->
  exists text, x = Stderr (py "[faster-whisper] " ++ text).
Proof.
  intros Hrun Hx Herr.
  destruct Hrun as [x0 st1 ev1 Hload
                   | m0 st1 ev1 e Hload Hwave
                   | m0 st1 ev1 rate Hload Hwave Htmp
                   | m0 st1 ev1 rate p0 e Hload Hwave Htmp Hwrite
                   | m0 st1 ev1 rate p0 e Hload Hwave Htmp Hwrite Hcall
                   | m0 st1 ev1 rate p0 t e Hload Hwave Htmp Hwrite Hcall Hseg
                   | m0 st1 ev1 rate p0 t Hload Hwave Htmp Hwrite Hcall Hseg];
    try exact (load_model_stderr _ _ _ _ _ _ Hload Hx Herr);
    (apply in_app_or in Hx as [Hx|Hx];
     [exact (load_model_stderr _ _ _ _ _ _ Hload Hx Herr)|]);
    try exact (rate_warning_stderr _ _ Hx);
    (apply in_app_or in Hx as [Hx|Hx]; [exact (rate_warning_stderr _ _ Hx)|]);
    cbn [In] in Hx; repeat destruct Hx as [<-|Hx]; try destruct Hx;
    discriminate Herr.
Qed.

Lemma handle_one_request_stderr env g inc st x :
  In x (events_of (handle_one_request env g inc st)) ->
  on_stderr x = true -> exists e, x = PrintExc e.
Proof.
  destruct inc as [req|code req]; cbn [handle_one_request].
  2: { intros Hx Herr. cbn in Hx.
       repeat destruct Hx as [<-|Hx]; try destruct Hx; discriminate Herr. }
  destruct (bool_decide (command req = py "POST")).
  - destruct (do_POST_run env req st) as (st' & ev & Heq & Hrun).
    rewrite Heq. unfold events_of. cbn [snd].
    destruct (POST_run_tail _ _ _ _ _ Hrun) as (pre & d & -> & _ & _ & Hpre).
    intros Hx Herr. apply in_app_or in Hx as [Hx|Hx].
    + assert (Hin : In x (stderr_of pre)) by (apply List.filter_In; auto).
      destruct Hpre as [Hpre|(e & Hpre & _)]; rewrite Hpre in Hin.
      * destruct Hin.
      * destruct Hin as [<-|[]]. eauto.
    + cbn [response_events In] in Hx.
      repeat destruct Hx as [<-|Hx]; try destruct Hx; discriminate Herr.
  - destruct (bool_decide (command req = py "GET")).
    + unfold do_GET. destruct (bool_decide (path req = py "/health")).
      * rewrite send_json_response_run. unfold events_of. cbn [snd].
        intros Hx Herr. cbn [response_events In] in Hx.
        repeat destruct Hx as [<-|Hx]; try destruct Hx; discriminate Herr.
      * intros Hx Herr. cbn in Hx.
        repeat destruct Hx as [<-|Hx]; try destruct Hx; discriminate Herr.
    + intros Hx Herr. cbn in Hx.
      repeat destruct Hx as [<-|Hx]; try destruct Hx; discriminate Herr.
Qed.

Lemma serve_forever_stderr env g reqs st x :
  In x (events_of (serve_forever env g reqs st)) ->
  on_stderr x = true -> exists e, x = PrintExc e.
Proof.
  revert st. induction reqs as [|req reqs IH]; intros st; [intros []|].
  cbn [serve_forever]. rewrite bind_run.
  destruct (handle_one_request_run env g req st) as (st1 & ev1 & Heq1 & _).
  pose proof (handle_one_request_stderr env g req st x) as H1.
  rewrite Heq1 in H1 |- *. mred.
  specialize (IH st1).
  destruct (serve_forever env g reqs st1) as [[r2 st2] ev2].
  unfold events_of in *. cbn [snd] in *.
  intros Hx Herr. apply in_app_or in Hx as [Hx|Hx]; auto.
Qed.

(** X27: the two programs use stderr differently.  The script writes
    on it the lines of its progress, each behind "[faster-whisper] ";
    what fails inside [transcribe_wav] never puts a traceback there, it
    goes into the JSON result: the one traceback the script can end
    with is that of its final [print], as the last thing it writes,
    with exit status 1.  The server process writes tracebacks on stderr
    and nothing else, its progress going to stdout; the one exception
    is the usage message of argparse for a command line it refuses,
    with exit status 2. *)
Theorem stderr_discipline env x :
  (forall stdin st code st' ev,
     run_process (transcribe.script env stdin) st = (code, st', ev) ->
     In x ev -> on_stderr x = true ->
     (exists text, x = Stderr (py "[faster-whisper] " ++ text))
     \/ (exists d e,
           stdout_error env (json_dumps d) = Some e
           /\ x = PrintExc e /\ last ev = Some x /\ code = 1))
  /\ (forall environ cl reqs st code st' ev,
        run_process (script env environ cl reqs) st = (code, st', ev) ->
        In x ev -> on_stderr x = true ->
        (exists e, x = PrintExc e)
        \/ (exists usage error,
              cl = Refusal usage error /\ code = 2
              /\ (x = Stderr usage \/ x = Stderr error))).
Proof.
  split.
  - intros stdin st code st' ev Hrun Hx Herr.
    destruct (main_printed env stdin st) as (d & st0 & ev0 & Hmain & _ & _ & Hsub).
    assert (Hwav : In x ev0 ->
                   exists text, x = Stderr (py "[faster-whisper] " ++ text)).
    { intros H0. apply Hsub in H0.
      destruct (transcribe_wav_run env stdin st) as (r1 & st1 & ev1 & Heq & Hwav).
      rewrite Heq in H0. unfold events_of in H0. cbn [snd] in H0.
      exact (WAV_run_stderr _ _ _ _ _ _ _ Hwav H0 Herr). }
    unfold transcribe.printed in Hmain.
    destruct (stdout_error env (json_dumps d)) as [e|] eqn:Hout.
    + rewrite (script_raises _ _ _ _ _ _ Hmain) in Hrun.
      injection Hrun as <- <- <-.
      apply in_app_or in Hx as [Hx|Hx]; [left; exact (Hwav Hx)|].
      destruct Hx as [<-|[]]. right. exists d, e.
      split; [exact Hout|]. split; [reflexivity|]. split; [apply last_snoc | reflexivity].
    + rewrite (script_run _ _ _ _ _ _ Hmain) in Hrun.
      injection Hrun as <- <- <-.
      apply in_app_or in Hx as [Hx|Hx]; [left; exact (Hwav Hx)|].
      destruct Hx as [<-|[]]. discriminate Herr.
  - intros environ cl reqs st code st' ev Hrun Hx Herr.
    unfold run_process, script in Hrun. rewrite bind_run in Hrun.
    destruct (module_body env environ st) as [[r0 st0] ev0] eqn:Hboot.
    pose proof (module_body_cases _ _ _ _ _ _ Hboot) as Hcase.
    destruct Hcase as [e0 Hport | port e0 Hport Hload | port Hport Hload].
    + apply (f_equal snd) in Hrun. cbn [snd] in Hrun. subst ev.
      destruct Hx as [<-|[]]. eauto.
    + apply (f_equal snd) in Hrun. cbn [snd] in Hrun. subst ev. exfalso.
      assert (Hall : forallb startup_event
                       (loading_events env (environ_config environ port)
                          ++ [Stdout (py "[whisper-server] Failed to load model: "
                                        ++ exc_str e0)]) = true).
      { rewrite forallb_app, loading_events_startup. reflexivity. }
      rewrite forallb_forall in Hall. apply Hall in Hx.
      destruct x; discriminate.
    + cbv zeta in *. lazy beta iota in Hrun.
      assert (Hall : forallb startup_event
                       (loading_events env (environ_config environ port)
                          ++ [Stdout (py "[whisper-server] Model loaded successfully")])
                     = true).
      { rewrite forallb_app, loading_events_startup. reflexivity. }
      assert (Hstart : forall l,
                 In x (loading_events env (environ_config environ port)
                         ++ [Stdout (py "[whisper-server] Model loaded successfully")])
                 -> l).
      { intros l H0. exfalso. rewrite forallb_forall in Hall. apply Hall in H0.
        destruct x; discriminate. }
      destruct cl as [argv|text|usage err].
      2: { rewrite server_main_help in Hrun.
           apply (f_equal snd) in Hrun. cbn [snd] in Hrun. subst ev.
           apply in_app_or in Hx as [Hx|[Hx|[]]]; [exact (Hstart _ Hx)|].
           subst x. discriminate Herr. }
      2: { rewrite server_main_refusal in Hrun.
           pose proof (f_equal (fun t => fst (fst t)) Hrun) as Hcode.
           cbn [fst] in Hcode.
           apply (f_equal snd) in Hrun. cbn [snd] in Hrun. subst ev code.
           apply in_app_or in Hx as [Hx|Hx]; [exact (Hstart _ Hx)|].
           right. exists usage, err. split; [reflexivity|]. split; [reflexivity|].
           destruct Hx as [<-|[<-|[]]]; auto. }
      match type of Hrun with
      | context [main env ?g (Options argv) reqs ?s] =>
          destruct (server_main_run env g argv reqs s)
            as (st2 & ev2 & Hloop & l1 & l2 & l3 & Hmain);
          pose proof (serve_forever_stderr env g reqs s x) as Hserve;
          rewrite Hmain in Hrun; rewrite Hloop in Hserve
      end.
      apply (f_equal snd) in Hrun. cbn [snd] in Hrun. subst ev.
      unfold events_of in Hserve. cbn [snd] in Hserve.
      apply in_app_or in Hx as [Hx|Hx]; [exact (Hstart _ Hx)|].
      apply in_app_or in Hx as [Hx|Hx].
      * cbn [In] in Hx. repeat destruct Hx as [<-|Hx]; try destruct Hx;
          discriminate Herr.
      * apply in_app_or in Hx as [Hx|Hx]; [auto|].
        destruct Hx as [<-|[]]. discriminate Herr.
Qed.

Lemma stderr_discipline_witness :
  (exists text, PrintExc sample.hello_unprintable
                = Stderr (py "[faster-whisper] " ++ text))
  \/ (exists d e,
        stdout_error (sample.ascii_machine (Returned sample.hello)) (json_dumps d)
        = Some e
        /\ PrintExc sample.hello_unprintable = PrintExc e
        /\ last (snd (run_process
                        (transcribe.script (sample.ascii_machine (Returned sample.hello))
                           (sample.payload 44)) sample.boot))
           = Some (PrintExc sample.hello_unprintable)
        /\ fst (fst (run_process
                       (transcribe.script (sample.ascii_machine (Returned sample.hello))
                          (sample.payload 44)) sample.boot)) = 1).
Proof.
  destruct (stderr_discipline (sample.ascii_machine (Returned sample.hello))
              (PrintExc sample.hello_unprintable)) as [Hscript _].
  apply (Hscript (sample.payload 44) sample.boot
           (fst (fst (run_process
                        (transcribe.script (sample.ascii_machine (Returned sample.hello))
                           (sample.payload 44)) sample.boot)))
           (snd (fst (run_process
                        (transcribe.script (sample.ascii_machine (Returned sample.hello))
                           (sample.payload 44)) sample.boot)))
           (snd (run_process
                   (transcribe.script (sample.ascii_machine (Returned sample.hello))
                      (sample.payload 44)) sample.boot))).
  - vm_compute. reflexivity.
  - pick_event.
  - reflexivity.
Defined.
